(** * Admin-styles and migration-notice scripts: a shallow embedding

    The two browser scripts of the repository are embedded as functions
    over explicit page states; the definitions come first, the
    properties after them.

    - [Js]: the ECMAScript string and number primitives the scripts call
      ([trim], [toLowerCase], [indexOf], [parseInt], [toString(radix)],
      [padStart], [match(/\d+/g)], the 32-bit operators).
    - [Url]: how the URL constructor reads the scheme of its input.
    - [AdminStyles]: [sanitizeCssUrl], the color helpers and the
      color-scheme selection handler of [admin-styles.js].
    - [Migration]: the handlers of [twae-migration.js] as a transition
      system over the notice, the button and the list of issued requests.
    - [JsFacts], [AdminStylesFacts], [MigrationFacts]: what is proved
      of them.

    Strings are [string]s whose characters stand for the UTF-16 code
    units U+0000..U+00FF; on that range [trim] and [toLowerCase] below
    are what ECMAScript prescribes.  Integral Numbers are [Z], which is
    exact below 2^53 and so for every number the scripts meet here. *)

From Stdlib Require Import ZArith QArith Qround String Ascii List Lia Bool.
From stdpp Require Import base option list strings gmap.

Local Open Scope string_scope.
Local Open Scope Z_scope.

(* ===================================================================== *)
(** * ECMAScript primitives *)
(* ===================================================================== *)

Module Js.

(** ** Characters *)

Definition code (c : ascii) : Z := Z.of_nat (nat_of_ascii c).

(** White space and line terminators removed by [String.prototype.trim]
    (TAB, LF, VT, FF, CR, SP, NBSP within the modelled range). *)
Definition is_space (c : ascii) : bool :=
  ((9 <=? code c) && (code c <=? 13)) || (code c =? 32) || (code c =? 160).

(** [\d] of a regular expression: the ten ASCII digits. *)
Definition is_digit (c : ascii) : bool :=
  (48 <=? code c) && (code c <=? 57).

(** Simple lower-case mapping of one code unit below U+0100. *)
Definition lower_char (c : ascii) : ascii :=
  let n := code c in
  if ((65 <=? n) && (n <=? 90))
     || ((192 <=? n) && (n <=? 222) && negb (n =? 215))
  then ascii_of_nat (Z.to_nat (n + 32))
  else c.

(** ** Strings *)

Fixpoint toLowerCase (s : string) : string :=
  match s with
  | EmptyString => EmptyString
  | String c r => String (lower_char c) (toLowerCase r)
  end.

(** Removal of the characters satisfying [f] from either end. *)
Fixpoint stripStart (f : ascii -> bool) (s : string) : string :=
  match s with
  | EmptyString => EmptyString
  | String c r => if f c then stripStart f r else s
  end.

Fixpoint stripEnd (f : ascii -> bool) (s : string) : string :=
  match s with
  | EmptyString => EmptyString
  | String c r =>
      match stripEnd f r with
      | EmptyString => if f c then EmptyString else String c EmptyString
      | r' => String c r'
      end
  end.

Fixpoint remove_chars (f : ascii -> bool) (s : string) : string :=
  match s with
  | EmptyString => EmptyString
  | String c r => if f c then remove_chars f r else String c (remove_chars f r)
  end.

Definition trimStart (s : string) : string := stripStart is_space s.

(** [s.trim()]. *)
Definition trim (s : string) : string := stripEnd is_space (stripStart is_space s).

(** [startsWith p s]: [p] is an initial segment of [s]. *)
Fixpoint startsWith (p s : string) : bool :=
  match p, s with
  | EmptyString, _ => true
  | String a p', String b s' => Ascii.eqb a b && startsWith p' s'
  | String _ _, EmptyString => false
  end.

(** [s.indexOf(p)]: the first position at which [p] occurs in [s], or -1. *)
Fixpoint indexOf_from (p s : string) (i : Z) : Z :=
  if startsWith p s then i
  else match s with
       | EmptyString => -1
       | String _ r => indexOf_from p r (i + 1)
       end.

Definition indexOf (s p : string) : Z := indexOf_from p s 0.

(** [s.replace(p, r)] with a string pattern: the first occurrence only. *)
Fixpoint drop (n : nat) (s : string) : string :=
  match n, s with
  | O, _ => s
  | S n', String _ r => drop n' r
  | S _, EmptyString => EmptyString
  end.

Fixpoint replace_first (p r s : string) : string :=
  if startsWith p s then r +:+ drop (String.length p) s
  else match s with
       | EmptyString => EmptyString
       | String c t => String c (replace_first p r t)
       end.

(** [s.substring(a, b)] for [a <= b]. *)
Definition substring (a b : nat) (s : string) : string :=
  String.substring a (b - a) s.

(** [s.slice(a)] for [a >= 0]. *)
Definition slice (a : nat) (s : string) : string := drop a s.

Fixpoint repeat_char (c : ascii) (n : nat) : string :=
  match n with
  | O => EmptyString
  | S n' => String c (repeat_char c n')
  end.

(** [s.padStart(n, c)] with a one-character filler. *)
Definition padStart (n : nat) (c : ascii) (s : string) : string :=
  repeat_char c (n - String.length s) +:+ s.

(** ** Numbers

    Integral Number values are [Z]; [None] is NaN. *)

Definition digit_char (d : Z) : ascii :=
  if d <? 10 then ascii_of_nat (Z.to_nat (48 + d))
  else ascii_of_nat (Z.to_nat (87 + d)).

Fixpoint radix_digits (fuel : nat) (radix n : Z) (acc : string) : string :=
  match fuel with
  | O => acc
  | S f =>
      let acc' := String (digit_char (n mod radix)) acc in
      if n <? radix then acc' else radix_digits f radix (n / radix) acc'
  end.

(** [n.toString(radix)] of an integral [n]. *)
Definition toString_radix (radix n : Z) : string :=
  if n <? 0
  then String "-" (radix_digits (S (Z.to_nat (Z.log2 (- n)))) radix (- n) "")
  else radix_digits (S (Z.to_nat (Z.log2 n))) radix n "".

(** String concatenation of a Number: [x + ''] . *)
Definition Number_to_string (x : option Z) : string :=
  match x with
  | None => "NaN"
  | Some n => toString_radix 10 n
  end.

(** Value of a digit in the given radix, if it is one. *)
Definition digit_value (radix : Z) (c : ascii) : option Z :=
  let n := code c in
  let v := if (48 <=? n) && (n <=? 57) then n - 48
           else if (97 <=? n) && (n <=? 122) then n - 87
           else if (65 <=? n) && (n <=? 90) then n - 55
           else radix in
  if v <? radix then Some v else None.

(** Longest prefix of digits, accumulated most significant first. *)
Fixpoint parse_digits (radix : Z) (s : string) (acc : option Z) : option Z :=
  match s with
  | EmptyString => acc
  | String c r =>
      match digit_value radix c with
      | Some v =>
          parse_digits radix r
            (Some (match acc with Some a => a * radix + v | None => v end))
      | None => acc
      end
  end.

(** [parseInt(s, radix)]; [radix = 0] stands for an omitted radix.
    Leading white space, a sign and (for radix 16 or none) a [0x] prefix
    are consumed, then the longest run of digits; NaN when it is empty. *)
Definition parseInt (s : string) (radix : Z) : option Z :=
  let s1 := trimStart s in
  let '(sign, s2) :=
    match s1 with
    | String c r =>
        if Ascii.eqb c "-" then (-1, r)
        else if Ascii.eqb c "+" then (1, r)
        else (1, s1)
    | EmptyString => (1, s1)
    end in
  let hex_prefix := startsWith "0x" s2 || startsWith "0X" s2 in
  let '(R, s3) :=
    if ((radix =? 0) || (radix =? 16)) && hex_prefix then (16, drop 2 s2)
    else if radix =? 0 then (10, s2)
    else (radix, s2) in
  option_map (Z.mul sign) (parse_digits R s3 None).

(** ToInt32: NaN becomes 0, other values wrap to the signed 32-bit range. *)
Definition toInt32 (x : option Z) : Z :=
  match x with
  | None => 0
  | Some n => (n + 2 ^ 31) mod 2 ^ 32 - 2 ^ 31
  end.

(** [x >> k] and [x & m] on Numbers; the results are 32-bit integers. *)
Definition sar (x : option Z) (k : Z) : Z := Z.shiftr (toInt32 x) k.
Definition band (x : option Z) (m : Z) : Z := Z.land (toInt32 x) (toInt32 (Some m)).

(** [s.match(/\d+/g)]: every maximal run of digits, left to right; the
    empty list stands for [null]. *)
Fixpoint digit_runs_aux (s : string) (cur : string) : list string :=
  match s with
  | EmptyString =>
      match cur with EmptyString => [] | _ => [cur] end
  | String c r =>
      if is_digit c then digit_runs_aux r (cur +:+ String c EmptyString)
      else match cur with
           | EmptyString => digit_runs_aux r EmptyString
           | _ => cur :: digit_runs_aux r EmptyString
           end
  end.

Definition match_digits (s : string) : list string := digit_runs_aux s "".

End Js.

(* ===================================================================== *)
(** * The platform's URL constructor *)
(* ===================================================================== *)

(** [new URL(input, window.location.origin).protocol] depends on the
    input only through its scheme, which the URL Standard reads off in
    its "scheme start" and "scheme" states after removing leading and
    trailing C0 controls and spaces and every tab and newline.  Whether
    the rest of the input parses is left to the host. *)

Module Url.

Definition is_c0_or_space (c : ascii) : bool := Js.code c <=? 32.

Definition is_tab_or_newline (c : ascii) : bool :=
  (Js.code c =? 9) || (Js.code c =? 10) || (Js.code c =? 13).

Definition is_alpha (c : ascii) : bool :=
  let n := Js.code c in
  ((65 <=? n) && (n <=? 90)) || ((97 <=? n) && (n <=? 122)).

(** ASCII alphanumeric, [+], [-] or [.]. *)
Definition is_scheme_char (c : ascii) : bool :=
  let n := Js.code c in
  is_alpha c || Js.is_digit c || (n =? 43) || (n =? 45) || (n =? 46).

Definition ascii_lower (c : ascii) : ascii :=
  let n := Js.code c in
  if (65 <=? n) && (n <=? 90) then ascii_of_nat (Z.to_nat (n + 32)) else c.

Definition preprocess (input : string) : string :=
  Js.remove_chars is_tab_or_newline
    (Js.stripEnd is_c0_or_space (Js.stripStart is_c0_or_space input)).

(** Scheme state: the lower-cased characters up to the first [:]. *)
Fixpoint scheme_state (s : string) : option string :=
  match s with
  | EmptyString => None
  | String c r =>
      if Ascii.eqb c ":" then Some EmptyString
      else if is_scheme_char c
           then option_map (String (ascii_lower c)) (scheme_state r)
           else None
  end.

(** Scheme start state. *)
Definition scheme_start (s : string) : option string :=
  match s with
  | String c _ => if is_alpha c then scheme_state s else None
  | EmptyString => None
  end.

(** The scheme an input carries itself, if any. *)
Definition scheme_of (input : string) : option string :=
  scheme_start (preprocess input).

End Url.

(* ===================================================================== *)
(** * admin-styles.js *)
(* ===================================================================== *)

Module AdminStyles.

Import Js.

(** ** Host environment of [sanitizeCssUrl] *)

Record host := Host {
  (** [typeof URL === 'function'] *)
  URL_is_function : bool;
  (** scheme of [window.location.origin]; [None] when the origin is
      opaque and serializes to ["null"], which is no valid base URL *)
  origin_scheme : option string;
  (** whether [new URL(input, window.location.origin)] returns for a
      valid base, rather than throwing a [TypeError] *)
  URL_parses : string -> bool;
  (** [Date.now()] *)
  Date_now : Z;
}.

(** An admin page served over https in a browser with the URL API, at
    a fixed instant, and the same page in a browser without it. *)
Definition admin_page : host :=
  Host true (Some "https") (fun _ => true) 1700000000000.

Definition old_browser : host :=
  Host false (Some "https") (fun _ => true) 1700000000000.

(** [new URL(input, window.location.origin).protocol]; [None] when the
    constructor throws. *)
Definition new_URL_protocol (env : host) (input : string) : option string :=
  match origin_scheme env with
  | None => None
  | Some base =>
      if URL_parses env input
      then Some (default base (Url.scheme_of input) +:+ ":")
      else None
  end.

(** ** The cache-busting rewrite *)

Definition is_sep (c : ascii) : bool := Ascii.eqb c "?" || Ascii.eqb c "&".

Fixpoint skip_digits (s : string) : string :=
  match s with
  | EmptyString => EmptyString
  | String c r => if is_digit c then skip_digits r else s
  end.

(** A match of [/([?&])ver=\d+(&?)/] at the head of [s]: the first
    group, whether the second group is [&], and what follows the match. *)
Definition match_ver_here (s : string) : option (ascii * bool * string) :=
  match s with
  | String p1 r =>
      if is_sep p1 && startsWith "ver=" r then
        match drop 4 r with
        | String d r' =>
            if is_digit d then
              match skip_digits r' with
              | String "&" t => Some (p1, true, t)
              | t => Some (p1, false, t)
              end
            else None
        | EmptyString => None
        end
      else None
  | EmptyString => None
  end.

(** [s.replace(/([?&])ver=\d+(&?)/, function (match, p1, p2) { return p2 ? p1 : ''; })]:
    the leftmost match only, the expression having no [g] flag. *)
Fixpoint replace_ver (s : string) : string :=
  match s with
  | EmptyString => EmptyString
  | String c r =>
      match match_ver_here s with
      | Some (p1, p2, rest) =>
          (if p2 then String p1 EmptyString else EmptyString) +:+ rest
      | None => String c (replace_ver r)
      end
  end.

(** [x === lit] for a string literal [lit]. *)
Definition strict_eq (x : option string) (lit : string) : bool :=
  match x with
  | Some v => String.eqb v lit
  | None => false
  end.

(** ** [sanitizeCssUrl]

    [cssUrl] is [None] for a value that is not a string, [currentScheme]
    likewise, and [isSafe] is [None] when no validator function is
    passed. *)
Definition sanitizeCssUrl (env : host) (cssUrl : option string)
    (currentScheme : option string) (isSafe : option (string -> bool))
  : option string :=
  match cssUrl with
  | None => None
  | Some cssUrl =>
      if String.eqb cssUrl "" then None else
      let trimmed := trim cssUrl in
      if String.eqb trimmed "" then None else
      if match isSafe with
         | Some f => negb (f trimmed)
         | None => false
         end
      then None else
      let lower := toLowerCase trimmed in
      if (indexOf lower "javascript:" =? 0)
         || (indexOf lower "data:" =? 0)
         || (indexOf lower "vbscript:" =? 0)
      then None else
      if URL_is_function env &&
         match new_URL_protocol env trimmed with
         | Some protocol =>
             let protocol := toLowerCase protocol in
             negb (String.eqb protocol "http:")
             && negb (String.eqb protocol "https:")
         | None => false
         end
      then None else
      let newUrl :=
        if strict_eq currentScheme "publishpress-custom" then
          let newUrl := replace_ver trimmed in
          if indexOf newUrl "?" =? -1
          then newUrl +:+ "?ver=" +:+ Number_to_string (Some (Date_now env))
          else newUrl +:+ "&ver=" +:+ Number_to_string (Some (Date_now env))
        else trimmed in
      Some newUrl
  end.

(** ** Color helpers *)

Definition Number_toString16 (x : option Z) : string :=
  match x with
  | None => "NaN"
  | Some n => toString_radix 16 n
  end.

Definition hexToRgb (hex : string) : string :=
  let hex := replace_first "#" "" hex in
  let hex :=
    match hex with
    | String h0 (String h1 (String h2 EmptyString)) =>
        String h0 (String h0 (String h1 (String h1 (String h2 (String h2 "")))))
    | _ => hex
    end in
  let r := parseInt (substring 0 2 hex) 16 in
  let g := parseInt (substring 2 4 hex) 16 in
  let b := parseInt (substring 4 6 hex) 16 in
  Number_to_string r +:+ ", " +:+ Number_to_string g +:+ ", "
    +:+ Number_to_string b.

Definition rgbToHex (rgb : string) : string :=
  if indexOf rgb "#" =? 0 then rgb else
  match match_digits rgb with
  | a0 :: a1 :: a2 :: _ =>
      let r := padStart 2 "0" (Number_toString16 (parseInt a0 0)) in
      let g := padStart 2 "0" (Number_toString16 (parseInt a1 0)) in
      let b := padStart 2 "0" (Number_toString16 (parseInt a2 0)) in
      "#" +:+ r +:+ g +:+ b
  | _ => rgb
  end.

Section Shades.

(** [Math.round(2.55 * percent)] in the host's double arithmetic, for a
    finite [percent]: some integer.  Nothing else is assumed of it. *)
Variable round_2_55 : Q -> Z.

Definition lightenColor (color : string) (percent : Q) : string :=
  let num := parseInt (replace_first "#" "" color) 16 in
  let amt := round_2_55 percent in
  let R := sar num 16 + amt in
  let G := band (Some (sar num 8)) 255 + amt in
  let B := band num 255 + amt in
  "#" +:+ slice 1 (toString_radix 16
    (16777216
     + (if R <? 255 then if R <? 1 then 0 else R else 255) * 65536
     + (if G <? 255 then if G <? 1 then 0 else G else 255) * 256
     + (if B <? 255 then if B <? 1 then 0 else B else 255))).

Definition darkenColor (color : string) (percent : Q) : string :=
  let num := parseInt (replace_first "#" "" color) 16 in
  let amt := round_2_55 percent * -1 in
  let R := sar num 16 + amt in
  let G := band (Some (sar num 8)) 255 + amt in
  let B := band num 255 + amt in
  "#" +:+ slice 1 (toString_radix 16
    (16777216
     + (if R <? 255 then if R <? 1 then 0 else R else 255) * 65536
     + (if G <? 255 then if G <? 1 then 0 else G else 255) * 256
     + (if B <? 255 then if B <? 1 then 0 else B else 255))).

End Shades.

(** ** The color-scheme picker *)

(** A [.color-option] element with the children the handler reads. *)
Record color_option := ColorOption {
  (** carries the class [selected] *)
  opt_selected : bool;
  (** value of its radio input, [None] when it has none *)
  opt_radio : option string;
  (** its [.color-checkbox] child, if any, and whether that is [checked] *)
  opt_checkbox : option bool;
  (** value of its [.css_url] child, [None] when it has none *)
  opt_css_url : option string;
}.

(** A [link] element. *)
Record link := Link { href : option string }.

Record page := Page {
  (** the [.color-option] elements in document order *)
  options : list color_option;
  (** value of [#admin_color_scheme], [None] when the input is absent *)
  admin_color_scheme : option string;
  (** whether [#ppc-admin-area-preview] is in the document *)
  preview_style : bool;
  (** whether [.custom-scheme-editor] is shown *)
  editor_shown : bool;
  (** [PP_Admin_Styles.$stylesheet]: [None] is the initial [null], a
      list the elements of the jQuery object [init] stores *)
  stylesheet : option (list link);
  (** [PP_Admin_Styles.currentScheme] *)
  currentScheme : option string;
}.

(** How a handler ends; an exception keeps the page as it was when thrown. *)
Inductive completion :=
  | Normal (pg : page)
  | Throw (error : string) (pg : page).

Definition page_of (c : completion) : page :=
  match c with
  | Normal pg => pg
  | Throw _ pg => pg
  end.

Definition deselect (o : color_option) : color_option :=
  ColorOption false (opt_radio o) (option_map (fun _ => false) (opt_checkbox o))
    (opt_css_url o).

Definition select (o : color_option) : color_option :=
  ColorOption true (opt_radio o) (option_map (fun _ => true) (opt_checkbox o))
    (opt_css_url o).

(** A truthy string-or-null. *)
Definition truthy (x : option string) : bool :=
  match x with
  | Some s => negb (String.eqb s "")
  | None => false
  end.

(** [handleSchemeSelection], bound to clicks on [.color-option] and so
    run with [this] the clicked option, here the [this]-th one ([opt] is
    the source's [$option]); [isSafeCssUrl] is the global of that name
    when it is a function.  [this.currentScheme] reads a property the
    element does not have, so [undefined] is what [sanitizeCssUrl]
    receives as current scheme. *)
Definition handleSchemeSelection (env : host)
    (isSafeCssUrl : option (string -> bool)) (this : nat) (pg : page)
  : completion :=
  match options pg !! this with
  | None => Normal pg
  | Some opt =>
      let scheme := opt_radio opt in
      if opt_selected opt then Normal pg else
      let pg1 :=
        Page (alter select this (deselect <$> options pg))
          (option_map (fun _ => default "" scheme) (admin_color_scheme pg))
          false (editor_shown pg) (stylesheet pg) (currentScheme pg) in
      match stylesheet pg1 with
      | None => Throw "TypeError" pg1
      | Some sheet =>
          let sheet1 :=
            if (length sheet =? 0)%nat then [Link None] else sheet in
          let cssUrl := opt_css_url opt in
          let newUrl := sanitizeCssUrl env cssUrl None isSafeCssUrl in
          let sheet2 :=
            if truthy newUrl then (fun _ => Link newUrl) <$> sheet1
            else sheet1 in
          let custom := strict_eq scheme "publishpress-custom" in
          Normal
            (Page (options pg1) (admin_color_scheme pg1)
               (if custom then true else preview_style pg1)
               custom (Some sheet2) scheme)
      end
  end.

(** The page after a series of clicks on color options. *)
Definition clicks (env : host) (isSafeCssUrl : option (string -> bool))
    (ts : list nat) (pg : page) : page :=
  foldl (fun p this => page_of (handleSchemeSelection env isSafeCssUrl this p))
    pg ts.

(** A picker with the scheme [fresh] selected, a second scheme, and an
    option whose stylesheet URL is not one. *)
Definition sample_picker : page :=
  Page [ColorOption true (Some "fresh") (Some true) (Some "/fresh.css");
        ColorOption false (Some "light") (Some false) (Some "/light.css");
        ColorOption false (Some "evil") (Some false)
          (Some "javascript:alert(1)")]
    (Some "fresh") false false (Some [Link (Some "/fresh.css")])
    (Some "fresh").

(** ** Specification vocabulary *)

(** *** Strings *)

Definition all_chars (f : ascii -> bool) (s : string) : bool :=
  forallb f (list_ascii_of_string s).

Definition is_7bit (c : ascii) : bool := code c <? 128.

Definition is_lower_alpha (c : ascii) : bool :=
  (97 <=? code c) && (code c <=? 122).

(** [t] begins with the ASCII string [p], letter case ignored. *)
Fixpoint begins_ci (p t : string) : bool :=
  match p, t with
  | EmptyString, _ => true
  | String a p', String b t' =>
      Ascii.eqb a (Url.ascii_lower b) && begins_ci p' t'
  | String _ _, EmptyString => false
  end.

(** *** Kinds of URL *)

(** The URL constructor is there, returns for [t], and [t] carries a
    scheme of its own (it is absolute) other than http and https. *)
Definition parses_as_non_http (env : host) (t : string) : Prop :=
  URL_is_function env = true /\
  is_Some (origin_scheme env) /\
  URL_parses env t = true /\
  exists sch, Url.scheme_of t = Some sch /\ sch <> "http" /\ sch <> "https".

(** An absolute URL of scheme http or https. *)
Definition is_http_url (t : string) : Prop :=
  Url.scheme_of t = Some "http" \/ Url.scheme_of t = Some "https".

(** A URL without a scheme of its own, resolved against the page. *)
Definition is_relative_url (t : string) : Prop := Url.scheme_of t = None.

(** The page itself is served over http or https (or has an opaque origin). *)
Definition origin_http (env : host) : Prop :=
  forall o, origin_scheme env = Some o -> o = "http" \/ o = "https".

(** The validator, when there is one, answers [true]. *)
Definition validator_passes (isSafe : option (string -> bool)) (t : string)
  : Prop :=
  match isSafe with
  | Some f => f t = true
  | None => True
  end.

(** The scheme state run on an input whose ends are still to be stripped. *)
Definition scheme_scan (t : string) : option string :=
  Url.scheme_state
    (remove_chars Url.is_tab_or_newline (stripEnd Url.is_c0_or_space t)).

(** *** [ver=] parameters *)

(** Textual occurrences of a [ver=] parameter: [ver=] right after [?] or [&]. *)
Fixpoint count_ver (s : string) : nat :=
  match s with
  | EmptyString => O
  | String c r =>
      ((if is_sep c && startsWith "ver=" r then 1 else 0) + count_ver r)%nat
  end.

Definition not_sep (c : ascii) : bool := negb (is_sep c).

(** A character that does not occur in [ver=]: when a string starts
    with one, or is empty, [count_ver] splits over appending it. *)
Definition not_in_ver (c : ascii) : bool :=
  negb (Ascii.eqb c "v" || Ascii.eqb c "e" || Ascii.eqb c "r" || Ascii.eqb c "=").

Definition head_ok (b : string) : bool :=
  match b with
  | EmptyString => true
  | String c _ => not_in_ver c
  end.

(** The trimmed input carries exactly one [ver=] parameter, its value is
    a run of digits, and the run is followed by [&] or ends the string. *)
Definition sole_numeric_ver (t : string) : Prop :=
  exists pre sep ds rest,
    t = pre +:+ String sep ("ver=" +:+ ds +:+ rest) /\
    is_sep sep = true /\ ds <> "" /\ all_chars is_digit ds = true /\
    (rest = "" \/ exists r, rest = String "&" r) /\
    count_ver t = 1%nat.

(** What the rewrite leaves of a numeric [ver=] parameter at the head. *)
Definition ver_residue (sep : ascii) (rest : string) : string :=
  match rest with
  | EmptyString => EmptyString
  | String _ r => String sep r
  end.

(** *** The query of a URL

    The URL parser drops the tabs and line breaks of its input; the
    fragment of a URL starts at its first [#] and the query at the
    first [?] before the fragment; the parameters of the query are
    separated by [&]. *)

Definition not_hash (c : ascii) : bool := negb (Ascii.eqb c "#").

Definition not_tab_or_newline (c : ascii) : bool :=
  negb (Url.is_tab_or_newline c).

(** What stands before the first [#]. *)
Fixpoint before_hash (s : string) : string :=
  match s with
  | EmptyString => EmptyString
  | String c r => if Ascii.eqb c "#" then EmptyString else String c (before_hash r)
  end.

(** What stands after the first [?], [None] when there is no [?]. *)
Fixpoint after_question (s : string) : option string :=
  match s with
  | EmptyString => None
  | String c r => if Ascii.eqb c "?" then Some r else after_question r
  end.

Definition query_of (u : string) : option string :=
  after_question (before_hash (remove_chars Url.is_tab_or_newline u)).

(** [q.split('&')]. *)
Fixpoint split_amp (q : string) : list string :=
  match q with
  | EmptyString => [EmptyString]
  | String c r =>
      if Ascii.eqb c "&" then EmptyString :: split_amp r
      else match split_amp r with
           | p :: l => String c p :: l
           | [] => [String c EmptyString]
           end
  end.

(** The number of query parameters of [u] that begin with [ver=]. *)
Definition ver_parameters (u : string) : nat :=
  match query_of u with
  | None => O
  | Some q => length (List.filter (startsWith "ver=") (split_amp q))
  end.

(** *** Colors *)

Definition is_hex_digit (c : ascii) : bool :=
  match digit_value 16 c with
  | Some _ => true
  | None => false
  end.

Definition hexval (c : ascii) : Z :=
  match digit_value 16 c with Some v => v | None => 0 end.

Definition is_lower_hex_digit (c : ascii) : bool :=
  is_digit c || ((97 <=? code c) && (code c <=? 102)).

(** [#] followed by exactly six hexadecimal digits. *)
Definition is_hex_color (s : string) : bool :=
  match s with
  | String "#" r => (String.length r =? 6)%nat && all_chars is_hex_digit r
  | _ => false
  end.

(** [#] followed by exactly six digits among [0-9a-f]. *)
Definition is_lower_hex_color (s : string) : bool :=
  is_hex_color s && all_chars is_lower_hex_digit (drop 1 s).

(** Channel [k] (0 red, 1 green, 2 blue) of a [#rrggbb] string, read
    the way [hexToRgb] reads it. *)
Definition channel (k : nat) (s : string) : option Z :=
  parseInt (substring (2 * k) (2 * k + 2) (replace_first "#" "" s)) 16.

(** A byte as two lower-case hexadecimal digits. *)
Definition hex2 (x : Z) : string :=
  String (digit_char (x / 16)) (String (digit_char (x mod 16)) "").

Definition hex_color (R G B : Z) : string :=
  String "#" (hex2 R +:+ hex2 G +:+ hex2 B).

Definition clamp_byte (x : Z) : Z := Z.max 0 (Z.min 255 x).

(** [out] is a [#rrggbb] color, each channel being the channel of
    [color] moved by [amt] and clamped to the byte range. *)
Definition shaded (color out : string) (amt : Z) : Prop :=
  is_hex_color out = true /\
  forall k, (k < 3)%nat ->
    exists c v, channel k color = Some c /\ channel k out = Some v /\
                v = clamp_byte (c + amt) /\ 0 <= v <= 255.

(** What [lightenColor] and [darkenColor] both compute once the
    amount [amt] is known. *)
Definition shade (color : string) (amt : Z) : string :=
  let num := parseInt (replace_first "#" "" color) 16 in
  let R := sar num 16 + amt in
  let G := band (Some (sar num 8)) 255 + amt in
  let B := band num 255 + amt in
  "#" +:+ slice 1 (toString_radix 16
    (16777216
     + (if R <? 255 then if R <? 1 then 0 else R else 255) * 65536
     + (if G <? 255 then if G <? 1 then 0 else G else 255) * 256
     + (if B <? 255 then if B <? 1 then 0 else B else 255))).

(** Rounding of [2.55 * percent] to the nearest integer, halves up, in
    exact arithmetic: one function [lightenColor] can be run with. *)
Definition round_half_up (percent : Q) : Z :=
  Qfloor (Qplus (Qmult (255 # 100) percent) (1 # 2)).

(** Checking a decidable property of every byte by evaluation. *)
Definition all_bytes (P : Z -> bool) : bool :=
  forallb (fun n => P (Z.of_nat n)) (seq 0 256).

(** *** The picker *)

Fixpoint selected_count (l : list color_option) : nat :=
  match l with
  | [] => O
  | o :: r => ((if opt_selected o then 1 else 0) + selected_count r)%nat
  end.

End AdminStyles.

(* ===================================================================== *)
(** * twae-migration.js *)
(* ===================================================================== *)

Module Migration.

(** The [#twae-run-migration] button, a [button] element: content
    attributes, inline style properties and text. *)
Record button := Button {
  attrs : gmap string string;
  style : gmap string string;
  text : string;
}.

(** The element is disabled when it carries the [disabled] attribute,
    which the [disabled] property of a button reflects: [attr] and
    [prop] both come down to setting or removing the attribute. *)
Definition disabled (b : button) : bool :=
  bool_decide (is_Some (attrs b !! "disabled")).

(** The scalar values [.data('tineline-mig')] can return. *)
Inductive data_value :=
  | DUndefined
  | DNull
  | DBool (b : bool)
  | DNumber (n : Z)
  | DString (s : string).

(** [v == ''] and [v == undefined]. *)
Definition loose_eq_empty (v : data_value) : bool :=
  match v with
  | DString s => String.eqb s ""
  | DNumber n => n =? 0
  | DBool b => negb b
  | DUndefined | DNull => false
  end.

Definition loose_eq_undefined (v : data_value) : bool :=
  match v with
  | DUndefined | DNull => true
  | _ => false
  end.

(** An AJAX POST: its [action] and [value] fields (the nonce is left
    out); recorded next to them, whether the page builder had unsaved
    changes at the time the request was issued, which is what
    [checkUnsaved] would have returned then. *)
Record request := Request {
  action : string;
  value : option data_value;
  unsaved_when_posted : bool;
}.

Record state := State {
  (** [elementor.saver.isSaved]; [None] when [elementor] or its saver
      is not defined *)
  elementor : option bool;
  (** whether the editor callbacks were registered *)
  hooked : bool;
  hasUnsavedChanges : bool;
  (** the run button, [None] when the page has none *)
  run_button : option button;
  (** [data('tineline-mig')] of the notice *)
  notice_data : data_value;
  notice_shown : bool;
  (** content of [#twae-migration-result] *)
  result_html : string;
  (** messages passed to [elementor.notifications.showToast] *)
  toasts : list string;
  (** requests issued so far, latest first *)
  requests : list request;
}.

Definition with_button (f : button -> button) (st : state) : state :=
  State (elementor st) (hooked st) (hasUnsavedChanges st)
    (f <$> run_button st) (notice_data st) (notice_shown st)
    (result_html st) (toasts st) (requests st).

Definition with_flag (flag : bool) (st : state) : state :=
  State (elementor st) (hooked st) flag (run_button st) (notice_data st)
    (notice_shown st) (result_html st) (toasts st) (requests st).

Definition with_result (html : string) (st : state) : state :=
  State (elementor st) (hooked st) (hasUnsavedChanges st) (run_button st)
    (notice_data st) (notice_shown st) html (toasts st) (requests st).

Definition post (r : request) (st : state) : state :=
  State (elementor st) (hooked st) (hasUnsavedChanges st) (run_button st)
    (notice_data st) (notice_shown st) (result_html st) (toasts st)
    (r :: requests st).

Definition checkUnsaved (st : state) : bool :=
  match elementor st with
  | None => false
  | Some isSaved => negb isSaved
  end.

Definition updateMigrationButtonState (st : state) : state :=
  if hasUnsavedChanges st then
    with_button
      (fun b => Button (<["disabled" := "disabled"]> (attrs b))
                  (<["cursor" := "not-allowed"]> (<["opacity" := "0.5"]> (style b)))
                  (text b)) st
  else
    with_button
      (fun b => Button (delete "disabled" (attrs b))
                  (<["cursor" := "pointer"]> (<["opacity" := "1"]> (style b)))
                  (text b)) st.

(** The body of the ready callback, run once on the page as loaded. *)
Definition load (elementor : option bool) (run_button : option button)
    (notice_data : data_value) : state :=
  let st := State elementor false false run_button notice_data true "" [] [] in
  match elementor with
  | Some _ =>
      let st := with_flag (checkUnsaved st) st in
      let st := updateMigrationButtonState st in
      State (Migration.elementor st) true (hasUnsavedChanges st)
        (Migration.run_button st) (Migration.notice_data st)
        (notice_shown st) (result_html st) (toasts st) (requests st)
  | None => st
  end.

Inductive event :=
  (** click on the dismiss controls of the notice *)
  | ClickDismiss
  (** click on [#twae-run-migration] *)
  | ClickRun
  (** [change] on [elementor.channels.editor] *)
  | EditorChange
  (** [after:save] on [elementor.saver] *)
  | AfterSave
  (** the editor sets [saver.isSaved] *)
  | EditorSaved (isSaved : bool)
  (** the run request succeeds with [response.success] and a message *)
  | RunResponse (success : bool) (message : string)
  (** the run request fails *)
  | RunError
  (** the timer that slides the notice up fires; the page reload that
      follows a successful run inside the editor starts over from
      [load] and is no event *)
  | NoticeTimer.

(** One event.  The handlers are delegated ones: jQuery runs the click
    handler of [#twae-run-migration] only for a click on such an
    element, and not when the [disabled] property of the element is
    true. *)
Definition step (st : state) (e : event) : state :=
  match e with
  | ClickDismiss =>
      let mig_val := notice_data st in
      let hide := loose_eq_empty mig_val || loose_eq_undefined mig_val in
      let mig_val := if hide then DString "twe" else mig_val in
      let st :=
        State (elementor st) (hooked st) (hasUnsavedChanges st)
          (run_button st) (notice_data st)
          (if hide then false else notice_shown st)
          (result_html st) (toasts st) (requests st) in
      post (Request "twae_hide_migration_notice" (Some mig_val)
              (checkUnsaved st)) st
  | ClickRun =>
      match run_button st with
      | None => st
      | Some b =>
          if disabled b then st
          else if hasUnsavedChanges st then
            State (elementor st) (hooked st) (hasUnsavedChanges st)
              (run_button st) (notice_data st) (notice_shown st)
              (result_html st)
              ("Please publish your changes before running migration."
                 :: toasts st)
              (requests st)
          else
            post (Request "twae_run_migration" None (checkUnsaved st))
              (with_result "Running migration..." st)
      end
  | EditorChange =>
      if hooked st
      then updateMigrationButtonState (with_flag (checkUnsaved st) st)
      else st
  | AfterSave =>
      if hooked st
      then updateMigrationButtonState (with_flag false st)
      else st
  | EditorSaved isSaved =>
      State (option_map (fun _ => isSaved) (elementor st)) (hooked st)
        (hasUnsavedChanges st) (run_button st) (notice_data st)
        (notice_shown st) (result_html st) (toasts st) (requests st)
  | RunResponse true message =>
      with_button
        (fun b => Button (<["disabled" := ""]> (attrs b)) (style b)
                    "Migration Completed")
        (with_result ("<strong>" +:+ message +:+ "</strong>") st)
  | RunResponse false message =>
      with_result ("<span style='color:#cc0000;'>" +:+ message +:+ "</span>") st
  | RunError =>
      with_result "<span style='color:red;'>AJAX Error</span>" st
  | NoticeTimer =>
      State (elementor st) (hooked st) (hasUnsavedChanges st)
        (run_button st) (notice_data st) false (result_html st) (toasts st)
        (requests st)
  end.

Definition run (st : state) (es : list event) : state := foldl step st es.

(** A run button as the notice renders it, and the editor page loaded
    with unpublished changes. *)
Definition sample_button : button :=
  Button {["id" := "twae-run-migration"]} ∅ "Run Migration".

Definition unsaved_editor : state :=
  load (Some false) (Some sample_button) DUndefined.

(** Every run request on record was posted while the page builder had
    no unsaved changes. *)
Definition runs_gated (st : state) : Prop :=
  Forall (fun r => action r = "twae_run_migration" ->
                   unsaved_when_posted r = false)
    (requests st).

(** The editor keeps the script informed: from a builder whose
    [saver.isSaved] is [isSaved], every change of [isSaved] to false is
    followed at once by a [change] event (or ends the series), and
    [after:save] fires only while [isSaved] is true. *)
Fixpoint announced (isSaved : bool) (es : list event) : bool :=
  match es with
  | [] => true
  | EditorSaved false :: r =>
      match r with
      | [] => true
      | EditorChange :: r' => announced false r'
      | _ :: _ => false
      end
  | EditorSaved true :: r => announced true r
  | AfterSave :: r => isSaved && announced isSaved r
  | _ :: r => announced isSaved r
  end.

End Migration.

(* ===================================================================== *)
(** * admin-styles.js: the other handlers *)
(* ===================================================================== *)

Module AdminStylesExt.

Import Js AdminStyles.

(** ** Vocabulary *)

(** [u] begins with one of the three schemes [sanitizeCssUrl] names,
    letter case ignored. *)
Definition dangerous (u : string) : bool :=
  begins_ci "javascript:" u || begins_ci "data:" u || begins_ci "vbscript:" u.

(** A computed-style color: [rgb(r, g, b)] and [rgba(r, g, b, alpha)]. *)
Definition css_rgb (r g b : Z) : string :=
  "rgb(" +:+ toString_radix 10 r +:+ ", " +:+ toString_radix 10 g +:+ ", "
    +:+ toString_radix 10 b +:+ ")".

Definition css_rgba (r g b : Z) (alpha : string) : string :=
  "rgba(" +:+ toString_radix 10 r +:+ ", " +:+ toString_radix 10 g +:+ ", "
    +:+ toString_radix 10 b +:+ ", " +:+ alpha +:+ ")".

Definition no_digit (c : ascii) : bool := negb (is_digit c).

(** The three channel values as [hexToRgb] prints them. *)
Definition rgb_triple (r g b : Z) : string :=
  toString_radix 10 r +:+ ", " +:+ toString_radix 10 g +:+ ", "
    +:+ toString_radix 10 b.

(** The checkbox of an option, when it has one, is checked exactly when
    the option is selected. *)
Definition checkbox_agrees (o : color_option) : Prop :=
  forall b, opt_checkbox o = Some b -> b = opt_selected o.

(** A stylesheet element whose [href], when set, does not begin with
    one of the three schemes. *)
Definition safe_link (l : link) : Prop :=
  forall u, href l = Some u -> dangerous u = false.

(** Every stylesheet element of the page is safe. *)
Definition safe_sheet (pg : page) : Prop :=
  forall sheet, stylesheet pg = Some sheet -> Forall safe_link sheet.

(** ** [updateCustomSchemeUrl] *)

(** The part of [ppCapabilitiesAdminStyles] the function reads and
    writes: [moduleUrl], [None] when it is not set, and for every key
    of [colorSchemes] the [url] of the scheme. *)
Record config := Config {
  moduleUrl : option string;
  colorSchemes : gmap string string;
}.

(** [x || ''] for a string-or-undefined [x]. *)
Definition or_empty (x : option string) : string := default "" x.

(** The URL the function builds, with [Math.floor(Date.now() / 1000)]
    as version. *)
Definition custom_scheme_url (env : host) (cfg : config) : string :=
  or_empty (moduleUrl cfg)
    +:+ "admin-styles-css.php?ppc_custom_scheme=1&ver="
    +:+ Number_to_string (Some (Date_now env / 1000)).

Definition set_css_url (newUrl : string) (o : color_option) : color_option :=
  ColorOption (opt_selected o) (opt_radio o) (opt_checkbox o)
    (option_map (fun _ => newUrl) (opt_css_url o)).

(** [custom i] tells whether the [i]-th color option carries the class
    [ppc-custom-scheme].  The configuration is updated before the
    stylesheet is touched, so it is returned next to the completion. *)
Definition updateCustomSchemeUrl (env : host) (custom : nat -> bool)
    (cfg : config) (pg : page) : config * completion :=
  let newUrl := custom_scheme_url env cfg in
  let cfg1 :=
    match colorSchemes cfg !! "publishpress-custom" with
    | Some _ =>
        Config (moduleUrl cfg)
          (<["publishpress-custom" := newUrl]> (colorSchemes cfg))
    | None => cfg
    end in
  let pg1 :=
    Page (imap (fun i o => if custom i then set_css_url newUrl o else o)
            (options pg))
      (admin_color_scheme pg) (preview_style pg) (editor_shown pg)
      (stylesheet pg) (currentScheme pg) in
  if strict_eq (currentScheme pg1) "publishpress-custom" then
    match stylesheet pg1 with
    | None => (cfg1, Throw "TypeError" pg1)
    | Some sheet =>
        (cfg1,
         Normal
           (Page (options pg1) (admin_color_scheme pg1) (preview_style pg1)
              (editor_shown pg1) (Some ((fun _ => Link (Some newUrl)) <$> sheet))
              (currentScheme pg1)))
    end
  else (cfg1, Normal pg1).

(** ** [handleEditCustomScheme] *)

(** Clicks triggered one after the other on the options listed; an
    exception in a handler ends the series. *)
Fixpoint trigger_clicks (env : host) (isSafeCssUrl : option (string -> bool))
    (targets : list nat) (pg : page) : completion :=
  match targets with
  | [] => Normal pg
  | t :: rest =>
      match handleSchemeSelection env isSafeCssUrl t pg with
      | Normal pg' => trigger_clicks env isSafeCssUrl rest pg'
      | Throw e pg' => Throw e pg'
      end
  end.

Definition show_editor (pg : page) : page :=
  Page (options pg) (admin_color_scheme pg) (preview_style pg) true
    (stylesheet pg) (currentScheme pg).

(** [customs] lists, in document order, the color options that carry
    the class [ppc-custom-scheme]. *)
Definition handleEditCustomScheme (env : host)
    (isSafeCssUrl : option (string -> bool)) (customs : list nat) (pg : page)
  : completion :=
  if negb (strict_eq (currentScheme pg) "publishpress-custom") then
    match trigger_clicks env isSafeCssUrl customs pg with
    | Normal pg' => Normal (show_editor pg')
    | Throw e pg' => Throw e pg'
    end
  else Normal (show_editor pg).

(** ** [reorderColorSchemes] *)

(** The children of the [.color-options] container after the ones with
    the class [ppc-custom-scheme] have been moved to its front;
    [custom] tells which children carry the class. *)
Definition reorderColorSchemes {A} (custom : A -> bool) (children : list A)
  : list A :=
  let publishpressCustom := List.filter custom children in
  if (0 <? length publishpressCustom)%nat
  then publishpressCustom
         ++ List.filter (fun x => negb (custom x)) children
  else children.

(** ** [handleRoleChange] and [updateButtonText] *)

(** [A-Z a-z 0-9 - _ . ! ~ * ' ( )]: what [encodeURIComponent] leaves
    as it is. *)
Definition is_unreserved (c : ascii) : bool :=
  Url.is_alpha c || is_digit c
  || existsb (Ascii.eqb c) (list_ascii_of_string "-_.!~*'()").

Definition hex_upper (d : Z) : ascii :=
  if d <? 10 then ascii_of_nat (Z.to_nat (48 + d))
  else ascii_of_nat (Z.to_nat (55 + d)).

(** [%XY] for the octet [b]. *)
Definition percent_octet (b : Z) : string :=
  String "%" (String (hex_upper (b / 16)) (String (hex_upper (b mod 16)) "")).

(** The escape of one code unit below U+0100: itself when unreserved,
    else its UTF-8 octets, one below U+0080 and two from there on. *)
Definition encode_unit (c : ascii) : string :=
  if is_unreserved c then String c ""
  else if code c <? 128 then percent_octet (code c)
  else percent_octet (192 + code c / 64) +:+ percent_octet (128 + code c mod 64).

Fixpoint encodeURIComponent (s : string) : string :=
  match s with
  | EmptyString => EmptyString
  | String c r => encode_unit c +:+ encodeURIComponent r
  end.

(** What [handleRoleChange] acts on: the role select, the elements it
    shows and hides (one flag for the elements of each selector), and
    the URL it assigns to [window.location.href], [None] while it has
    assigned none. *)
Record role_view := RoleView {
  select_disabled : bool;
  menu_wrapper_shown : bool;
  loading_shown : bool;
  footer_meta_shown : bool;
  submit_top_shown : bool;
  location_href : option string;
}.

(** [selectedRole] is the value of the select, [None] when it has none;
    [adminUrl] is [ppCapabilitiesAdminStyles.adminUrl]. *)
Definition handleRoleChange (adminUrl : string) (selectedRole : option string)
    (v : role_view) : role_view :=
  match selectedRole with
  | None => v
  | Some role =>
      if String.eqb role "" then v
      else RoleView true false true false false
             (Some (adminUrl +:+ "&role=" +:+ encodeURIComponent role))
  end.

(** The replacement text of [String.prototype.replace] with a string
    pattern: [$$], [$&], [$`] and [$'] are expanded, there being no
    capture any other [$] stands for itself. *)
Fixpoint substitution (matched before after replacement : string) : string :=
  match replacement with
  | EmptyString => EmptyString
  | String a t =>
      if Ascii.eqb a "$" then
        match t with
        | String c r =>
            if Ascii.eqb c "$"
            then String "$" (substitution matched before after r)
            else if Ascii.eqb c "&"
            then matched +:+ substitution matched before after r
            else if Ascii.eqb c "`"
            then before +:+ substitution matched before after r
            else if Ascii.eqb c "'"
            then after +:+ substitution matched before after r
            else String "$" (substitution matched before after t)
        | EmptyString => String "$" EmptyString
        end
      else String a (substitution matched before after t)
  end.

(** [s.replace(p, replacement)] with a string pattern [p]: the first
    occurrence only; [before] is what of [s] has been passed over. *)
Fixpoint replace_from (p replacement before s : string) : string :=
  if startsWith p s
  then before
         +:+ substitution p before (drop (String.length p) s) replacement
         +:+ drop (String.length p) s
  else match s with
       | EmptyString => before
       | String c t => replace_from p replacement (before +:+ String c "") t
       end.

Definition replace_string (p replacement s : string) : string :=
  replace_from p replacement "" s.

(** [selectedText] is the text of the selected option, [saveForRole]
    the label [ppCapabilitiesAdminStyles.labels.saveForRole] when set,
    [submit] the value of the submit button when the form has one. *)
Definition updateButtonText (saveForRole : option string)
    (selectedText : string) (submit : option string) : option string :=
  if negb (String.eqb selectedText "") && truthy saveForRole then
    let buttonText := replace_string "%s" selectedText (or_empty saveForRole) in
    option_map (fun _ => buttonText) submit
  else submit.

(** A character an escaped component is made of: unreserved, or the
    [%] of an escape (the hexadecimal digits are unreserved). *)
Definition escaped_char (c : ascii) : bool :=
  is_unreserved c || Ascii.eqb c "%".

Definition not_char (x c : ascii) : bool := negb (Ascii.eqb c x).

(** The 256 code units of the modelled range. *)
Definition all_units : list ascii := map ascii_of_nat (seq 0 256).

(** One of two strings begins with the other. *)
Definition overlap (a b : string) : bool := startsWith a b || startsWith b a.

End AdminStylesExt.

(* ===================================================================== *)
(** * twae-migration.js: vocabulary for further properties *)
(* ===================================================================== *)

Module MigrationExt.

Import Migration.

Definition is_run_click (e : event) : bool :=
  match e with ClickRun => true | _ => false end.

Definition is_dismiss_click (e : event) : bool :=
  match e with ClickDismiss => true | _ => false end.

(** A run response with [response.success] true. *)
Definition is_success (e : event) : bool :=
  match e with RunResponse true _ => true | _ => false end.

Fixpoint count_events (f : event -> bool) (es : list event) : nat :=
  match es with
  | [] => O
  | e :: r => ((if f e then 1 else 0) + count_events f r)%nat
  end.

(** Number of requests on record with the given action. *)
Fixpoint count_requests (a : string) (rs : list request) : nat :=
  match rs with
  | [] => O
  | r :: rest =>
      ((if String.eqb (action r) a then 1 else 0) + count_requests a rest)%nat
  end.

(** The value a dismiss click posts for notice data [d]. *)
Definition dismiss_value (d : data_value) : data_value :=
  if loose_eq_empty d || loose_eq_undefined d then DString "twe" else d.

(** [typeof elementor !== "undefined" && elementor.saver], as a truth value. *)
Definition editor_defined (st : state) : bool :=
  match elementor st with Some _ => true | None => false end.

(** The callbacks are registered exactly when the editor is there, and
    the flag is up only where they are. *)
Definition editor_bound (st : state) : Prop :=
  hooked st = editor_defined st /\
  (hasUnsavedChanges st = true -> hooked st = true).

(** The page has the run button, disabled exactly when the flag is up. *)
Definition button_mirrors (st : state) : Prop :=
  exists b, run_button st = Some b /\ disabled b = hasUnsavedChanges st.

(** Every dismiss request on record carries [dismiss_value d]. *)
Definition dismissals_carry (d : data_value) (st : state) : Prop :=
  notice_data st = d /\
  Forall (fun r => action r = "twae_hide_migration_notice" ->
                   value r = Some (dismiss_value d))
    (requests st).

(** Whenever the flag is up the run button, if the page has one, is
    disabled. *)
Definition flag_disables (st : state) : Prop :=
  forall b, run_button st = Some b -> hasUnsavedChanges st = true ->
            disabled b = true.

End MigrationExt.

(* ===================================================================== *)
(** * Properties of the primitives *)
(* ===================================================================== *)

Module JsFacts.

Import Js.

(** ** Rendering and parsing agree

    [toString_radix] hands [radix_digits] enough fuel: parsing what it
    prints gives the number back. *)

Lemma digit_value_char_nat (k : nat) radix :
  (k < 36)%nat ->
  digit_value radix (digit_char (Z.of_nat k))
  = if Z.of_nat k <? radix then Some (Z.of_nat k) else None.
Proof.
  intros Hk. do 36 (destruct k as [|k]; [reflexivity|]). lia.
Qed.

Lemma digit_value_char radix d :
  0 <= d < radix -> radix <= 36 ->
  digit_value radix (digit_char d) = Some d.
Proof.
  intros Hd Hr. rewrite <- (Z2Nat.id d) by lia.
  rewrite digit_value_char_nat by lia.
  destruct (Z.ltb_spec (Z.of_nat (Z.to_nat d)) radix); [reflexivity|lia].
Qed.

(** Horner evaluation of a digit string onto an accumulated value. *)
Lemma parse_digits_cons radix d r a :
  0 <= d < radix -> radix <= 36 ->
  parse_digits radix (String (digit_char d) r) (Some a)
  = parse_digits radix r (Some (a * radix + d)).
Proof.
  intros Hd Hr. cbn [parse_digits]. now rewrite digit_value_char.
Qed.

Lemma radix_digits_value radix fuel n acc :
  2 <= radix <= 36 -> 0 <= n < radix ^ Z.of_nat fuel ->
  exists k, 0 <= k /\
    forall a, parse_digits radix (radix_digits fuel radix n acc) (Some a)
              = parse_digits radix acc (Some (a * radix ^ k + n)).
Proof.
  intros Hr. revert n acc.
  induction fuel as [|f IH]; intros n acc Hn.
  - change (radix ^ Z.of_nat 0) with 1 in Hn.
    exists 0. split; [lia|]. intros a. cbn [radix_digits].
    do 2 f_equal. rewrite Z.pow_0_r. lia.
  - cbn [radix_digits]. destruct (Z.ltb_spec n radix) as [Hlt|Hge].
    + exists 1. split; [lia|]. intros a.
      rewrite Z.mod_small by lia. rewrite parse_digits_cons by lia.
      now rewrite Z.pow_1_r.
    + assert (Hq : 0 <= n / radix < radix ^ Z.of_nat f).
      { split; [apply Z.div_pos; lia|].
        apply Z.div_lt_upper_bound; [lia|].
        rewrite Nat2Z.inj_succ, Z.pow_succ_r in Hn by lia. lia. }
      destruct (IH (n / radix)
                  (String (digit_char (n mod radix)) acc) Hq)
        as (k & Hk & E).
      exists (k + 1). split; [lia|]. intros a. rewrite E.
      assert (Hm : 0 <= n mod radix < radix) by (apply Z.mod_pos_bound; lia).
      rewrite parse_digits_cons by lia. do 2 f_equal.
      rewrite Z.pow_add_r, Z.pow_1_r by lia.
      pose proof (Z.div_mod n radix ltac:(lia)). lia.
Qed.

Lemma log2_fuel radix n :
  2 <= radix -> 0 <= n -> n < radix ^ Z.of_nat (S (Z.to_nat (Z.log2 n))).
Proof.
  intros Hr Hn.
  rewrite Nat2Z.inj_succ, Z2Nat.id by apply Z.log2_nonneg.
  destruct (Z.eq_dec n 0) as [->|Hz].
  - change (Z.log2 0) with 0. rewrite Z.pow_1_r. lia.
  - apply Z.lt_le_trans with (2 ^ Z.succ (Z.log2 n)).
    + apply Z.log2_spec. lia.
    + apply Z.pow_le_mono_l. lia.
Qed.

(** [parseInt(n.toString(radix), radix)] is [n], read by the digit scanner. *)
Lemma parse_toString_radix radix n :
  2 <= radix <= 36 -> 0 <= n ->
  parse_digits radix (toString_radix radix n) (Some 0) = Some n.
Proof.
  intros Hr Hn. unfold toString_radix.
  destruct (Z.ltb_spec n 0); [lia|].
  destruct (radix_digits_value radix (S (Z.to_nat (Z.log2 n))) n "" Hr)
    as (k & _ & E).
  - split; [exact Hn|]. apply log2_fuel; lia.
  - rewrite E. cbn [parse_digits]. reflexivity.
Qed.

End JsFacts.

(* ===================================================================== *)
(** * Properties of admin-styles.js *)
(* ===================================================================== *)

Module AdminStylesFacts.

Import Js AdminStyles.

(** ** The functions at work *)

Example sanitize_relative :
  sanitizeCssUrl admin_page (Some " /wp-admin/css/colors/blue/colors.css ")
    (Some "blue") None
  = Some "/wp-admin/css/colors/blue/colors.css".
Proof. reflexivity. Qed.

Example sanitize_javascript :
  sanitizeCssUrl admin_page (Some "JaVaScRiPt:alert(1)") None None = None.
Proof. reflexivity. Qed.

Example sanitize_ftp :
  sanitizeCssUrl admin_page (Some "ftp://example.com/colors.css") None None
  = None.
Proof. reflexivity. Qed.

Example sanitize_ftp_without_URL :
  sanitizeCssUrl old_browser (Some "ftp://example.com/colors.css") None None
  = Some "ftp://example.com/colors.css".
Proof. reflexivity. Qed.

Example sanitize_not_a_string :
  sanitizeCssUrl admin_page None (Some "publishpress-custom") None = None.
Proof. reflexivity. Qed.

Example sanitize_custom_fresh :
  sanitizeCssUrl admin_page (Some "/admin-styles-css.php")
    (Some "publishpress-custom") None
  = Some "/admin-styles-css.php?ver=1700000000000".
Proof. reflexivity. Qed.

Example sanitize_custom_replaces :
  sanitizeCssUrl admin_page
    (Some "/admin-styles-css.php?ppc_custom_scheme=1&ver=1699999999")
    (Some "publishpress-custom") None
  = Some "/admin-styles-css.php?ppc_custom_scheme=1&ver=1700000000000".
Proof. reflexivity. Qed.

Example sanitize_custom_keeps_named_version :
  sanitizeCssUrl admin_page (Some "/colors.css?ver=beta")
    (Some "publishpress-custom") None
  = Some "/colors.css?ver=beta&ver=1700000000000".
Proof. reflexivity. Qed.

Example hexToRgb_long : hexToRgb "#ff00a1" = "255, 0, 161".
Proof. reflexivity. Qed.

Example hexToRgb_short : hexToRgb "#f0a" = "255, 0, 170".
Proof. reflexivity. Qed.

Example rgbToHex_rgba : rgbToHex "rgba(101, 89, 151, 0.8)" = "#655997".
Proof. reflexivity. Qed.

Example rgbToHex_hex : rgbToHex "#ABCDEF" = "#ABCDEF".
Proof. reflexivity. Qed.

Example lightenColor_base :
  lightenColor round_half_up "#655997" 20 = "#988cca".
Proof. reflexivity. Qed.

Example darkenColor_base :
  darkenColor round_half_up "#655997" 15 = "#3f3371".
Proof. reflexivity. Qed.

Example lightenColor_saturates :
  lightenColor round_half_up "#f0f0f1" 20 = "#ffffff".
Proof. reflexivity. Qed.

Example darkenColor_saturates :
  darkenColor round_half_up "#1d2327" 15 = "#000001".
Proof. reflexivity. Qed.

Example click_light :
  handleSchemeSelection admin_page None 1 sample_picker
  = Normal
      (Page [ColorOption false (Some "fresh") (Some false) (Some "/fresh.css");
             ColorOption true (Some "light") (Some true) (Some "/light.css");
             ColorOption false (Some "evil") (Some false)
               (Some "javascript:alert(1)")]
         (Some "light") false false (Some [Link (Some "/light.css")])
         (Some "light")).
Proof. reflexivity. Qed.

Example click_selected :
  handleSchemeSelection admin_page None 0 sample_picker = Normal sample_picker.
Proof. reflexivity. Qed.

Example click_before_init :
  exists pg,
    handleSchemeSelection admin_page None 1
      (Page (options sample_picker) (Some "fresh") false false None None)
    = Throw "TypeError" pg.
Proof. eexists. reflexivity. Qed.

(** ** Facts about the primitives *)

Lemma indexOf_from_range p s i :
  0 <= i -> indexOf_from p s i = -1 \/ i <= indexOf_from p s i.
Proof.
  revert i. induction s as [|c r IH]; intros i Hi; simpl.
  - destruct (startsWith p ""); lia.
  - destruct (startsWith p (String c r)); [lia|].
    destruct (IH (i + 1)) as [->|H]; lia.
Qed.

Lemma indexOf_zero s p : (indexOf s p =? 0) = startsWith p s.
Proof.
  unfold indexOf. destruct s as [|c r]; simpl.
  - destruct (startsWith p ""); reflexivity.
  - destruct (startsWith p (String c r)); [reflexivity|].
    destruct (indexOf_from_range p r (0 + 1)) as [->|H]; [lia|reflexivity|].
    apply Z.eqb_neq. lia.
Qed.

Lemma lower_char_ascii b :
  lower_char b = Url.ascii_lower b \/
  (is_7bit (lower_char b) = false /\ is_7bit (Url.ascii_lower b) = false).
Proof.
  destruct b as [[] [] [] [] [] [] [] []]; vm_compute; auto.
Qed.

Lemma eqb_lower_char a b :
  is_7bit a = true ->
  Ascii.eqb a (lower_char b) = Ascii.eqb a (Url.ascii_lower b).
Proof.
  intros Ha. destruct (lower_char_ascii b) as [->|[H1 H2]]; [reflexivity|].
  destruct (Ascii.eqb_spec a (lower_char b)) as [->|_]; [congruence|].
  destruct (Ascii.eqb_spec a (Url.ascii_lower b)) as [->|_]; congruence.
Qed.

Lemma begins_ci_lower p t :
  all_chars is_7bit p = true ->
  startsWith p (toLowerCase t) = begins_ci p t.
Proof.
  revert t. induction p as [|a p IH]; intros t Hp; [reflexivity|].
  unfold all_chars in Hp. simpl in Hp. apply andb_true_iff in Hp as [Ha Hp].
  destruct t as [|b t]; simpl; [reflexivity|].
  rewrite eqb_lower_char by exact Ha. rewrite IH by exact Hp. reflexivity.
Qed.

Lemma append_colon_inj a b : a +:+ ":" = b +:+ ":" -> a = b.
Proof.
  revert b. induction a as [|x a IH]; intros [|y b] H; simpl in H.
  - reflexivity.
  - injection H as _ H. destruct b; discriminate.
  - injection H as _ H. destruct a; discriminate.
  - injection H as -> H. f_equal. apply IH, H.
Qed.

Lemma scheme_char_lowered c :
  Url.is_scheme_char c = true ->
  lower_char (Url.ascii_lower c) = Url.ascii_lower c.
Proof.
  destruct c as [[] [] [] [] [] [] [] []]; vm_compute; congruence.
Qed.

Lemma scheme_state_lower s sch :
  Url.scheme_state s = Some sch -> toLowerCase sch = sch.
Proof.
  revert sch. induction s as [|c r IH]; intros sch; simpl; [discriminate|].
  destruct (Ascii.eqb c ":"); [intros [= <-]; reflexivity|].
  destruct (Url.is_scheme_char c) eqn:Hc; [|discriminate].
  destruct (Url.scheme_state r) as [sch'|]; [|discriminate].
  intros [= <-]. simpl. rewrite scheme_char_lowered by exact Hc.
  f_equal. apply IH. reflexivity.
Qed.

Lemma scheme_of_lower t sch :
  Url.scheme_of t = Some sch -> toLowerCase sch = sch.
Proof.
  unfold Url.scheme_of, Url.scheme_start.
  destruct (Url.preprocess t) as [|c r] eqn:E; [discriminate|].
  destruct (Url.is_alpha c); [|discriminate]. apply scheme_state_lower.
Qed.

Lemma toLowerCase_app a b :
  toLowerCase (a +:+ b) = toLowerCase a +:+ toLowerCase b.
Proof. induction a as [|c a IH]; simpl; [reflexivity|]. now rewrite IH. Qed.

(** The protocol test of the source, on a scheme in lower case. *)
Lemma protocol_test sch :
  toLowerCase sch = sch ->
  negb (String.eqb (toLowerCase (sch +:+ ":")) "http:")
  && negb (String.eqb (toLowerCase (sch +:+ ":")) "https:")
  = negb (String.eqb sch "http") && negb (String.eqb sch "https").
Proof.
  intros Hl. rewrite toLowerCase_app, Hl. simpl toLowerCase.
  assert (E : forall k, String.eqb (sch +:+ ":") (k +:+ ":") = String.eqb sch k).
  { intros k. destruct (String.eqb_spec sch k) as [->|Hne].
    - apply String.eqb_refl.
    - apply String.eqb_neq. intros H. apply Hne, append_colon_inj, H. }
  change "http:" with ("http" +:+ ":"). change "https:" with ("https" +:+ ":").
  now rewrite !E.
Qed.

(** ** Rejection *)

(** The guards of [sanitizeCssUrl] in the order of the source; [tac]
    closes the branch in which a guard answers [null]. *)
Ltac early_guards tac :=
  match goal with
  | |- context [sanitizeCssUrl _ (Some ?s) _ ?isSafe] =>
      unfold sanitizeCssUrl;
      destruct (String.eqb s ""); [tac|];
      destruct (String.eqb (trim s) ""); [tac|];
      destruct (match isSafe with
                | Some f => negb (f (trim s))
                | None => false
                end); [tac|]
  end.

Ltac all_guards tac :=
  early_guards tac;
  destruct (_ || _ || _); [tac|];
  match goal with
  | |- context [URL_is_function ?env && ?test] =>
      destruct (URL_is_function env && test); [tac|]
  end.

(** C1. An input that after trimming begins, whatever the letter case,
    with [javascript:], [data:] or [vbscript:], or that the URL
    constructor parses as an absolute URL of a scheme other than http
    and https, is answered with [null]. *)
Theorem sanitizeCssUrl_rejects (env : host) (s : string)
    (currentScheme : option string) (isSafe : option (string -> bool)) :
  begins_ci "javascript:" (trim s) = true \/
  begins_ci "data:" (trim s) = true \/
  begins_ci "vbscript:" (trim s) = true \/
  parses_as_non_http env (trim s) ->
  sanitizeCssUrl env (Some s) currentScheme isSafe = None.
Proof.
  intros H. early_guards ltac:(reflexivity).
  rewrite !indexOf_zero, !begins_ci_lower by reflexivity.
  destruct H as [-> | [-> | [-> | H]]];
    rewrite ?orb_true_r; try reflexivity.
  destruct (_ || _ || _); [reflexivity|].
  destruct H as (Hf & [base Hb] & Hp & sch & Hs & Hn1 & Hn2).
  unfold new_URL_protocol. rewrite Hf, Hb, Hp, Hs. simpl default.
  rewrite protocol_test by (eapply scheme_of_lower, Hs).
  apply String.eqb_neq in Hn1, Hn2. rewrite Hn1, Hn2. reflexivity.
Qed.

Lemma sanitizeCssUrl_rejects_witness :
  sanitizeCssUrl admin_page
    (Some "  JavaScript:alert(1) ") None None = None.
Proof.
  apply sanitizeCssUrl_rejects. left. reflexivity.
Defined.

(** ** Other schemes are left alone *)

(** C9. With a current scheme other than [publishpress-custom], an
    accepted input comes back as its trimmed self. *)
Theorem sanitizeCssUrl_unchanged (env : host) (s : string)
    (currentScheme : option string) (isSafe : option (string -> bool))
    (u : string) :
  currentScheme <> Some "publishpress-custom" ->
  sanitizeCssUrl env (Some s) currentScheme isSafe = Some u ->
  u = trim s.
Proof.
  intros Hcs. all_guards ltac:(discriminate).
  destruct (strict_eq currentScheme "publishpress-custom") eqn:E.
  - destruct currentScheme as [cs|]; [|discriminate].
    apply String.eqb_eq in E. congruence.
  - now intros [= <-].
Qed.

Lemma sanitizeCssUrl_unchanged_witness :
  "/css/colors.css" = trim "  /css/colors.css ".
Proof.
  apply (sanitizeCssUrl_unchanged
           admin_page
           "  /css/colors.css " (Some "fresh") None "/css/colors.css").
  - discriminate.
  - reflexivity.
Defined.

(** ** Acceptance *)

Lemma stripEnd_keep f c r :
  f c = false -> stripEnd f (String c r) = String c (stripEnd f r).
Proof. intros H. simpl. rewrite H. now destruct (stripEnd f r). Qed.

Lemma alpha_char_facts c :
  is_lower_alpha (Url.ascii_lower c) = true ->
  Url.is_c0_or_space c = false /\ Url.is_tab_or_newline c = false /\
  Ascii.eqb c ":" = false /\ Url.is_scheme_char c = true /\
  Url.is_alpha c = true.
Proof.
  destruct c as [[] [] [] [] [] [] [] []]; vm_compute; intuition congruence.
Qed.

Lemma scheme_scan_alpha c r :
  is_lower_alpha (Url.ascii_lower c) = true ->
  scheme_scan (String c r)
  = option_map (String (Url.ascii_lower c)) (scheme_scan r).
Proof.
  intros H. destruct (alpha_char_facts c H) as (H1 & H2 & H3 & H4 & _).
  unfold scheme_scan. rewrite stripEnd_keep by exact H1.
  cbn [remove_chars]. rewrite H2. cbn [Url.scheme_state].
  now rewrite H3, H4.
Qed.

Lemma scheme_scan_colon r : scheme_scan (String ":" r) = Some "".
Proof.
  unfold scheme_scan. rewrite stripEnd_keep by reflexivity. reflexivity.
Qed.

Lemma begins_ci_scan p t :
  all_chars is_lower_alpha p = true ->
  begins_ci (p +:+ ":") t = true -> scheme_scan t = Some p.
Proof.
  revert t. induction p as [|a p IH]; intros [|b t] Hp H;
    cbn [begins_ci String.append] in H; try discriminate.
  - apply andb_true_iff in H as [H _]. apply Ascii.eqb_eq in H.
    assert (Hb : b = ":"%char).
    { revert H. destruct b as [[] [] [] [] [] [] [] []]; vm_compute;
        congruence. }
    subst b. apply scheme_scan_colon.
  - unfold all_chars in Hp. simpl in Hp. apply andb_true_iff in Hp as [Ha Hp].
    apply andb_true_iff in H as [Hab H]. apply Ascii.eqb_eq in Hab. subst a.
    rewrite scheme_scan_alpha by exact Ha.
    rewrite (IH t Hp H). reflexivity.
Qed.

Lemma scheme_of_scan c r :
  is_lower_alpha (Url.ascii_lower c) = true ->
  Url.scheme_of (String c r) = scheme_scan (String c r).
Proof.
  intros H. destruct (alpha_char_facts c H) as (H1 & H2 & _ & _ & H5).
  unfold Url.scheme_of, Url.preprocess, scheme_scan. simpl stripStart.
  rewrite H1. rewrite stripEnd_keep by exact H1. simpl remove_chars.
  rewrite H2. unfold Url.scheme_start. now rewrite H5.
Qed.

(** A string with a case-insensitive prefix [p:] has scheme [p]. *)
Lemma begins_ci_scheme a p t :
  all_chars is_lower_alpha (String a p) = true ->
  begins_ci (String a p +:+ ":") t = true ->
  Url.scheme_of t = Some (String a p).
Proof.
  intros Hp H. destruct t as [|b t]; [discriminate|].
  assert (Hb : is_lower_alpha (Url.ascii_lower b) = true).
  { cbn [begins_ci String.append] in H.
    apply andb_true_iff in H as [H _]. apply Ascii.eqb_eq in H.
    subst a. unfold all_chars in Hp. simpl in Hp.
    now apply andb_true_iff in Hp as [Hp _]. }
  rewrite scheme_of_scan by exact Hb. now apply begins_ci_scan.
Qed.

(** The test on the three dangerous prefixes, read off the scheme. *)
Lemma dangerous_prefix_scheme t :
  (indexOf (toLowerCase t) "javascript:" =? 0)
  || (indexOf (toLowerCase t) "data:" =? 0)
  || (indexOf (toLowerCase t) "vbscript:" =? 0) = true ->
  Url.scheme_of t = Some "javascript" \/ Url.scheme_of t = Some "data" \/
  Url.scheme_of t = Some "vbscript".
Proof.
  rewrite !indexOf_zero, !begins_ci_lower by reflexivity.
  intros H. apply orb_true_iff in H as [H|H];
    [apply orb_true_iff in H as [H|H]|].
  - left. now apply (begins_ci_scheme "j" "avascript").
  - right; left. now apply (begins_ci_scheme "d" "ata").
  - right; right. now apply (begins_ci_scheme "v" "bscript").
Qed.

(** C7. A string that is not empty once trimmed, passes the validator
    when there is one, and is an absolute http or https URL, or a
    relative URL on a page served over http or https, is accepted. *)
Theorem sanitizeCssUrl_accepts (env : host) (s : string)
    (currentScheme : option string) (isSafe : option (string -> bool)) :
  trim s <> "" ->
  validator_passes isSafe (trim s) ->
  is_http_url (trim s) \/ (is_relative_url (trim s) /\ origin_http env) ->
  exists u, sanitizeCssUrl env (Some s) currentScheme isSafe = Some u.
Proof.
  intros Hne Hv Hk. unfold sanitizeCssUrl.
  destruct (String.eqb_spec s "") as [->|_]; [now destruct Hne|].
  destruct (String.eqb_spec (trim s) "") as [E|_]; [now destruct Hne|].
  assert (Hs : match isSafe with Some f => negb (f (trim s)) | None => false end
               = false).
  { destruct isSafe as [f|]; [|reflexivity]. simpl in Hv. now rewrite Hv. }
  rewrite Hs.
  destruct (_ || _ || _) eqn:Hd.
  { apply dangerous_prefix_scheme in Hd.
    unfold is_http_url, is_relative_url in Hk.
    destruct Hd as [Hd|[Hd|Hd]]; rewrite Hd in Hk;
      destruct Hk as [[Hk|Hk]|[Hk _]]; discriminate. }
  assert (Hu : URL_is_function env &&
    match new_URL_protocol env (trim s) with
    | Some protocol =>
        negb (String.eqb (toLowerCase protocol) "http:")
        && negb (String.eqb (toLowerCase protocol) "https:")
    | None => false
    end = false).
  { apply andb_false_iff. right. unfold new_URL_protocol.
    destruct (origin_scheme env) as [base|] eqn:Hb; [|reflexivity].
    destruct (URL_parses env (trim s)); [|reflexivity].
    destruct Hk as [[Hk|Hk]|[Hk Ho]].
    - rewrite Hk. reflexivity.
    - rewrite Hk. reflexivity.
    - unfold is_relative_url in Hk. rewrite Hk. simpl default.
      destruct (Ho base Hb) as [->| ->]; reflexivity. }
  rewrite Hu. eexists. reflexivity.
Qed.

Lemma sanitizeCssUrl_accepts_witness :
  exists u,
    sanitizeCssUrl admin_page
      (Some " HTTP://example.com/colors.css ") None
      (Some (fun t => negb (String.eqb t "blocked"))) = Some u.
Proof.
  apply sanitizeCssUrl_accepts.
  - discriminate.
  - reflexivity.
  - left. left. reflexivity.
Defined.

(** ** Cache busting *)

Local Arguments String.append : simpl nomatch.

Lemma startsWith_cons x p y s :
  startsWith (String x p) (String y s) = Ascii.eqb x y && startsWith p s.
Proof. reflexivity. Qed.

Lemma startsWith_nil_r x p : startsWith (String x p) "" = false.
Proof. reflexivity. Qed.

Lemma startsWith_ver_app a b :
  head_ok b = true -> startsWith "ver=" (a +:+ b) = startsWith "ver=" a.
Proof.
  intros Hb.
  assert (Hv : forall p, In p ["ver="; "er="; "r="; "="] -> startsWith p b = false).
  { intros p Hp. destruct b as [|c b]; simpl in Hp;
      [intuition (subst; reflexivity)|].
    unfold head_ok, not_in_ver in Hb. apply negb_true_iff in Hb.
    repeat (apply orb_false_iff in Hb as [Hb ?]).
    rewrite Ascii.eqb_sym in Hb. 
    repeat match goal with
           | H : Ascii.eqb c _ = false |- _ => rewrite Ascii.eqb_sym in H
           end.
    intuition (subst; cbn [startsWith];
               repeat match goal with
                      | H : Ascii.eqb _ c = false |- _ => rewrite H
                      end; reflexivity). }
  destruct a as [|a1 [|a2 [|a3 [|a4 a]]]]; cbn [String.append];
    rewrite ?startsWith_cons, ?startsWith_nil_r.
  - apply Hv. simpl. auto.
  - destruct (Ascii.eqb "v" a1); [|reflexivity]. cbn [andb].
    apply (Hv "er="). simpl. auto.
  - destruct (Ascii.eqb "v" a1), (Ascii.eqb "e" a2); try reflexivity.
    cbn [andb]. apply (Hv "r="). simpl. auto.
  - destruct (Ascii.eqb "v" a1), (Ascii.eqb "e" a2), (Ascii.eqb "r" a3);
      try reflexivity.
    cbn [andb]. apply (Hv "="). simpl. auto.
  - reflexivity.
Qed.

Lemma count_ver_app a b :
  head_ok b = true -> count_ver (a +:+ b) = (count_ver a + count_ver b)%nat.
Proof.
  intros Hb. induction a as [|c a IH]; [reflexivity|].
  cbn [String.append count_ver]. rewrite startsWith_ver_app by exact Hb.
  rewrite IH. lia.
Qed.

Lemma count_ver_no_sep s : all_chars not_sep s = true -> count_ver s = 0%nat.
Proof.
  unfold all_chars. induction s as [|c s IH]; [reflexivity|].
  cbn [list_ascii_of_string forallb count_ver]. intros H.
  apply andb_true_iff in H as [Hc Hs]. unfold not_sep in Hc.
  apply negb_true_iff in Hc. rewrite Hc, (IH Hs). reflexivity.
Qed.

Lemma digit_char_not_sep n : not_sep (digit_char (n mod 10)) = true.
Proof.
  assert (H : 0 <= n mod 10 < 10) by (apply Z.mod_pos_bound; lia).
  assert (E : n mod 10 = 0 \/ n mod 10 = 1 \/ n mod 10 = 2 \/ n mod 10 = 3 \/
              n mod 10 = 4 \/ n mod 10 = 5 \/ n mod 10 = 6 \/ n mod 10 = 7 \/
              n mod 10 = 8 \/ n mod 10 = 9) by lia.
  repeat (destruct E as [-> | E]; [reflexivity|]). now rewrite E.
Qed.

Lemma radix_digits_not_sep fuel n acc :
  all_chars not_sep acc = true ->
  all_chars not_sep (radix_digits fuel 10 n acc) = true.
Proof.
  revert n acc. induction fuel as [|f IH]; intros n acc Ha; [exact Ha|].
  cbn [radix_digits].
  assert (Ha' : all_chars not_sep (String (digit_char (n mod 10)) acc) = true).
  { unfold all_chars. cbn [list_ascii_of_string forallb].
    rewrite digit_char_not_sep. exact Ha. }
  destruct (n <? 10); [exact Ha'|]. apply IH, Ha'.
Qed.

Lemma Number_to_string_not_sep n :
  all_chars not_sep (Number_to_string (Some n)) = true.
Proof.
  unfold Number_to_string, toString_radix. destruct (n <? 0).
  - unfold all_chars. cbn [list_ascii_of_string forallb].
    apply andb_true_iff. split; [reflexivity|].
    now apply radix_digits_not_sep.
  - now apply radix_digits_not_sep.
Qed.

(** Appending [?ver=<n>] or [&ver=<n>] adds one parameter. *)
Lemma count_ver_appended a sep n :
  is_sep sep = true ->
  count_ver (a +:+ String sep ("ver=" +:+ Number_to_string (Some n)))
  = S (count_ver a).
Proof.
  intros Hsep. rewrite count_ver_app.
  - cbn [count_ver]. rewrite Hsep.
    change (startsWith "ver=" ("ver=" +:+ Number_to_string (Some n))) with true.
    cbn [andb]. 
    rewrite (count_ver_no_sep ("ver=" +:+ Number_to_string (Some n))); [lia|].
    unfold all_chars. cbn [String.append list_ascii_of_string forallb].
    apply (Number_to_string_not_sep n).
  - unfold is_sep in Hsep. apply orb_true_iff in Hsep as [H|H];
      apply Ascii.eqb_eq in H; subst sep; reflexivity.
Qed.

Lemma match_ver_here_sep c r x :
  match_ver_here (String c r) = Some x ->
  is_sep c && startsWith "ver=" r = true.
Proof.
  unfold match_ver_here. now destruct (is_sep c && startsWith "ver=" r).
Qed.

Lemma replace_ver_app pre x :
  count_ver pre = 0%nat -> head_ok x = true ->
  replace_ver (pre +:+ x) = pre +:+ replace_ver x.
Proof.
  intros Hc Hx. induction pre as [|c pre IH]; [reflexivity|].
  cbn [count_ver] in Hc.
  cbn [String.append replace_ver].
  destruct (match_ver_here (String c (pre +:+ x))) as [m|] eqn:E.
  - apply match_ver_here_sep in E. rewrite startsWith_ver_app in E by exact Hx.
    rewrite E in Hc. discriminate.
  - rewrite IH by lia. reflexivity.
Qed.

Lemma append_empty_r s : s +:+ "" = s.
Proof. induction s as [|c s IH]; simpl; [reflexivity|]. now rewrite IH. Qed.

Lemma replace_ver_none t : count_ver t = 0%nat -> replace_ver t = t.
Proof.
  intros H. rewrite <- (append_empty_r t) at 1.
  rewrite replace_ver_app by (exact H || reflexivity).
  apply append_empty_r.
Qed.

Lemma skip_digits_app ds rest :
  all_chars is_digit ds = true ->
  rest = "" \/ (exists r, rest = String "&" r) ->
  skip_digits (ds +:+ rest) = rest.
Proof.
  intros Hd Hr. unfold all_chars in Hd.
  induction ds as [|d ds IH]; cbn [String.append].
  - destruct Hr as [->|[r ->]]; reflexivity.
  - cbn [list_ascii_of_string forallb] in Hd.
    apply andb_true_iff in Hd as [Hd1 Hd2].
    cbn [skip_digits]. rewrite Hd1. apply IH, Hd2.
Qed.

Lemma replace_ver_here sep ds rest :
  is_sep sep = true -> ds <> "" -> all_chars is_digit ds = true ->
  rest = "" \/ (exists r, rest = String "&" r) ->
  replace_ver (String sep ("ver=" +:+ ds +:+ rest)) = ver_residue sep rest.
Proof.
  intros Hsep Hne Hd Hr. destruct ds as [|d ds]; [congruence|].
  unfold all_chars in Hd. cbn [list_ascii_of_string forallb] in Hd.
  apply andb_true_iff in Hd as [Hd1 Hd2].
  cbn [replace_ver match_ver_here]. rewrite Hsep.
  change (startsWith "ver=" ("ver=" +:+ String d ds +:+ rest)) with true.
  cbn [andb].
  change (drop 4 ("ver=" +:+ String d ds +:+ rest))
    with (String d (ds +:+ rest)).
  cbv iota. rewrite Hd1, (skip_digits_app ds rest Hd2 Hr).
  destruct Hr as [->|[r ->]]; reflexivity.
Qed.

Lemma sep_head_ok sep r : is_sep sep = true -> head_ok (String sep r) = true.
Proof.
  unfold is_sep. intros H. apply orb_true_iff in H as [H|H];
    apply Ascii.eqb_eq in H; subst sep; reflexivity.
Qed.

(** Removing the only numeric [ver=] parameter leaves none. *)
Lemma sole_numeric_ver_removed t :
  sole_numeric_ver t -> count_ver (replace_ver t) = 0%nat.
Proof.
  intros (pre & sep & ds & rest & -> & Hsep & Hne & Hd & Hr & Hc).
  rewrite count_ver_app in Hc by (apply sep_head_ok, Hsep).
  cbn [count_ver] in Hc. rewrite Hsep in Hc.
  change (startsWith "ver=" ("ver=" +:+ ds +:+ rest)) with true in Hc.
  cbn [andb] in Hc.
  assert (Hpre : count_ver pre = 0%nat) by lia.
  assert (Hin : count_ver ("ver=" +:+ ds +:+ rest) = 0%nat) by lia.
  rewrite replace_ver_app by (exact Hpre || apply sep_head_ok, Hsep).
  rewrite replace_ver_here by assumption.
  destruct Hr as [->|[r ->]]; cbn [ver_residue].
  - now rewrite append_empty_r.
  - rewrite count_ver_app by (apply sep_head_ok, Hsep). rewrite Hpre.
    change ("ver=" +:+ ds +:+ String "&" r)
      with (("ver=" +:+ ds) +:+ String "&" r) in Hin.
    rewrite count_ver_app in Hin by reflexivity.
    cbn [count_ver] in Hin |- *. rewrite Hsep.
    change (is_sep "&") with true in Hin.
    destruct (startsWith "ver=" r); cbn [andb] in Hin |- *; lia.
Qed.

(** For the scheme [publishpress-custom] the answer is the trimmed
    input with its first numeric [ver=] parameter removed and one
    [ver=<Date.now()>] parameter appended. *)
(** *** The query of the answer *)

Lemma all_chars_app f a b :
  all_chars f (a +:+ b) = all_chars f a && all_chars f b.
Proof.
  unfold all_chars. induction a as [|c a IH]; [reflexivity|].
  cbn. rewrite IH. now rewrite andb_assoc.
Qed.

Lemma all_chars_cons f c s :
  all_chars f (String c s) = f c && all_chars f s.
Proof. reflexivity. Qed.

Lemma all_chars_drop f n s :
  all_chars f s = true -> all_chars f (drop n s) = true.
Proof.
  revert s. induction n as [|n IH]; intros s H; [exact H|].
  destruct s as [|c s]; [exact H|]. cbn [drop].
  rewrite all_chars_cons in H. apply andb_true_iff in H as [_ H].
  now apply IH.
Qed.

Lemma all_chars_skip_digits f s :
  all_chars f s = true -> all_chars f (skip_digits s) = true.
Proof.
  induction s as [|c s IH]; intros H; [exact H|]. cbn [skip_digits].
  destruct (is_digit c); [|exact H].
  rewrite all_chars_cons in H. apply andb_true_iff in H as [_ H].
  now apply IH.
Qed.

(** The rewrite only takes characters away. *)
Lemma replace_ver_chars f t :
  all_chars f t = true -> all_chars f (replace_ver t) = true.
Proof.
  induction t as [|c r IH]; intros H; [exact H|].
  rewrite all_chars_cons in H. apply andb_true_iff in H as [Hc Hr].
  cbn [replace_ver match_ver_here].
  destruct (is_sep c && startsWith "ver=" r);
    [|rewrite all_chars_cons, Hc; now apply IH].
  pose proof (all_chars_drop f 4 r Hr) as Hd.
  destruct (drop 4 r) as [|d r'];
    [rewrite all_chars_cons, Hc; now apply IH|].
  destruct (is_digit d); [|rewrite all_chars_cons, Hc; now apply IH].
  rewrite all_chars_cons in Hd. apply andb_true_iff in Hd as [_ Hd].
  pose proof (all_chars_skip_digits f r' Hd) as Hs.
  destruct (skip_digits r') as [|x t]; [reflexivity|].
  destruct x as [[] [] [] [] [] [] [] []]; try exact Hs.
  cbn [String.append].
  rewrite all_chars_cons in Hs. apply andb_true_iff in Hs as [_ Hs].
  now rewrite all_chars_cons, Hc.
Qed.

Lemma digit_char_decimal f n :
  forallb f (list_ascii_of_string "0123456789") = true ->
  f (digit_char (n mod 10)) = true.
Proof.
  intros Hf. rewrite forallb_forall in Hf. apply Hf.
  assert (H : 0 <= n mod 10 < 10) by (apply Z.mod_pos_bound; lia).
  assert (E : n mod 10 = 0 \/ n mod 10 = 1 \/ n mod 10 = 2 \/ n mod 10 = 3 \/
              n mod 10 = 4 \/ n mod 10 = 5 \/ n mod 10 = 6 \/ n mod 10 = 7 \/
              n mod 10 = 8 \/ n mod 10 = 9) by lia.
  repeat (destruct E as [-> | E]; [cbn; tauto|]). rewrite E. cbn. tauto.
Qed.

Lemma radix_digits_chars f fuel n acc :
  forallb f (list_ascii_of_string "0123456789") = true ->
  all_chars f acc = true ->
  all_chars f (radix_digits fuel 10 n acc) = true.
Proof.
  intros Hf. revert n acc.
  induction fuel as [|k IH]; intros n acc Ha; [exact Ha|].
  cbn [radix_digits].
  assert (Ha' : all_chars f (String (digit_char (n mod 10)) acc) = true).
  { rewrite all_chars_cons, (digit_char_decimal f n Hf). exact Ha. }
  destruct (n <? 10); [exact Ha'|]. apply IH, Ha'.
Qed.

(** A printed integer is made of digits, after a sign when negative. *)
Lemma Number_to_string_chars f n :
  forallb f (list_ascii_of_string "-0123456789") = true ->
  all_chars f (Number_to_string (Some n)) = true.
Proof.
  intros Hf. cbn [list_ascii_of_string forallb] in Hf.
  apply andb_true_iff in Hf as [Hm Hf].
  unfold Number_to_string, toString_radix. destruct (n <? 0).
  - rewrite all_chars_cons, Hm. now apply radix_digits_chars.
  - now apply radix_digits_chars.
Qed.

Lemma remove_chars_id s :
  all_chars not_tab_or_newline s = true ->
  remove_chars Url.is_tab_or_newline s = s.
Proof.
  induction s as [|c s IH]; intros H; [reflexivity|].
  rewrite all_chars_cons in H. apply andb_true_iff in H as [Hc Hs].
  unfold not_tab_or_newline in Hc. apply negb_true_iff in Hc.
  cbn [remove_chars]. rewrite Hc. now rewrite IH.
Qed.

Lemma before_hash_id s : all_chars not_hash s = true -> before_hash s = s.
Proof.
  induction s as [|c s IH]; intros H; [reflexivity|].
  rewrite all_chars_cons in H. apply andb_true_iff in H as [Hc Hs].
  unfold not_hash in Hc. apply negb_true_iff in Hc.
  cbn [before_hash]. rewrite Hc. now rewrite IH.
Qed.

(** [s.indexOf('?') === -1] tells whether [s] is without [?]. *)
Lemma indexOf_question_from s i :
  0 <= i ->
  (indexOf_from "?" s i =? -1)
  = match after_question s with Some _ => false | None => true end.
Proof.
  revert i. induction s as [|c s IH]; intros i Hi; [reflexivity|].
  cbn [indexOf_from after_question]. rewrite startsWith_cons.
  cbn [startsWith]. rewrite andb_true_r, Ascii.eqb_sym.
  destruct (Ascii.eqb c "?").
  - apply Z.eqb_neq. lia.
  - apply IH. lia.
Qed.

Lemma after_question_app_none a x :
  after_question a = None -> after_question (a +:+ String "?" x) = Some x.
Proof.
  induction a as [|c a IH]; intros H; [reflexivity|].
  cbn [String.append after_question] in *.
  destruct (Ascii.eqb c "?"); [discriminate|]. now apply IH.
Qed.

Lemma after_question_app_some a q y :
  after_question a = Some q -> after_question (a +:+ y) = Some (q +:+ y).
Proof.
  induction a as [|c a IH]; intros H; [discriminate|].
  cbn [String.append after_question] in *.
  destruct (Ascii.eqb c "?"); [now injection H as <-|]. now apply IH.
Qed.

Lemma count_ver_after_question s q :
  after_question s = Some q -> count_ver s = 0%nat ->
  count_ver (String "?" q) = 0%nat.
Proof.
  induction s as [|c s IH]; intros H H0; [discriminate|].
  cbn [after_question] in H. destruct (Ascii.eqb c "?") eqn:E.
  - apply Ascii.eqb_eq in E as ->. now injection H as <-.
  - apply IH; [exact H|]. cbn [count_ver] in H0. lia.
Qed.

Lemma split_amp_nonempty q : split_amp q <> [].
Proof.
  destruct q as [|c q]; [discriminate|]. cbn [split_amp].
  destruct (Ascii.eqb c "&"); [discriminate|].
  destruct (split_amp q); discriminate.
Qed.

Lemma split_amp_app q y :
  split_amp (q +:+ String "&" y) = (split_amp q ++ split_amp y)%list.
Proof.
  induction q as [|c q IH]; [reflexivity|].
  cbn [String.append split_amp]. rewrite IH.
  destruct (Ascii.eqb c "&"); [reflexivity|].
  pose proof (split_amp_nonempty q) as N.
  destruct (split_amp q) as [|p l]; [contradiction|reflexivity].
Qed.

Lemma split_amp_plain s : all_chars not_sep s = true -> split_amp s = [s].
Proof.
  induction s as [|c s IH]; intros H; [reflexivity|].
  rewrite all_chars_cons in H. apply andb_true_iff in H as [Hc Hs].
  unfold not_sep, is_sep in Hc. apply negb_true_iff, orb_false_iff in Hc.
  destruct Hc as [_ Hc]. cbn [split_amp]. rewrite Hc, (IH Hs). reflexivity.
Qed.

(** The first parameter is an initial segment of the query. *)
Lemma split_amp_head x q p l :
  split_amp q = p :: l -> startsWith x p = true -> startsWith x q = true.
Proof.
  revert x p l. induction q as [|c q IH]; intros x p l H Hx.
  - injection H as <- _. exact Hx.
  - cbn [split_amp] in H. destruct (Ascii.eqb c "&").
    + injection H as <- _. destruct x; [reflexivity|discriminate].
    + destruct x as [|a x]; [reflexivity|].
      destruct (split_amp q) as [|p' l'] eqn:E.
      * injection H as <- _. rewrite startsWith_cons in *.
        apply andb_true_iff in Hx as [-> Hx]. cbn [andb].
        destruct x; [reflexivity|discriminate].
      * injection H as <- _. rewrite startsWith_cons in *.
        apply andb_true_iff in Hx as [-> Hx]. cbn [andb].
        now apply (IH x p' l').
Qed.

Lemma filter_ver_tail q :
  count_ver q = 0%nat ->
  List.filter (startsWith "ver=") (tl (split_amp q)) = [].
Proof.
  induction q as [|c q IH]; intros H; [reflexivity|].
  cbn [count_ver] in H. cbn [split_amp].
  destruct (Ascii.eqb c "&") eqn:E.
  - cbn [tl]. unfold is_sep in H. rewrite E, orb_true_r in H. cbn [andb] in H.
    destruct (startsWith "ver=" q) eqn:S; [lia|].
    pose proof (split_amp_nonempty q) as N.
    destruct (split_amp q) as [|p l] eqn:Es; [contradiction|].
    cbn [List.filter].
    destruct (startsWith "ver=" p) eqn:Sp.
    + rewrite (split_amp_head "ver=" q p l Es Sp) in S. discriminate.
    + apply (IH ltac:(lia)).
  - destruct (split_amp q) as [|p l] eqn:Es; [reflexivity|].
    cbn [tl]. apply (IH ltac:(lia)).
Qed.

Lemma filter_ver_none q :
  count_ver (String "?" q) = 0%nat ->
  List.filter (startsWith "ver=") (split_amp q) = [].
Proof.
  intros H. cbn [count_ver] in H.
  change (is_sep "?") with true in H. cbn [andb] in H.
  destruct (startsWith "ver=" q) eqn:S; [lia|].
  pose proof (filter_ver_tail q ltac:(lia)) as T.
  pose proof (split_amp_nonempty q) as N.
  destruct (split_amp q) as [|p l] eqn:Es; [contradiction|].
  cbn [List.filter tl] in *.
  destruct (startsWith "ver=" p) eqn:Sp; [|exact T].
  rewrite (split_amp_head "ver=" q p l Es Sp) in S. discriminate.
Qed.

(** After the rewrite, the appended parameter is the one [ver=]
    parameter of the query. *)
Lemma ver_parameters_appended t n :
  all_chars not_hash t = true -> all_chars not_tab_or_newline t = true ->
  count_ver t = 0%nat ->
  ver_parameters
    (if indexOf t "?" =? -1
     then t +:+ "?ver=" +:+ Number_to_string (Some n)
     else t +:+ "&ver=" +:+ Number_to_string (Some n))
  = 1%nat.
Proof.
  intros Hh Ht H0.
  assert (Hv : all_chars not_sep ("ver=" +:+ Number_to_string (Some n)) = true).
  { rewrite all_chars_app, Number_to_string_not_sep. reflexivity. }
  assert (Hn : forall f sep,
             all_chars f t = true -> f sep = true ->
             forallb f (list_ascii_of_string "ver=-0123456789") = true ->
             all_chars f
               (t +:+ String sep ("ver=" +:+ Number_to_string (Some n))) = true).
  { intros f sep Hf Hs Hd. rewrite all_chars_app, Hf, all_chars_cons, Hs.
    cbn [list_ascii_of_string forallb] in Hd.
    repeat (apply andb_true_iff in Hd as [? Hd]).
    cbn [String.append andb]. rewrite !all_chars_cons.
    repeat (apply andb_true_iff; split; [assumption|]).
    apply Number_to_string_chars. cbn [list_ascii_of_string forallb].
    repeat (apply andb_true_iff; split; [assumption|]). exact Hd. }
  unfold indexOf. rewrite indexOf_question_from by lia.
  unfold ver_parameters, query_of.
  destruct (after_question t) as [q|] eqn:Eq.
  - change (t +:+ "&ver=" +:+ Number_to_string (Some n))
      with (t +:+ String "&" ("ver=" +:+ Number_to_string (Some n))).
    rewrite remove_chars_id by (now apply Hn).
    rewrite before_hash_id by (now apply Hn).
    rewrite (after_question_app_some t q _ Eq), split_amp_app.
    rewrite List.filter_app, (filter_ver_none q), (split_amp_plain _ Hv).
    + reflexivity.
    + now apply (count_ver_after_question t).
  - change (t +:+ "?ver=" +:+ Number_to_string (Some n))
      with (t +:+ String "?" ("ver=" +:+ Number_to_string (Some n))).
    rewrite remove_chars_id by (now apply Hn).
    rewrite before_hash_id by (now apply Hn).
    rewrite (after_question_app_none t _ Eq), (split_amp_plain _ Hv).
    reflexivity.
Qed.

Lemma sanitizeCssUrl_appends (env : host) (s : string)
    (isSafe : option (string -> bool)) (u : string) :
  sanitizeCssUrl env (Some s) (Some "publishpress-custom") isSafe = Some u ->
  exists sep, is_sep sep = true /\
    u = replace_ver (trim s)
        +:+ String sep ("ver=" +:+ Number_to_string (Some (Date_now env))) /\
    count_ver u = S (count_ver (replace_ver (trim s))).
Proof.
  all_guards ltac:(discriminate).
  change (strict_eq (Some "publishpress-custom") "publishpress-custom")
    with true. cbv iota.
  intros H.
  assert (Hu : exists sep, is_sep sep = true /\
     u = replace_ver (trim s)
         +:+ String sep ("ver=" +:+ Number_to_string (Some (Date_now env)))).
  { destruct (indexOf (replace_ver (trim s)) "?" =? -1);
      injection H as <-; [exists "?"%char | exists "&"%char];
      split; reflexivity. }
  destruct Hu as (sep & Hsep & ->). exists sep.
  split; [exact Hsep|]. split; [reflexivity|].
  apply count_ver_appended, Hsep.
Qed.

Lemma sanitizeCssUrl_custom_answer (env : host) (s : string)
    (isSafe : option (string -> bool)) (u : string) :
  sanitizeCssUrl env (Some s) (Some "publishpress-custom") isSafe = Some u ->
  u = (if indexOf (replace_ver (trim s)) "?" =? -1
       then replace_ver (trim s)
              +:+ "?ver=" +:+ Number_to_string (Some (Date_now env))
       else replace_ver (trim s)
              +:+ "&ver=" +:+ Number_to_string (Some (Date_now env))).
Proof.
  all_guards ltac:(discriminate).
  change (strict_eq (Some "publishpress-custom") "publishpress-custom")
    with true. cbv iota.
  intros [= <-]. reflexivity.
Qed.

(** C2, as the code has it.  For the scheme [publishpress-custom] the
    URL answered for an accepted input without a fragment, and without
    a tab or line break inside, holds exactly one [ver=] query
    parameter, and [ver=] stands nowhere else after a [?] or [&], when
    the trimmed input has no [ver=] after a [?] or [&], or has a single
    one whose value is a digit run followed by [&] or by the end of the
    string. *)
Theorem sanitizeCssUrl_cache_busting (env : host) (s : string)
    (isSafe : option (string -> bool)) (u : string) :
  sanitizeCssUrl env (Some s) (Some "publishpress-custom") isSafe = Some u ->
  count_ver (trim s) = 0%nat \/ sole_numeric_ver (trim s) ->
  all_chars not_hash (trim s) = true ->
  all_chars not_tab_or_newline (trim s) = true ->
  ver_parameters u = 1%nat /\ count_ver u = 1%nat.
Proof.
  intros H Hv Hh Ht.
  assert (H0 : count_ver (replace_ver (trim s)) = 0%nat).
  { destruct Hv as [H0|H1].
    - now rewrite replace_ver_none.
    - now apply sole_numeric_ver_removed. }
  split.
  - rewrite (sanitizeCssUrl_custom_answer env s isSafe u H).
    apply ver_parameters_appended; [| |exact H0]; now apply replace_ver_chars.
  - destruct (sanitizeCssUrl_appends env s isSafe u H) as (sep & _ & _ & ->).
    now rewrite H0.
Qed.

Lemma sanitizeCssUrl_cache_busting_witness :
  ver_parameters "http://example.com/colors.css?x=1&ver=1700000000000"
  = 1%nat /\
  count_ver "http://example.com/colors.css?x=1&ver=1700000000000" = 1%nat.
Proof.
  apply (sanitizeCssUrl_cache_busting admin_page
           " http://example.com/colors.css?ver=42&x=1" None
           "http://example.com/colors.css?x=1&ver=1700000000000").
  - reflexivity.
  - right. exists "http://example.com/colors.css", "?"%char, "42", "&x=1".
    repeat split; try reflexivity; try discriminate.
    right. exists "x=1". reflexivity.
  - reflexivity.
  - reflexivity.
Defined.

(** C2 as stated fails.  Only the first numeric [ver=] parameter is
    removed, so an input with two of them keeps one and gains another.
    What is appended to an input with a fragment lands in the fragment,
    so that the answer for an input without any [ver=] has no [ver=]
    query parameter.  And a [ver=] broken by a tab, which the URL
    parser drops, is not removed: the answer has two. *)
Lemma sanitizeCssUrl_not_one_ver_parameter :
  ~ (forall (env : host) (s : string) (isSafe : option (string -> bool))
            (u : string),
       sanitizeCssUrl env (Some s) (Some "publishpress-custom") isSafe = Some u ->
       count_ver u = 1%nat) /\
  ~ (forall (env : host) (s : string) (isSafe : option (string -> bool))
            (u : string),
       sanitizeCssUrl env (Some s) (Some "publishpress-custom") isSafe = Some u ->
       ver_parameters u = 1%nat) /\
  ~ (forall (env : host) (s : string) (isSafe : option (string -> bool))
            (u : string),
       sanitizeCssUrl env (Some s) (Some "publishpress-custom") isSafe = Some u ->
       count_ver (trim s) = 0%nat ->
       all_chars not_tab_or_newline (trim s) = true ->
       ver_parameters u = 1%nat) /\
  ~ (forall (env : host) (s : string) (isSafe : option (string -> bool))
            (u : string),
       sanitizeCssUrl env (Some s) (Some "publishpress-custom") isSafe = Some u ->
       count_ver (trim s) = 0%nat ->
       all_chars not_hash (trim s) = true ->
       ver_parameters u = 1%nat).
Proof.
  split; [|split; [|split]]; intros H.
  - specialize (H admin_page
                  "http://example.com/colors.css?ver=1&ver=2" None
                  "http://example.com/colors.css?ver=2&ver=1700000000000"
                  eq_refl).
    vm_compute in H. discriminate.
  - specialize (H admin_page
                  "http://example.com/colors.css?ver=1&ver=2" None
                  "http://example.com/colors.css?ver=2&ver=1700000000000"
                  eq_refl).
    vm_compute in H. discriminate.
  - specialize (H admin_page "/colors.css#top" None
                  "/colors.css#top?ver=1700000000000" eq_refl eq_refl eq_refl).
    vm_compute in H. discriminate.
  - specialize (H admin_page
                  ("/colors.css?v" +:+ String "009" "er=5") None
                  ("/colors.css?v" +:+ String "009" "er=5&ver=1700000000000")
                  eq_refl eq_refl eq_refl).
    vm_compute in H. discriminate.
Qed.

(** ** Colors *)

Lemma all_bytes_spec P x :
  all_bytes P = true -> 0 <= x < 256 -> P x = true.
Proof.
  unfold all_bytes. rewrite forallb_forall. intros H Hx.
  rewrite <- (Z2Nat.id x) by lia. apply H, in_seq. lia.
Qed.

Lemma hex_digit_facts c v :
  digit_value 16 c = Some v ->
  0 <= v < 16 /\ is_space c = false /\ Ascii.eqb c "-" = false /\
  Ascii.eqb c "+" = false /\ Ascii.eqb "x" c = false /\
  Ascii.eqb "X" c = false.
Proof.
  destruct c as [[] [] [] [] [] [] [] []]; vm_compute;
    intros H; try discriminate H; injection H as <-; intuition congruence.
Qed.

Lemma is_hex_digit_value c :
  is_hex_digit c = true -> exists v, digit_value 16 c = Some v.
Proof.
  unfold is_hex_digit. destruct (digit_value 16 c) as [v|]; [eauto|discriminate].
Qed.

(** [parseInt(s, 16)] on a string that starts with two hex digits reads
    the digits and nothing else. *)
Lemma parseInt_hex c1 c2 r :
  is_hex_digit c1 = true -> is_hex_digit c2 = true ->
  parseInt (String c1 (String c2 r)) 16
  = parse_digits 16 (String c1 (String c2 r)) None.
Proof.
  intros H1 H2.
  destruct (is_hex_digit_value c1 H1) as [v1 E1].
  destruct (is_hex_digit_value c2 H2) as [v2 E2].
  destruct (hex_digit_facts c1 v1 E1) as (_ & S1 & M1 & P1 & _ & _).
  destruct (hex_digit_facts c2 v2 E2) as (_ & _ & _ & _ & X2 & X2').
  unfold parseInt, trimStart. cbn [stripStart]. rewrite S1, M1, P1.
  rewrite !startsWith_cons, X2, X2', !andb_false_r.
  cbn [orb andb Z.eqb].
  destruct (parse_digits 16 (String c1 (String c2 r)) None) as [n|];
    [|reflexivity].
  cbn [option_map]. f_equal. lia.
Qed.

Lemma toInt32_small n : 0 <= n < 2 ^ 31 -> toInt32 (Some n) = n.
Proof. intros H. unfold toInt32. rewrite Z.mod_small; lia. Qed.

(** The three channel extractions of [lightenColor] and [darkenColor]. *)
Lemma channels_of_num r g b :
  0 <= r < 256 -> 0 <= g < 256 -> 0 <= b < 256 ->
  let num := Some (r * 65536 + g * 256 + b) in
  sar num 16 = r /\ band (Some (sar num 8)) 255 = g /\ band num 255 = b.
Proof.
  intros Hr Hg Hb num. unfold sar, band, num.
  change (toInt32 (Some 255)) with (Z.ones 8).
  rewrite (toInt32_small (r * 65536 + g * 256 + b)) by lia.
  rewrite !Z.shiftr_div_pow2 by lia.
  change (2 ^ 16) with 65536. change (2 ^ 8) with 256.
  assert (E8 : (r * 65536 + g * 256 + b) / 256 = r * 256 + g)
    by (symmetry; apply Z.div_unique with b; lia).
  rewrite E8. rewrite toInt32_small by lia.
  rewrite !Z.land_ones by lia. change (2 ^ 8) with 256.
  repeat split.
  - symmetry. apply Z.div_unique with (g * 256 + b); lia.
  - symmetry. apply Z.mod_unique with r; lia.
  - symmetry. apply Z.mod_unique with (r * 256 + g); lia.
Qed.

Lemma hex_color_inv s :
  is_hex_color s = true ->
  exists c1 c2 c3 c4 c5 c6,
    s = String "#" (String c1 (String c2 (String c3 (String c4
          (String c5 (String c6 ""))))))
    /\ is_hex_digit c1 = true /\ is_hex_digit c2 = true
    /\ is_hex_digit c3 = true /\ is_hex_digit c4 = true
    /\ is_hex_digit c5 = true /\ is_hex_digit c6 = true.
Proof.
  destruct s as [|a r]; [discriminate|].
  destruct a as [[] [] [] [] [] [] [] []]; try discriminate.
  cbn [is_hex_color]. intros H. apply andb_true_iff in H as [Hl Hd].
  destruct r as [|c1 [|c2 [|c3 [|c4 [|c5 [|c6 [|c7 r]]]]]]]; try discriminate.
  unfold all_chars in Hd. cbn [list_ascii_of_string forallb] in Hd.
  repeat (apply andb_true_iff in Hd as [? Hd]).
  exists c1, c2, c3, c4, c5, c6. intuition.
Qed.

Lemma hexval_range c : is_hex_digit c = true -> 0 <= hexval c < 16.
Proof.
  intros H. destruct (is_hex_digit_value c H) as [v E].
  unfold hexval. rewrite E. apply (hex_digit_facts c v E).
Qed.

Lemma parse_two_hex c1 c2 :
  is_hex_digit c1 = true -> is_hex_digit c2 = true ->
  parseInt (String c1 (String c2 "")) 16 = Some (hexval c1 * 16 + hexval c2).
Proof.
  intros H1 H2. rewrite parseInt_hex by assumption.
  destruct (is_hex_digit_value c1 H1) as [v1 E1].
  destruct (is_hex_digit_value c2 H2) as [v2 E2].
  unfold hexval. cbn [parse_digits]. rewrite E1, E2. reflexivity.
Qed.

Lemma parse_six_hex c1 c2 c3 c4 c5 c6 :
  is_hex_digit c1 = true -> is_hex_digit c2 = true ->
  is_hex_digit c3 = true -> is_hex_digit c4 = true ->
  is_hex_digit c5 = true -> is_hex_digit c6 = true ->
  parseInt (String c1 (String c2 (String c3 (String c4
              (String c5 (String c6 "")))))) 16
  = Some ((hexval c1 * 16 + hexval c2) * 65536
          + (hexval c3 * 16 + hexval c4) * 256
          + (hexval c5 * 16 + hexval c6)).
Proof.
  intros H1 H2 H3 H4 H5 H6. rewrite parseInt_hex by assumption.
  destruct (is_hex_digit_value c1 H1) as [v1 E1].
  destruct (is_hex_digit_value c2 H2) as [v2 E2].
  destruct (is_hex_digit_value c3 H3) as [v3 E3].
  destruct (is_hex_digit_value c4 H4) as [v4 E4].
  destruct (is_hex_digit_value c5 H5) as [v5 E5].
  destruct (is_hex_digit_value c6 H6) as [v6 E6].
  unfold hexval. cbn [parse_digits]. rewrite E1, E2, E3, E4, E5, E6.
  f_equal. lia.
Qed.

(** ** Hexadecimal rendering *)

Lemma radix_digits_more f n acc :
  16 <= n ->
  radix_digits (S f) 16 n acc
  = radix_digits f 16 (n / 16) (String (digit_char (n mod 16)) acc).
Proof.
  intros H. cbn [radix_digits].
  destruct (Z.ltb_spec n 16); [lia|reflexivity].
Qed.

Lemma radix_digits_last f n acc :
  n < 16 ->
  radix_digits (S f) 16 n acc = String (digit_char (n mod 16)) acc.
Proof.
  intros H. cbn [radix_digits].
  destruct (Z.ltb_spec n 16); [reflexivity|lia].
Qed.

(** A number of seven hexadecimal digits with leading digit 1. *)
Lemma toString16_seven R G B :
  0 <= R < 256 -> 0 <= G < 256 -> 0 <= B < 256 ->
  toString_radix 16 (16777216 + R * 65536 + G * 256 + B)
  = String "1" (hex2 R +:+ hex2 G +:+ hex2 B).
Proof.
  intros HR HG HB. set (N := 16777216 + R * 65536 + G * 256 + B).
  assert (HN : 2 ^ 24 <= N < 2 ^ 25) by (unfold N; lia).
  unfold toString_radix. destruct (Z.ltb_spec N 0); [lia|].
  rewrite (Z.log2_unique N 24) by lia.
  change (S (Z.to_nat 24)) with 25%nat.
  assert (D1 : N / 16 = 1048576 + R * 4096 + G * 16 + B / 16)
    by (unfold N; Z.div_mod_to_equations; lia).
  assert (D2 : N / 16 / 16 = 65536 + R * 256 + G)
    by (rewrite D1; Z.div_mod_to_equations; lia).
  assert (D3 : N / 16 / 16 / 16 = 4096 + R * 16 + G / 16)
    by (rewrite D2; Z.div_mod_to_equations; lia).
  assert (D4 : N / 16 / 16 / 16 / 16 = 256 + R)
    by (rewrite D3; Z.div_mod_to_equations; lia).
  assert (D5 : N / 16 / 16 / 16 / 16 / 16 = 16 + R / 16)
    by (rewrite D4; Z.div_mod_to_equations; lia).
  assert (D6 : N / 16 / 16 / 16 / 16 / 16 / 16 = 1)
    by (rewrite D5; Z.div_mod_to_equations; lia).
  rewrite radix_digits_more by lia.
  rewrite radix_digits_more by (rewrite D1; Z.div_mod_to_equations; lia).
  rewrite radix_digits_more by (rewrite D2; lia).
  rewrite radix_digits_more by (rewrite D3; Z.div_mod_to_equations; lia).
  rewrite radix_digits_more by (rewrite D4; lia).
  rewrite radix_digits_more by (rewrite D5; Z.div_mod_to_equations; lia).
  rewrite radix_digits_last by (rewrite D6; lia).
  rewrite D6, D5, D4, D3, D2, D1.
  unfold hex2. cbn [String.append].
  assert (M : forall x y, x = y -> digit_char x = digit_char y)
    by (intros x y ->; reflexivity).
  change (digit_char (1 mod 16)) with "1"%char. f_equal.
  repeat (apply f_equal2;
          [apply M; unfold N; Z.div_mod_to_equations; lia|]).
  reflexivity.
Qed.

Lemma hex2_parse x : 0 <= x < 256 -> parseInt (hex2 x) 16 = Some x.
Proof.
  intros H.
  apply (all_bytes_spec
           (fun x => bool_decide (parseInt (hex2 x) 16 = Some x))) in H.
  - now apply bool_decide_eq_true in H.
  - vm_compute. reflexivity.
Qed.

Lemma hex2_digits x :
  0 <= x < 256 ->
  is_hex_digit (digit_char (x / 16)) = true /\
  is_hex_digit (digit_char (x mod 16)) = true.
Proof.
  intros H.
  apply (all_bytes_spec
           (fun x => is_hex_digit (digit_char (x / 16))
                     && is_hex_digit (digit_char (x mod 16)))) in H.
  - now apply andb_true_iff in H.
  - vm_compute. reflexivity.
Qed.

Lemma hex_color_channels R G B :
  0 <= R < 256 -> 0 <= G < 256 -> 0 <= B < 256 ->
  is_hex_color (hex_color R G B) = true /\
  channel 0 (hex_color R G B) = Some R /\
  channel 1 (hex_color R G B) = Some G /\
  channel 2 (hex_color R G B) = Some B.
Proof.
  intros HR HG HB.
  destruct (hex2_digits R HR) as [R1 R2].
  destruct (hex2_digits G HG) as [G1 G2].
  destruct (hex2_digits B HB) as [B1 B2].
  split; [|split; [|split]].
  - unfold hex_color, hex2, is_hex_color, all_chars.
    cbn [String.append String.length Nat.eqb list_ascii_of_string forallb].
    now rewrite R1, R2, G1, G2, B1, B2.
  - apply (hex2_parse R HR).
  - apply (hex2_parse G HG).
  - apply (hex2_parse B HB).
Qed.

(** The guard written out in the source is a clamp to the byte range. *)
Lemma source_clamp x :
  (if x <? 255 then if x <? 1 then 0 else x else 255) = clamp_byte x.
Proof.
  unfold clamp_byte.
  destruct (Z.ltb_spec x 255), (Z.ltb_spec x 1); lia.
Qed.

Lemma clamp_byte_range x : 0 <= clamp_byte x <= 255.
Proof. unfold clamp_byte. lia. Qed.

Lemma shaded_hex_color c1 c2 c3 c4 c5 c6 amt :
  is_hex_digit c1 = true -> is_hex_digit c2 = true ->
  is_hex_digit c3 = true -> is_hex_digit c4 = true ->
  is_hex_digit c5 = true -> is_hex_digit c6 = true ->
  let r := hexval c1 * 16 + hexval c2 in
  let g := hexval c3 * 16 + hexval c4 in
  let b := hexval c5 * 16 + hexval c6 in
  shaded
    (String "#" (String c1 (String c2 (String c3 (String c4
       (String c5 (String c6 "")))))))
    (hex_color (clamp_byte (r + amt)) (clamp_byte (g + amt))
       (clamp_byte (b + amt)))
    amt.
Proof.
  intros H1 H2 H3 H4 H5 H6 r g b.
  pose proof (clamp_byte_range (r + amt)) as KR.
  pose proof (clamp_byte_range (g + amt)) as KG.
  pose proof (clamp_byte_range (b + amt)) as KB.
  destruct (hex_color_channels (clamp_byte (r + amt)) (clamp_byte (g + amt))
              (clamp_byte (b + amt))) as (Hc & C0 & C1 & C2); try lia.
  split; [exact Hc|].
  intros k Hk.
  destruct k as [|[|[|k]]]; [| | |lia].
  - exists r, (clamp_byte (r + amt)).
    repeat split; try lia; [|exact C0]. apply (parse_two_hex c1 c2 H1 H2).
  - exists g, (clamp_byte (g + amt)).
    repeat split; try lia; [|exact C1]. apply (parse_two_hex c3 c4 H3 H4).
  - exists b, (clamp_byte (b + amt)).
    repeat split; try lia; [|exact C2]. apply (parse_two_hex c5 c6 H5 H6).
Qed.

(** Both shading functions read the three channels off the parsed
    number, move and clamp them, and print seven hexadecimal digits. *)
Lemma shade_shaded color amt :
  is_hex_color color = true -> shaded color (shade color amt) amt.
Proof.
  intros H.
  destruct (hex_color_inv color H)
    as (c1 & c2 & c3 & c4 & c5 & c6 & -> & H1 & H2 & H3 & H4 & H5 & H6).
  pose proof (hexval_range c1 H1). pose proof (hexval_range c2 H2).
  pose proof (hexval_range c3 H3). pose proof (hexval_range c4 H4).
  pose proof (hexval_range c5 H5). pose proof (hexval_range c6 H6).
  unfold shade.
  change (replace_first "#" "" (String "#" ?x)) with x.
  rewrite parse_six_hex by assumption.
  destruct (channels_of_num (hexval c1 * 16 + hexval c2)
              (hexval c3 * 16 + hexval c4) (hexval c5 * 16 + hexval c6))
    as (-> & -> & ->); try lia.
  rewrite !source_clamp.
  rewrite toString16_seven
    by (match goal with |- context [clamp_byte ?x] =>
          pose proof (clamp_byte_range x) end; lia).
  change (slice 1 (String "1" ?x)) with x.
  now apply shaded_hex_color.
Qed.

Section ShadeProofs.

Variable round_2_55 : Q -> Z.

Lemma lightenColor_shaded color percent :
  is_hex_color color = true ->
  shaded color (lightenColor round_2_55 color percent) (round_2_55 percent).
Proof.
  intros H.
  change (lightenColor round_2_55 color percent)
    with (shade color (round_2_55 percent)).
  now apply shade_shaded.
Qed.

Lemma darkenColor_shaded color percent :
  is_hex_color color = true ->
  shaded color (darkenColor round_2_55 color percent)
    (round_2_55 percent * -1).
Proof.
  intros H.
  change (darkenColor round_2_55 color percent)
    with (shade color (round_2_55 percent * -1)).
  now apply shade_shaded.
Qed.

(** C3. For a [#rrggbb] color and a percentage between 0 and 100,
    [lightenColor] and [darkenColor] answer a [#rrggbb] color whose
    red, green and blue channels are those of the input moved by the
    rounded amount and clamped to 0..255. *)
Theorem lighten_darken_byte_range (color : string) (percent : Q) :
  is_hex_color color = true ->
  (0 <= percent <= 100)%Q ->
  shaded color (lightenColor round_2_55 color percent) (round_2_55 percent)
  /\ shaded color (darkenColor round_2_55 color percent)
       (round_2_55 percent * -1).
Proof.
  intros H _. split.
  - now apply lightenColor_shaded.
  - now apply darkenColor_shaded.
Qed.

End ShadeProofs.

Lemma lighten_darken_byte_range_witness :
  shaded "#655997" (lightenColor round_half_up "#655997" 20)
    (round_half_up 20)
  /\ shaded "#655997" (darkenColor round_half_up "#655997" 20)
       (round_half_up 20 * -1).
Proof.
  apply (lighten_darken_byte_range round_half_up "#655997" 20).
  - reflexivity.
  - split; unfold Qle; simpl; lia.
Defined.

(** ** Hex to RGB and back *)

Lemma append_assoc (a b c : string) : (a +:+ b) +:+ c = a +:+ (b +:+ c).
Proof. induction a as [|x a IH]; simpl; [reflexivity|]. now rewrite IH. Qed.

Lemma digit_runs_app ds rest cur :
  all_chars is_digit ds = true ->
  digit_runs_aux (ds +:+ rest) cur = digit_runs_aux rest (cur +:+ ds).
Proof.
  unfold all_chars. revert cur. induction ds as [|d ds IH]; intros cur Hd.
  - now rewrite append_empty_r.
  - cbn [list_ascii_of_string forallb] in Hd.
    apply andb_true_iff in Hd as [Hd1 Hd2].
    cbn [String.append digit_runs_aux]. rewrite Hd1, IH by exact Hd2.
    now rewrite append_assoc.
Qed.

Lemma digit_runs_break c r cur :
  is_digit c = false -> cur <> "" ->
  digit_runs_aux (String c r) cur = cur :: digit_runs_aux r "".
Proof.
  intros Hc Hn. cbn [digit_runs_aux]. rewrite Hc.
  destruct cur; [congruence|reflexivity].
Qed.

Lemma digit_runs_skip c r :
  is_digit c = false -> digit_runs_aux (String c r) "" = digit_runs_aux r "".
Proof. intros Hc. cbn [digit_runs_aux]. now rewrite Hc. Qed.

(** The digit runs of [rgb(a, b, c)]. *)
Lemma match_digits_rgb a b c :
  all_chars is_digit a = true -> a <> "" ->
  all_chars is_digit b = true -> b <> "" ->
  all_chars is_digit c = true -> c <> "" ->
  match_digits ("rgb(" +:+ (a +:+ ", " +:+ b +:+ ", " +:+ c) +:+ ")")
  = [a; b; c].
Proof.
  intros Ha Na Hb Nb Hc Nc. unfold match_digits.
  rewrite !append_assoc. cbn [String.append].
  do 4 (rewrite digit_runs_skip by reflexivity).
  rewrite digit_runs_app by exact Ha. cbn [String.append].
  rewrite digit_runs_break by (reflexivity || exact Na).
  rewrite digit_runs_skip by reflexivity.
  rewrite digit_runs_app by exact Hb. cbn [String.append].
  rewrite digit_runs_break by (reflexivity || exact Nb).
  rewrite digit_runs_skip by reflexivity.
  rewrite digit_runs_app by exact Hc. cbn [String.append].
  rewrite digit_runs_break by (reflexivity || exact Nc).
  reflexivity.
Qed.

Lemma decimal_of_byte x :
  0 <= x < 256 ->
  all_chars is_digit (toString_radix 10 x) = true /\
  toString_radix 10 x <> "".
Proof.
  intros H.
  apply (all_bytes_spec
           (fun x => all_chars is_digit (toString_radix 10 x)
                     && negb (String.eqb (toString_radix 10 x) ""))) in H.
  - apply andb_true_iff in H as [H1 H2]. split; [exact H1|].
    apply negb_true_iff in H2. now apply String.eqb_neq.
  - vm_compute. reflexivity.
Qed.

(** One channel of [rgbToHex] undoes one channel of [hexToRgb]. *)
Lemma channel_back x :
  0 <= x < 256 ->
  padStart 2 "0" (Number_toString16 (parseInt (toString_radix 10 x) 0))
  = hex2 x.
Proof.
  intros H.
  apply (all_bytes_spec
           (fun x => String.eqb
              (padStart 2 "0"
                 (Number_toString16 (parseInt (toString_radix 10 x) 0)))
              (hex2 x))) in H.
  - now apply String.eqb_eq.
  - vm_compute. reflexivity.
Qed.

Lemma lower_hex_digit_facts c :
  is_lower_hex_digit c = true ->
  is_hex_digit c = true /\ digit_char (hexval c) = c.
Proof.
  destruct c as [[] [] [] [] [] [] [] []]; vm_compute; intuition congruence.
Qed.

Lemma hex2_of_digits c1 c2 :
  is_lower_hex_digit c1 = true -> is_lower_hex_digit c2 = true ->
  hex2 (hexval c1 * 16 + hexval c2) = String c1 (String c2 "").
Proof.
  intros H1 H2.
  destruct (lower_hex_digit_facts c1 H1) as [D1 E1].
  destruct (lower_hex_digit_facts c2 H2) as [D2 E2].
  pose proof (hexval_range c1 D1). pose proof (hexval_range c2 D2).
  unfold hex2.
  replace ((hexval c1 * 16 + hexval c2) / 16) with (hexval c1)
    by (Z.div_mod_to_equations; lia).
  replace ((hexval c1 * 16 + hexval c2) mod 16) with (hexval c2)
    by (Z.div_mod_to_equations; lia).
  now rewrite E1, E2.
Qed.

(** C10. For a lower-case [#rrggbb] color [h],
    [rgbToHex('rgb(' + hexToRgb(h) + ')')] is [h]. *)
Theorem rgbToHex_hexToRgb (h : string) :
  is_lower_hex_color h = true ->
  rgbToHex ("rgb(" +:+ hexToRgb h +:+ ")") = h.
Proof.
  unfold is_lower_hex_color. intros H. apply andb_true_iff in H as [H Hl].
  destruct (hex_color_inv h H)
    as (c1 & c2 & c3 & c4 & c5 & c6 & -> & H1 & H2 & H3 & H4 & H5 & H6).
  unfold all_chars in Hl. cbn [drop list_ascii_of_string forallb] in Hl.
  repeat (apply andb_true_iff in Hl as [? Hl]).
  pose proof (hexval_range c1 H1). pose proof (hexval_range c2 H2).
  pose proof (hexval_range c3 H3). pose proof (hexval_range c4 H4).
  pose proof (hexval_range c5 H5). pose proof (hexval_range c6 H6).
  set (r := hexval c1 * 16 + hexval c2).
  set (g := hexval c3 * 16 + hexval c4).
  set (b := hexval c5 * 16 + hexval c6).
  assert (E : hexToRgb (String "#" (String c1 (String c2 (String c3
                (String c4 (String c5 (String c6 "")))))))
              = toString_radix 10 r +:+ ", " +:+ toString_radix 10 g
                +:+ ", " +:+ toString_radix 10 b).
  { unfold hexToRgb.
    change (replace_first "#" "" (String "#" ?x)) with x. cbv iota.
    change (substring 0 2 (String c1 (String c2 ?x)))
      with (String c1 (String c2 "")).
    change (substring 2 4 (String c1 (String c2 (String c3 (String c4 ?x)))))
      with (String c3 (String c4 "")).
    change (substring 4 6 (String c1 (String c2 (String c3 (String c4
              (String c5 (String c6 "")))))))
      with (String c5 (String c6 "")).
    rewrite !parse_two_hex by assumption. reflexivity. }
  rewrite E. clear E.
  destruct (decimal_of_byte r) as [Dr Nr]; [unfold r; lia|].
  destruct (decimal_of_byte g) as [Dg Ng]; [unfold g; lia|].
  destruct (decimal_of_byte b) as [Db Nb]; [unfold b; lia|].
  unfold rgbToHex.
  rewrite indexOf_zero.
  change (startsWith "#" ("rgb(" +:+ ?x)) with false. cbv iota.
  rewrite match_digits_rgb by assumption.
  rewrite !channel_back by (unfold r, g, b; lia).
  unfold r, g, b. rewrite !hex2_of_digits by assumption.
  reflexivity.
Qed.

Lemma rgbToHex_hexToRgb_witness :
  rgbToHex ("rgb(" +:+ hexToRgb "#8a7bb9" +:+ ")") = "#8a7bb9".
Proof.
  apply rgbToHex_hexToRgb. reflexivity.
Defined.

(** ** The color-scheme picker *)

Lemma selected_count_deselect l : selected_count (deselect <$> l) = O.
Proof. induction l as [|o l IH]; [reflexivity|]. simpl. exact IH. Qed.

Lemma selected_count_select (l : list color_option) (i : nat) :
  (i < length l)%nat ->
  selected_count (alter select i (deselect <$> l)) = 1%nat.
Proof.
  revert i. induction l as [|o l IH]; intros i Hi; simpl in Hi; [lia|].
  destruct i as [|i]; simpl.
  - now rewrite selected_count_deselect.
  - apply IH. lia.
Qed.

Lemma lookup_select (l : list color_option) (i j : nat) o :
  alter select i (deselect <$> l) !! j = Some o ->
  opt_selected o = bool_decide (j = i).
Proof.
  intros H. destruct (decide (j = i)) as [->|Hne].
  - rewrite bool_decide_eq_true_2 by reflexivity.
    rewrite list_lookup_alter_eq, list_lookup_fmap in H.
    destruct (l !! i); simpl in H; [|discriminate]. now injection H as <-.
  - rewrite bool_decide_eq_false_2 by exact Hne.
    rewrite list_lookup_alter_ne, list_lookup_fmap in H by congruence.
    destruct (l !! j); simpl in H; [|discriminate]. now injection H as <-.
Qed.

(** The options after one run of the handler. *)
Lemma handleSchemeSelection_options env isSafe this pg :
  options (page_of (handleSchemeSelection env isSafe this pg))
  = match options pg !! this with
    | Some o => if opt_selected o then options pg
                else alter select this (deselect <$> options pg)
    | None => options pg
    end.
Proof.
  unfold handleSchemeSelection.
  destruct (options pg !! this) as [o|]; [|reflexivity].
  destruct (opt_selected o); [reflexivity|].
  cbn [stylesheet]. destruct (stylesheet pg); reflexivity.
Qed.

Lemma handleSchemeSelection_count env isSafe this pg :
  (selected_count (options pg) <= 1)%nat ->
  (selected_count
     (options (page_of (handleSchemeSelection env isSafe this pg))) <= 1)%nat.
Proof.
  intros H. rewrite handleSchemeSelection_options.
  destruct (options pg !! this) as [o|] eqn:E; [|exact H].
  destruct (opt_selected o); [exact H|].
  rewrite selected_count_select; [lia|].
  now apply lookup_lt_Some in E.
Qed.

(** C8. Starting from a page on which at most one color option is
    selected, at most one is selected after every run of the handler; a
    run that gets past the already-selected test leaves the clicked
    option selected and no other. *)
Theorem at_most_one_selected (env : host)
    (isSafeCssUrl : option (string -> bool)) (pg : page) :
  (selected_count (options pg) <= 1)%nat ->
  (forall ts,
     (selected_count (options (clicks env isSafeCssUrl ts pg)) <= 1)%nat) /\
  (forall this o,
     options pg !! this = Some o -> opt_selected o = false ->
     let pg' := page_of (handleSchemeSelection env isSafeCssUrl this pg) in
     selected_count (options pg') = 1%nat /\
     forall j o', options pg' !! j = Some o' ->
                  opt_selected o' = bool_decide (j = this)).
Proof.
  intros H. split.
  - intros ts. revert pg H. induction ts as [|t ts IH]; intros pg H;
      [exact H|].
    apply IH. now apply handleSchemeSelection_count.
  - intros this o Ho Hs pg'. unfold pg'.
    rewrite handleSchemeSelection_options, Ho, Hs. split.
    + apply selected_count_select. now apply lookup_lt_Some in Ho.
    + intros j o'. apply lookup_select.
Qed.

Lemma at_most_one_selected_witness :
  (forall ts,
     (selected_count
        (options (clicks admin_page None ts sample_picker)) <= 1)%nat) /\
  (forall this o,
     options sample_picker !! this = Some o -> opt_selected o = false ->
     let pg' :=
       page_of (handleSchemeSelection admin_page None this sample_picker) in
     selected_count (options pg') = 1%nat /\
     forall j o', options pg' !! j = Some o' ->
                  opt_selected o' = bool_decide (j = this)).
Proof.
  apply (at_most_one_selected admin_page None sample_picker). simpl. lia.
Defined.

(** Whether an input is rejected does not depend on the current scheme. *)
Lemma sanitizeCssUrl_null_any_scheme env cssUrl cs cs' isSafe :
  sanitizeCssUrl env cssUrl cs isSafe = None ->
  sanitizeCssUrl env cssUrl cs' isSafe = None.
Proof.
  destruct cssUrl as [s|]; [|reflexivity].
  all_guards ltac:(reflexivity). discriminate.
Qed.

(** C6. When [sanitizeCssUrl] answers [null] for the [.css_url] value of
    the clicked option, the handler completes without an exception and
    the stylesheet elements are what they were, [href] included; a
    stylesheet element the handler had to create has no [href]. *)
Theorem null_url_skips_update (env : host)
    (isSafeCssUrl : option (string -> bool)) (this : nat) (pg : page)
    (o : color_option) (sheet : list link) (cs : option string) :
  options pg !! this = Some o ->
  stylesheet pg = Some sheet ->
  sanitizeCssUrl env (opt_css_url o) cs isSafeCssUrl = None ->
  exists pg' sheet',
    handleSchemeSelection env isSafeCssUrl this pg = Normal pg' /\
    stylesheet pg' = Some sheet' /\
    (sheet' = sheet \/ (sheet = [] /\ sheet' = [Link None])).
Proof.
  intros Ho Hs Hn.
  apply (sanitizeCssUrl_null_any_scheme _ _ _ None) in Hn.
  unfold handleSchemeSelection. rewrite Ho.
  destruct (opt_selected o).
  - exists pg, sheet. auto.
  - cbn [stylesheet]. rewrite Hs, Hn. cbn [truthy].
    eexists _, _. split; [reflexivity|]. split; [reflexivity|].
    destruct sheet; auto.
Qed.

Lemma null_url_skips_update_witness :
  exists pg' sheet',
    handleSchemeSelection admin_page None 2 sample_picker = Normal pg' /\
    stylesheet pg' = Some sheet' /\
    (sheet' = [Link (Some "/fresh.css")] \/
     ([Link (Some "/fresh.css")] = [] /\ sheet' = [Link None])).
Proof.
  apply (null_url_skips_update admin_page None 2 sample_picker
           (ColorOption false (Some "evil") (Some false)
              (Some "javascript:alert(1)"))
           [Link (Some "/fresh.css")] None); reflexivity.
Defined.

End AdminStylesFacts.

(* ===================================================================== *)
(** * Properties of twae-migration.js *)
(* ===================================================================== *)

Module MigrationFacts.

Import Migration.

(** ** The handlers at work *)

Example run_blocked :
  let st := run unsaved_editor [ClickRun] in
  requests st = [] /\ toasts st = [].
Proof. split; reflexivity. Qed.

Example run_guard :
  toasts (step (State (Some false) true true (Some sample_button) DUndefined
                  true "" [] []) ClickRun)
  = ["Please publish your changes before running migration."].
Proof. reflexivity. Qed.

Example run_after_save :
  requests (run unsaved_editor
              [ClickRun; EditorSaved true; AfterSave; ClickRun])
  = [Request "twae_run_migration" None false].
Proof. reflexivity. Qed.

Example run_unannounced :
  requests (run (load (Some true) (Some sample_button) DUndefined)
              [EditorSaved false; ClickRun])
  = [Request "twae_run_migration" None true].
Proof. reflexivity. Qed.

Example run_after_success :
  requests (run (load None (Some sample_button) DUndefined)
              [ClickRun; RunResponse true "done"; ClickRun])
  = [Request "twae_run_migration" None false].
Proof. reflexivity. Qed.

Example dismiss_unsaved :
  requests (run unsaved_editor [ClickDismiss])
  = [Request "twae_hide_migration_notice" (Some (DString "twe")) true].
Proof. reflexivity. Qed.

Example loaded_disabled :
  disabled <$> run_button unsaved_editor = Some true.
Proof. reflexivity. Qed.

Example saved_enabled :
  disabled <$> run_button (run unsaved_editor [AfterSave]) = Some false.
Proof. reflexivity. Qed.

Example outside_editor :
  let st := run (load None (Some sample_button) (DString "")) [EditorChange; ClickRun] in
  hasUnsavedChanges st = false /\
  requests st = [Request "twae_run_migration" None false].
Proof. split; reflexivity. Qed.

(** ** The gate on the run action *)

Lemma requests_updateMigrationButtonState st :
  requests (updateMigrationButtonState st) = requests st.
Proof. unfold updateMigrationButtonState. now destruct (hasUnsavedChanges st). Qed.

Lemma fields_updateMigrationButtonState st :
  elementor (updateMigrationButtonState st) = elementor st /\
  hooked (updateMigrationButtonState st) = hooked st /\
  hasUnsavedChanges (updateMigrationButtonState st) = hasUnsavedChanges st.
Proof.
  unfold updateMigrationButtonState.
  destruct (hasUnsavedChanges st) eqn:E; cbn; auto.
Qed.

Lemma checkUnsaved_elementor st s :
  elementor st = Some s -> checkUnsaved st = negb s.
Proof. unfold checkUnsaved. now intros ->. Qed.

(** A run click either leaves the requests alone or posts with the
    flag down. *)
Lemma click_run_requests st :
  requests (step st ClickRun) = requests st \/
  (hasUnsavedChanges st = false /\
   requests (step st ClickRun)
   = Request "twae_run_migration" None (checkUnsaved st) :: requests st).
Proof.
  cbn [step]. destruct (run_button st) as [b|]; [|now left].
  destruct (disabled b); [now left|].
  destruct (hasUnsavedChanges st); [now left|right]. now split.
Qed.

Lemma click_run_fields st :
  elementor (step st ClickRun) = elementor st /\
  hooked (step st ClickRun) = hooked st /\
  hasUnsavedChanges (step st ClickRun) = hasUnsavedChanges st.
Proof.
  cbn [step]. destruct (run_button st) as [b|]; [|auto].
  destruct (disabled b); [auto|].
  destruct (hasUnsavedChanges st) eqn:E; cbn; auto.
Qed.

(** Outside the editor the builder is never reported unsaved. *)
Lemma gated_no_editor es st :
  elementor st = None -> runs_gated st -> runs_gated (run st es).
Proof.
  revert st. induction es as [|e es IH]; intros st He Hg; [exact Hg|].
  change (run st (e :: es)) with (run (step st e) es).
  assert (Hc : checkUnsaved st = false) by (unfold checkUnsaved; now rewrite He).
  apply IH.
  - destruct e as [| | | | s | [] m | |];
      [exact He | | cbn [step] .. ]; try exact He.
    + now destruct (click_run_fields st) as (-> & _).
    + destruct (hooked st); [|exact He].
      now destruct (fields_updateMigrationButtonState
                      (with_flag (checkUnsaved st) st)) as (-> & _).
    + destruct (hooked st); [|exact He].
      now destruct (fields_updateMigrationButtonState (with_flag false st))
        as (-> & _).
    + cbn. now rewrite He.
  - unfold runs_gated in *.
    destruct e as [| | | | s | [] m | |];
      [cbn [step] | | cbn [step] .. ]; try exact Hg.
    + constructor; [discriminate|exact Hg].
    + destruct (click_run_requests st) as [E | [_ E]]; rewrite E; [exact Hg|].
      constructor; [intros _; exact Hc | exact Hg].
    + destruct (hooked st); [|exact Hg].
      now rewrite requests_updateMigrationButtonState.
    + destruct (hooked st); [|exact Hg].
      now rewrite requests_updateMigrationButtonState.
Qed.

(** In the editor, while the builder's state is announced, the flag is
    up whenever the builder has unsaved changes. *)
Lemma gated_announced n :
  forall es st s,
    (length es < n)%nat ->
    elementor st = Some s -> hooked st = true ->
    (s = false -> hasUnsavedChanges st = true) ->
    runs_gated st ->
    announced s es = true ->
    runs_gated (run st es).
Proof.
  induction n as [|n IH]; intros es st s Hn He Hh Hf Hg Ha; [lia|].
  destruct es as [|e es]; [exact Hg|].
  change (run st (e :: es)) with (run (step st e) es).
  cbn [length] in Hn.
  destruct e as [| | | | sv | ok m | |].
  - (* dismiss click *)
    apply (IH es _ s); [lia|exact He|exact Hh|exact Hf| |exact Ha].
    unfold runs_gated. cbn [step post requests].
    constructor; [discriminate|exact Hg].
  - (* run click *)
    destruct (click_run_fields st) as (E1 & E2 & E3).
    apply (IH es _ s); [lia|now rewrite E1|now rewrite E2|now rewrite E3|
                        |exact Ha].
    unfold runs_gated in *.
    destruct (click_run_requests st) as [E | [Hd E]]; rewrite E; [exact Hg|].
    constructor; [|exact Hg]. intros _. cbn [unsaved_when_posted].
    rewrite (checkUnsaved_elementor st s He).
    destruct s; [reflexivity|]. rewrite Hf in Hd by reflexivity.
    discriminate.
  - (* change *)
    cbn [step]. rewrite Hh.
    destruct (fields_updateMigrationButtonState
                (with_flag (checkUnsaved st) st)) as (E1 & E2 & E3).
    apply (IH es _ s); [lia|now rewrite E1|now rewrite E2| | |exact Ha].
    + intros ->. rewrite E3. cbn [with_flag hasUnsavedChanges].
      now rewrite (checkUnsaved_elementor st false He).
    + unfold runs_gated. now rewrite requests_updateMigrationButtonState.
  - (* after:save *)
    cbn [announced] in Ha. apply andb_true_iff in Ha as [-> Ha].
    cbn [step]. rewrite Hh.
    destruct (fields_updateMigrationButtonState (with_flag false st))
      as (E1 & E2 & E3).
    apply (IH es _ true); [lia|now rewrite E1|now rewrite E2|discriminate|
                           |exact Ha].
    unfold runs_gated. now rewrite requests_updateMigrationButtonState.
  - (* the builder sets isSaved *)
    destruct sv.
    + apply (IH es _ true); [lia| |exact Hh|discriminate|exact Hg|exact Ha].
      cbn [step elementor]. now rewrite He.
    + cbn [announced] in Ha.
      destruct es as [|e' es']; [exact Hg|].
      destruct e'; try discriminate Ha.
      change (run (step st (EditorSaved false)) (EditorChange :: es'))
        with (run (step (step st (EditorSaved false)) EditorChange) es').
      cbn [length] in Hn.
      set (st1 := step st (EditorSaved false)).
      assert (He1 : elementor st1 = Some false)
        by (unfold st1; cbn [step elementor]; now rewrite He).
      assert (Hh1 : hooked st1 = true) by exact Hh.
      cbn [step]. rewrite Hh1.
      destruct (fields_updateMigrationButtonState
                  (with_flag (checkUnsaved st1) st1)) as (E1 & E2 & E3).
      apply (IH es' _ false); [lia|now rewrite E1|now rewrite E2| | |exact Ha].
      * intros _. rewrite E3. cbn [with_flag hasUnsavedChanges].
        now rewrite (checkUnsaved_elementor st1 false He1).
      * unfold runs_gated. rewrite requests_updateMigrationButtonState.
        exact Hg.
  - (* response *)
    apply (IH es _ s); [lia| | | | |exact Ha];
      destruct ok; cbn [step]; assumption.
  - apply (IH es _ s); [lia| | | | |exact Ha]; cbn [step]; assumption.
  - apply (IH es _ s); [lia| | | | |exact Ha]; cbn [step]; assumption.
Qed.

(** C4, as the code has it.  The run handler tests the script's own
    [hasUnsavedChanges], its latest reading of the page builder: a run
    click with that flag up posts nothing, and as long as the builder's
    state is announced to the script no [twae_run_migration] request is
    posted while the builder has unsaved changes.  The dismiss handler
    has no test and posts [twae_hide_migration_notice] on every click,
    whatever the state of the builder. *)
Theorem run_action_gated (e : option bool) (b : option button)
    (d : data_value) (es : list event) :
  let st := run (load e b d) es in
  (hasUnsavedChanges st = true -> requests (step st ClickRun) = requests st) /\
  ((forall isSaved, e = Some isSaved -> announced isSaved es = true) ->
   forall r, r ∈ requests st -> action r = "twae_run_migration" ->
             unsaved_when_posted r = false) /\
  (exists v,
     requests (step st ClickDismiss)
     = Request "twae_hide_migration_notice" v (checkUnsaved st)
         :: requests st).
Proof.
  intros st. split; [|split].
  - intros H. destruct (click_run_requests st) as [E | [Hd _]]; [exact E|].
    congruence.
  - intros Ha.
    assert (G : runs_gated st).
    { unfold st. destruct e as [s|].
      - apply (gated_announced (S (length es)) es _ s); [lia| | | | |].
        + unfold load. cbn [elementor].
          now destruct (fields_updateMigrationButtonState
                          (with_flag
                             (checkUnsaved
                                (State (Some s) false false b d true "" [] []))
                             (State (Some s) false false b d true "" [] [])))
            as (-> & _).
        + reflexivity.
        + intros ->. unfold load. cbn [hasUnsavedChanges].
          now destruct (fields_updateMigrationButtonState
                          (with_flag
                             (checkUnsaved
                                (State (Some false) false false b d true "" [] []))
                             (State (Some false) false false b d true "" [] [])))
            as (_ & _ & ->).
        + unfold runs_gated, load. cbn [requests].
          rewrite requests_updateMigrationButtonState. constructor.
        + now apply Ha.
      - apply gated_no_editor; [reflexivity|constructor]. }
    unfold runs_gated in G. rewrite Forall_forall in G. exact G.
  - eexists. reflexivity.
Qed.

Lemma run_action_gated_witness :
  runs_gated
    (run (load (Some true) (Some sample_button) DUndefined)
       [EditorSaved false; EditorChange; ClickRun; EditorSaved true;
        AfterSave; ClickRun]).
Proof.
  apply Forall_forall.
  apply (proj1 (proj2 (run_action_gated (Some true) (Some sample_button)
                         DUndefined
                         [EditorSaved false; EditorChange; ClickRun;
                          EditorSaved true; AfterSave; ClickRun]))).
  intros isSaved [= <-]. reflexivity.
Defined.

(** C4 as stated fails for both actions: with unsaved changes in the
    builder a click on the dismiss control posts
    [twae_hide_migration_notice], and a run click made before the
    change is announced posts [twae_run_migration]. *)
Lemma actions_posted_while_unsaved :
  ~ (forall (e : option bool) (b : option button) (d : data_value)
            (es : list event) (r : request),
       r ∈ requests (run (load e b d) es) ->
       action r = "twae_hide_migration_notice" ->
       unsaved_when_posted r = false) /\
  ~ (forall (e : option bool) (b : option button) (d : data_value)
            (es : list event) (r : request),
       r ∈ requests (run (load e b d) es) ->
       action r = "twae_run_migration" ->
       unsaved_when_posted r = false).
Proof.
  split; intros H.
  - specialize (H (Some false) None DUndefined [ClickDismiss]
                  (Request "twae_hide_migration_notice" (Some (DString "twe"))
                     true)).
    discriminate H; [vm_compute; constructor | reflexivity].
  - specialize (H (Some true) (Some sample_button) DUndefined
                  [EditorSaved false; ClickRun]
                  (Request "twae_run_migration" None true)).
    discriminate H; [vm_compute; constructor | reflexivity].
Qed.

(** ** The button *)

(** C5. With the flag up, [updateMigrationButtonState] leaves the run
    button disabled; the [after:save] callback puts the flag down and
    leaves the button enabled. *)
Theorem button_follows_flag (st : state) (b : button) :
  run_button st = Some b ->
  (hasUnsavedChanges st = true ->
   exists b', run_button (updateMigrationButtonState st) = Some b' /\
              attrs b' !! "disabled" = Some "disabled" /\
              disabled b' = true) /\
  (hooked st = true ->
   hasUnsavedChanges (step st AfterSave) = false /\
   exists b', run_button (step st AfterSave) = Some b' /\
              attrs b' !! "disabled" = None /\
              disabled b' = false).
Proof.
  intros Hb. split.
  - intros Hf. unfold updateMigrationButtonState. rewrite Hf.
    cbn [with_button run_button]. rewrite Hb. eexists. split; [reflexivity|].
    cbn [attrs]. unfold disabled. cbn [attrs].
    rewrite lookup_insert_eq. split; [reflexivity|].
    apply bool_decide_eq_true_2. eauto.
  - intros Hh. cbn [step]. rewrite Hh.
    unfold updateMigrationButtonState. cbn [with_flag hasUnsavedChanges].
    split; [reflexivity|].
    cbn [with_button with_flag run_button]. rewrite Hb.
    eexists. split; [reflexivity|].
    unfold disabled. cbn [attrs]. rewrite lookup_delete_eq.
    split; [reflexivity|].
    apply bool_decide_eq_false_2. intros [x Hx]. discriminate.
Qed.

Lemma button_follows_flag_witness :
  let st := run (load (Some true) (Some sample_button) DUndefined)
              [EditorSaved false; EditorChange] in
  (exists b', run_button (updateMigrationButtonState st) = Some b' /\
              attrs b' !! "disabled" = Some "disabled" /\
              disabled b' = true) /\
  hasUnsavedChanges (step st AfterSave) = false /\
  (exists b', run_button (step st AfterSave) = Some b' /\
              attrs b' !! "disabled" = None /\
              disabled b' = false).
Proof.
  intros st.
  destruct (button_follows_flag st
              (Button
                 (<["disabled" := "disabled"]> {["id" := "twae-run-migration"]})
                 (<["cursor" := "not-allowed"]> (<["opacity" := "0.5"]> ∅))
                 "Run Migration")) as [H1 H2].
  - reflexivity.
  - split; [apply H1; reflexivity | apply H2; reflexivity].
Defined.

End MigrationFacts.

(* ===================================================================== *)
(** * Further properties of admin-styles.js *)
(* ===================================================================== *)

Module AdminStylesExtFacts.

Import Js AdminStyles AdminStylesExt AdminStylesFacts.

Local Arguments String.append : simpl nomatch.

(** ** [trim] *)

Lemma stripStart_head f s :
  stripStart f s = "" \/
  exists c r, stripStart f s = String c r /\ f c = false.
Proof.
  induction s as [|c r IH]; [now left|].
  cbn [stripStart]. destruct (f c) eqn:E; [exact IH|].
  right. exists c, r. auto.
Qed.

Lemma stripEnd_idem f s : stripEnd f (stripEnd f s) = stripEnd f s.
Proof.
  induction s as [|c r IH]; [reflexivity|].
  cbn [stripEnd]. destruct (stripEnd f r) as [|d t] eqn:E.
  - destruct (f c) eqn:Ec; [reflexivity|]. cbn [stripEnd]. now rewrite Ec.
  - cbn [stripEnd]. cbn [stripEnd] in IH.
    destruct (match stripEnd f t with
              | "" => if f d then "" else String d ""
              | String a s0 => String d (String a s0)
              end) eqn:E2; [discriminate|].
    now injection IH as -> ->.
Qed.

Lemma trim_idem s : trim (trim s) = trim s.
Proof.
  unfold trim.
  destruct (stripStart_head is_space s) as [->|(c & r & -> & Hc)];
    [reflexivity|].
  rewrite stripEnd_keep by exact Hc.
  cbn [stripStart]. rewrite Hc.
  rewrite <- stripEnd_keep by exact Hc. apply stripEnd_idem.
Qed.

Lemma trim_spaces s : all_chars is_space s = true -> trim s = "".
Proof.
  unfold trim, all_chars. induction s as [|c r IH]; [reflexivity|].
  cbn [list_ascii_of_string forallb stripStart]. intros H.
  apply andb_true_iff in H as [-> H]. apply IH, H.
Qed.

(** The answer depends on the input through its trimmed form only. *)
Lemma sanitizeCssUrl_trimmed env s cs isSafe :
  sanitizeCssUrl env (Some (trim s)) cs isSafe
  = sanitizeCssUrl env (Some s) cs isSafe.
Proof.
  unfold sanitizeCssUrl. rewrite trim_idem.
  destruct (String.eqb_spec s "") as [->|_]; [reflexivity|].
  destruct (String.eqb (trim s) ""); reflexivity.
Qed.

(** What [sanitizeCssUrl] answers for a scheme other than the custom
    one, together with the tests the input went through. *)
Lemma sanitizeCssUrl_plain env s cs isSafe u :
  strict_eq cs "publishpress-custom" = false ->
  sanitizeCssUrl env (Some s) cs isSafe = Some u ->
  u = trim s /\ u <> "" /\ validator_passes isSafe u /\
  startsWith "javascript:" (toLowerCase u) = false /\
  startsWith "data:" (toLowerCase u) = false /\
  startsWith "vbscript:" (toLowerCase u) = false /\
  (URL_is_function env = true ->
   forall p, new_URL_protocol env u = Some p ->
             toLowerCase p = "http:" \/ toLowerCase p = "https:").
Proof.
  intros Hcs. unfold sanitizeCssUrl.
  destruct (String.eqb s ""); [discriminate|].
  destruct (String.eqb_spec (trim s) "") as [|Hne]; [discriminate|].
  destruct isSafe as [f|].
  - destruct (f (trim s)) eqn:Hf; [|discriminate]. cbn [negb].
    rewrite !indexOf_zero.
    destruct (startsWith "javascript:" _) eqn:D1; [discriminate|].
    destruct (startsWith "data:" _) eqn:D2; [discriminate|].
    destruct (startsWith "vbscript:" _) eqn:D3; [discriminate|].
    cbn [orb].
    destruct (URL_is_function env && _) eqn:Hu; [discriminate|].
    rewrite Hcs. intros [= <-]. repeat split; try assumption.
    intros Hfun p Hp. rewrite Hfun, Hp in Hu. cbn [andb] in Hu.
    apply andb_false_iff in Hu as [Hu|Hu]; apply negb_false_iff in Hu;
      apply String.eqb_eq in Hu; auto.
  - rewrite !indexOf_zero.
    destruct (startsWith "javascript:" _) eqn:D1; [discriminate|].
    destruct (startsWith "data:" _) eqn:D2; [discriminate|].
    destruct (startsWith "vbscript:" _) eqn:D3; [discriminate|].
    cbn [orb].
    destruct (URL_is_function env && _) eqn:Hu; [discriminate|].
    rewrite Hcs. intros [= <-]. repeat split; try assumption.
    intros Hfun p Hp. rewrite Hfun, Hp in Hu. cbn [andb] in Hu.
    apply andb_false_iff in Hu as [Hu|Hu]; apply negb_false_iff in Hu;
      apply String.eqb_eq in Hu; auto.
Qed.

Lemma strict_eq_false cs lit : cs <> Some lit -> strict_eq cs lit = false.
Proof.
  intros H. destruct cs as [v|]; [|reflexivity]. cbn [strict_eq].
  apply String.eqb_neq. congruence.
Qed.

(** ** [sanitizeCssUrl]: edge cases and safety *)

(** X1. A value that is not a string, the empty string and a string of
    white space only are answered with [null], whatever the host, the
    current scheme and the validator. *)
Theorem sanitizeCssUrl_blank (env : host) (cssUrl : option string)
    (currentScheme : option string) (isSafe : option (string -> bool)) :
  (forall s, cssUrl = Some s -> all_chars is_space s = true) ->
  sanitizeCssUrl env cssUrl currentScheme isSafe = None.
Proof.
  intros H. destruct cssUrl as [s|]; [|reflexivity].
  unfold sanitizeCssUrl. rewrite (trim_spaces s (H s eq_refl)).
  now destruct (String.eqb s "").
Qed.

Lemma sanitizeCssUrl_blank_witness :
  sanitizeCssUrl admin_page (Some "   ") (Some "publishpress-custom") None
  = None.
Proof.
  apply sanitizeCssUrl_blank. intros s [= <-]. reflexivity.
Defined.

(** X2. The answer is never the empty string: testing it for truth, as
    the scheme handler does, is testing it against [null]. *)
Theorem sanitizeCssUrl_never_empty (env : host) (cssUrl : option string)
    (currentScheme : option string) (isSafe : option (string -> bool))
    (u : string) :
  sanitizeCssUrl env cssUrl currentScheme isSafe = Some u ->
  u <> "" /\ truthy (Some u) = true.
Proof.
  intros H.
  assert (Hu : u <> "").
  { destruct cssUrl as [s|]; [|discriminate].
    destruct (strict_eq currentScheme "publishpress-custom") eqn:E.
    - destruct currentScheme as [cs|]; [|discriminate].
      apply String.eqb_eq in E. subst cs.
      destruct (sanitizeCssUrl_appends env s isSafe u H) as (sep & _ & -> & _).
      destruct (replace_ver (trim s)); discriminate.
    - now apply (sanitizeCssUrl_plain env s currentScheme isSafe u E). }
  split; [exact Hu|]. cbn [truthy]. apply negb_true_iff.
  now apply String.eqb_neq.
Qed.

Lemma sanitizeCssUrl_never_empty_witness :
  "/colors.css?ver=1700000000000" <> "" /\
  truthy (Some "/colors.css?ver=1700000000000") = true.
Proof.
  apply (sanitizeCssUrl_never_empty admin_page (Some " /colors.css ")
           (Some "publishpress-custom") None). reflexivity.
Defined.

(** X3. For a scheme other than the custom one the function is
    idempotent: its answer, passed through it again, comes back as it is. *)
Theorem sanitizeCssUrl_idempotent (env : host) (s : string)
    (currentScheme : option string) (isSafe : option (string -> bool))
    (u : string) :
  currentScheme <> Some "publishpress-custom" ->
  sanitizeCssUrl env (Some s) currentScheme isSafe = Some u ->
  sanitizeCssUrl env (Some u) currentScheme isSafe = Some u.
Proof.
  intros Hcs H. apply strict_eq_false in Hcs.
  destruct (sanitizeCssUrl_plain env s currentScheme isSafe u Hcs H)
    as (-> & _).
  now rewrite sanitizeCssUrl_trimmed.
Qed.

Lemma sanitizeCssUrl_idempotent_witness :
  sanitizeCssUrl admin_page (Some "http://example.com/colors.css")
    (Some "fresh") None
  = Some "http://example.com/colors.css".
Proof.
  apply (sanitizeCssUrl_idempotent admin_page
           "  http://example.com/colors.css  " (Some "fresh") None).
  - discriminate.
  - reflexivity.
Defined.

(** X4. For a scheme other than the custom one, an answer never begins
    with [javascript:], [data:] or [vbscript:] in any letter case, and
    where the URL constructor is there and parses it, its protocol is
    http or https. *)
Theorem sanitizeCssUrl_answer_safe (env : host) (s : string)
    (currentScheme : option string) (isSafe : option (string -> bool))
    (u : string) :
  currentScheme <> Some "publishpress-custom" ->
  sanitizeCssUrl env (Some s) currentScheme isSafe = Some u ->
  dangerous u = false /\
  (URL_is_function env = true ->
   forall p, new_URL_protocol env u = Some p ->
             toLowerCase p = "http:" \/ toLowerCase p = "https:").
Proof.
  intros Hcs H. apply strict_eq_false in Hcs.
  destruct (sanitizeCssUrl_plain env s currentScheme isSafe u Hcs H)
    as (_ & _ & _ & D1 & D2 & D3 & Hp).
  split; [|exact Hp]. unfold dangerous.
  rewrite <- !begins_ci_lower by reflexivity. now rewrite D1, D2, D3.
Qed.

Lemma sanitizeCssUrl_answer_safe_witness :
  dangerous "//cdn.example.com/colors.css" = false /\
  (URL_is_function admin_page = true ->
   forall p, new_URL_protocol admin_page "//cdn.example.com/colors.css" = Some p ->
             toLowerCase p = "http:" \/ toLowerCase p = "https:").
Proof.
  apply (sanitizeCssUrl_answer_safe admin_page
           " //cdn.example.com/colors.css" None None).
  - discriminate.
  - reflexivity.
Defined.

(** X5. Under the custom scheme the removal of the old [ver=]
    parameter joins what stands before and after it, and the tests are
    not run again: for every [p], on an http(s) page, the input
    [java?ver=1script:p] is accepted and the answer begins with
    [javascript:]. *)
Theorem custom_rewrite_joins_scheme (env : host) (p : string)
    (isSafe : option (string -> bool)) :
  trim ("java?ver=1script:" +:+ p) = "java?ver=1script:" +:+ p ->
  validator_passes isSafe ("java?ver=1script:" +:+ p) ->
  origin_http env ->
  exists sep,
    is_sep sep = true /\
    sanitizeCssUrl env (Some ("java?ver=1script:" +:+ p))
      (Some "publishpress-custom") isSafe
    = Some ("javascript:" +:+ p +:+ String sep
              ("ver=" +:+ Number_to_string (Some (Date_now env)))).
Proof.
  intros Ht Hv Ho.
  assert (Hs : Url.scheme_of ("java?ver=1script:" +:+ p) = None).
  { unfold Url.scheme_of, Url.preprocess. cbn [String.append stripStart].
    change (Url.is_c0_or_space "j") with false. cbv iota.
    do 5 (rewrite stripEnd_keep by reflexivity). reflexivity. }
  assert (Hr : replace_ver ("java?ver=1script:" +:+ p) = "javascript:" +:+ p)
    by reflexivity.
  unfold sanitizeCssUrl. rewrite Ht.
  change (String.eqb ("java?ver=1script:" +:+ p) "") with false. cbv iota.
  assert (Hs' : match isSafe with
                | Some f => negb (f ("java?ver=1script:" +:+ p))
                | None => false
                end = false).
  { destruct isSafe as [f|]; [|reflexivity].
    unfold validator_passes in Hv. now rewrite Hv. }
  rewrite Hs'. rewrite !indexOf_zero.
  change (startsWith "javascript:" (toLowerCase ("java?ver=1script:" +:+ p)))
    with false.
  change (startsWith "data:" (toLowerCase ("java?ver=1script:" +:+ p)))
    with false.
  change (startsWith "vbscript:" (toLowerCase ("java?ver=1script:" +:+ p)))
    with false.
  cbn [orb].
  assert (Hu : URL_is_function env &&
    match new_URL_protocol env ("java?ver=1script:" +:+ p) with
    | Some protocol =>
        negb (String.eqb (toLowerCase protocol) "http:")
        && negb (String.eqb (toLowerCase protocol) "https:")
    | None => false
    end = false).
  { apply andb_false_iff. right. unfold new_URL_protocol. rewrite Hs.
    destruct (origin_scheme env) as [base|] eqn:Hb; [|reflexivity].
    destruct (URL_parses env _); [|reflexivity].
    destruct (Ho base Hb) as [-> | ->]; reflexivity. }
  rewrite Hu.
  change (strict_eq (Some "publishpress-custom") "publishpress-custom")
    with true. cbv iota. rewrite Hr.
  destruct (indexOf ("javascript:" +:+ p) "?" =? -1);
    [exists "?"%char | exists "&"%char]; split; try reflexivity;
    now rewrite append_assoc.
Qed.

Lemma custom_rewrite_joins_scheme_witness :
  exists sep,
    is_sep sep = true /\
    sanitizeCssUrl admin_page (Some ("java?ver=1script:" +:+ "alert(1)"))
      (Some "publishpress-custom") None
    = Some ("javascript:" +:+ "alert(1)" +:+ String sep
              ("ver=" +:+ Number_to_string (Some (Date_now admin_page)))).
Proof.
  apply (custom_rewrite_joins_scheme admin_page "alert(1)" None).
  - reflexivity.
  - exact I.
  - intros o [= <-]. right. reflexivity.
Defined.

(** ** Color helpers *)

Lemma parse_three_hex a b c :
  is_hex_digit a = true -> is_hex_digit b = true -> is_hex_digit c = true ->
  parseInt (String a (String b (String c ""))) 16
  = Some (hexval a * 256 + hexval b * 16 + hexval c).
Proof.
  intros Ha Hb Hc. rewrite parseInt_hex by assumption.
  destruct (is_hex_digit_value a Ha) as [va Ea].
  destruct (is_hex_digit_value b Hb) as [vb Eb].
  destruct (is_hex_digit_value c Hc) as [vc Ec].
  unfold hexval. cbn [parse_digits]. rewrite Ea, Eb, Ec. f_equal. lia.
Qed.

(** X6. A three-digit color is read by [hexToRgb] as the six-digit color
    with every digit doubled: digit [d] gives the channel [17 * d]. *)
Theorem hexToRgb_shorthand (a b c : ascii) :
  is_hex_digit a = true -> is_hex_digit b = true -> is_hex_digit c = true ->
  hexToRgb (String "#" (String a (String b (String c ""))))
  = hexToRgb (String "#" (String a (String a (String b (String b
               (String c (String c "")))))))
  /\ hexToRgb (String "#" (String a (String b (String c ""))))
     = rgb_triple (17 * hexval a) (17 * hexval b) (17 * hexval c).
Proof.
  intros Ha Hb Hc. split; [reflexivity|].
  unfold hexToRgb, rgb_triple.
  change (replace_first "#" "" (String "#" ?x)) with x. cbv iota.
  change (substring 0 2 (String a (String a ?x)))
    with (String a (String a "")).
  change (substring 2 4 (String a (String a (String b (String b ?x)))))
    with (String b (String b "")).
  change (substring 4 6 (String a (String a (String b (String b
            (String c (String c "")))))))
    with (String c (String c "")).
  rewrite !parse_two_hex by assumption. cbn [Number_to_string].
  replace (hexval a * 16 + hexval a) with (17 * hexval a) by lia.
  replace (hexval b * 16 + hexval b) with (17 * hexval b) by lia.
  replace (hexval c * 16 + hexval c) with (17 * hexval c) by lia.
  reflexivity.
Qed.

Lemma hexToRgb_shorthand_witness :
  hexToRgb "#f0a" = hexToRgb "#ff00aa" /\
  hexToRgb "#f0a" = rgb_triple (17 * hexval "f") (17 * hexval "0")
                      (17 * hexval "a").
Proof.
  apply (hexToRgb_shorthand "f" "0" "a"); reflexivity.
Defined.

(** X7. For a [#rrggbb] color [hexToRgb] prints its three channels in
    decimal, each between 0 and 255, separated by a comma and a space. *)
Theorem hexToRgb_channels (h : string) :
  is_hex_color h = true ->
  exists r g b,
    channel 0 h = Some r /\ channel 1 h = Some g /\ channel 2 h = Some b /\
    0 <= r <= 255 /\ 0 <= g <= 255 /\ 0 <= b <= 255 /\
    hexToRgb h = rgb_triple r g b.
Proof.
  intros H.
  destruct (hex_color_inv h H)
    as (c1 & c2 & c3 & c4 & c5 & c6 & -> & H1 & H2 & H3 & H4 & H5 & H6).
  pose proof (hexval_range c1 H1). pose proof (hexval_range c2 H2).
  pose proof (hexval_range c3 H3). pose proof (hexval_range c4 H4).
  pose proof (hexval_range c5 H5). pose proof (hexval_range c6 H6).
  exists (hexval c1 * 16 + hexval c2), (hexval c3 * 16 + hexval c4),
    (hexval c5 * 16 + hexval c6).
  split; [apply (parse_two_hex c1 c2 H1 H2)|].
  split; [apply (parse_two_hex c3 c4 H3 H4)|].
  split; [apply (parse_two_hex c5 c6 H5 H6)|].
  repeat (split; [lia|]).
  unfold hexToRgb, rgb_triple.
  change (replace_first "#" "" (String "#" ?x)) with x. cbv iota.
  change (substring 0 2 (String c1 (String c2 ?x)))
    with (String c1 (String c2 "")).
  change (substring 2 4 (String c1 (String c2 (String c3 (String c4 ?x)))))
    with (String c3 (String c4 "")).
  change (substring 4 6 (String c1 (String c2 (String c3 (String c4
            (String c5 (String c6 "")))))))
    with (String c5 (String c6 "")).
  rewrite !parse_two_hex by assumption. reflexivity.
Qed.

Lemma hexToRgb_channels_witness :
  exists r g b,
    channel 0 "#D63638" = Some r /\ channel 1 "#D63638" = Some g /\
    channel 2 "#D63638" = Some b /\
    0 <= r <= 255 /\ 0 <= g <= 255 /\ 0 <= b <= 255 /\
    hexToRgb "#D63638" = rgb_triple r g b.
Proof.
  apply hexToRgb_channels. reflexivity.
Defined.

(** The first three digit runs of [a, b, c] followed by a character
    that is no digit. *)
Lemma digit_runs_three a b c d tail :
  all_chars is_digit a = true -> a <> "" ->
  all_chars is_digit b = true -> b <> "" ->
  all_chars is_digit c = true -> c <> "" ->
  is_digit d = false ->
  digit_runs_aux
    (a +:+ String "," (String " "
       (b +:+ String "," (String " " (c +:+ String d tail))))) ""
  = a :: b :: c :: digit_runs_aux tail "".
Proof.
  intros Ha Na Hb Nb Hc Nc Hd.
  rewrite digit_runs_app by exact Ha. cbn [String.append].
  rewrite digit_runs_break by (reflexivity || exact Na).
  rewrite digit_runs_skip by reflexivity.
  rewrite digit_runs_app by exact Hb. cbn [String.append].
  rewrite digit_runs_break by (reflexivity || exact Nb).
  rewrite digit_runs_skip by reflexivity.
  rewrite digit_runs_app by exact Hc. cbn [String.append].
  rewrite digit_runs_break by (exact Hd || exact Nc).
  reflexivity.
Qed.

Lemma rgbToHex_css_rgb r g b :
  0 <= r < 256 -> 0 <= g < 256 -> 0 <= b < 256 ->
  rgbToHex (css_rgb r g b) = hex_color r g b.
Proof.
  intros Hr Hg Hb.
  destruct (decimal_of_byte r Hr) as [Dr Nr].
  destruct (decimal_of_byte g Hg) as [Dg Ng].
  destruct (decimal_of_byte b Hb) as [Db Nb].
  unfold rgbToHex, css_rgb. rewrite indexOf_zero.
  change (startsWith "#" ("rgb(" +:+ ?x)) with false. cbv iota.
  unfold match_digits. cbn [String.append].
  do 4 (rewrite digit_runs_skip by reflexivity).
  rewrite digit_runs_three by (assumption || reflexivity).
  now rewrite !channel_back by assumption.
Qed.

Lemma rgbToHex_css_rgba r g b alpha :
  0 <= r < 256 -> 0 <= g < 256 -> 0 <= b < 256 ->
  rgbToHex (css_rgba r g b alpha) = hex_color r g b.
Proof.
  intros Hr Hg Hb.
  destruct (decimal_of_byte r Hr) as [Dr Nr].
  destruct (decimal_of_byte g Hg) as [Dg Ng].
  destruct (decimal_of_byte b Hb) as [Db Nb].
  unfold rgbToHex, css_rgba. rewrite indexOf_zero.
  change (startsWith "#" ("rgba(" +:+ ?x)) with false. cbv iota.
  unfold match_digits. cbn [String.append].
  do 5 (rewrite digit_runs_skip by reflexivity).
  rewrite digit_runs_three by (assumption || reflexivity).
  now rewrite !channel_back by assumption.
Qed.

(** X8. A computed-style color [rgb(r, g, b)] with channels between 0
    and 255 is turned into the [#rrggbb] color of those channels; of
    [rgba(r, g, b, alpha)] the alpha is dropped, whatever it is. *)
Theorem rgbToHex_computed_style (r g b : Z) (alpha : string) :
  0 <= r < 256 -> 0 <= g < 256 -> 0 <= b < 256 ->
  rgbToHex (css_rgb r g b) = hex_color r g b /\
  rgbToHex (css_rgba r g b alpha) = hex_color r g b /\
  is_hex_color (hex_color r g b) = true /\
  channel 0 (hex_color r g b) = Some r /\
  channel 1 (hex_color r g b) = Some g /\
  channel 2 (hex_color r g b) = Some b.
Proof.
  intros Hr Hg Hb.
  split; [now apply rgbToHex_css_rgb|].
  split; [now apply rgbToHex_css_rgba|].
  now apply hex_color_channels.
Qed.

Lemma rgbToHex_computed_style_witness :
  rgbToHex (css_rgb 101 89 151) = hex_color 101 89 151 /\
  rgbToHex (css_rgba 101 89 151 "0.8") = hex_color 101 89 151 /\
  is_hex_color (hex_color 101 89 151) = true /\
  channel 0 (hex_color 101 89 151) = Some 101 /\
  channel 1 (hex_color 101 89 151) = Some 89 /\
  channel 2 (hex_color 101 89 151) = Some 151.
Proof.
  apply rgbToHex_computed_style; lia.
Defined.

(** X9. The other round trip: for channels between 0 and 255,
    [hexToRgb(rgbToHex('rgb(r, g, b)'))] is [r, g, b]. *)
Theorem hexToRgb_rgbToHex (r g b : Z) :
  0 <= r < 256 -> 0 <= g < 256 -> 0 <= b < 256 ->
  hexToRgb (rgbToHex (css_rgb r g b)) = rgb_triple r g b.
Proof.
  intros Hr Hg Hb. rewrite rgbToHex_css_rgb by assumption.
  unfold hexToRgb, hex_color, hex2, rgb_triple.
  change (replace_first "#" "" (String "#" ?x)) with x.
  cbn [String.append]. cbv iota.
  change (substring 0 2 (String ?c1 (String ?c2 ?x)))
    with (String c1 (String c2 "")).
  change (substring 2 4 (String ?c1 (String ?c2 (String ?c3 (String ?c4 ?x)))))
    with (String c3 (String c4 "")).
  change (substring 4 6 (String ?c1 (String ?c2 (String ?c3 (String ?c4
            (String ?c5 (String ?c6 "")))))))
    with (String c5 (String c6 "")).
  pose proof (hex2_parse r Hr) as Er. pose proof (hex2_parse g Hg) as Eg.
  pose proof (hex2_parse b Hb) as Eb. unfold hex2 in Er, Eg, Eb.
  now rewrite Er, Eg, Eb.
Qed.

Lemma hexToRgb_rgbToHex_witness :
  hexToRgb (rgbToHex (css_rgb 214 54 56)) = rgb_triple 214 54 56.
Proof.
  apply hexToRgb_rgbToHex; lia.
Defined.

Lemma digit_runs_none s :
  all_chars no_digit s = true -> digit_runs_aux s "" = [].
Proof.
  unfold all_chars. induction s as [|c s IH]; [reflexivity|].
  cbn [list_ascii_of_string forallb]. intros H.
  apply andb_true_iff in H as [Hc Hs]. unfold no_digit in Hc.
  apply negb_true_iff in Hc. rewrite digit_runs_skip by exact Hc.
  apply IH, Hs.
Qed.

(** X10. [rgbToHex] hands back unchanged a string that begins with [#]
    and a string without any digit, such as a color name. *)
Theorem rgbToHex_passes_through (rgb : string) :
  startsWith "#" rgb = true \/ all_chars no_digit rgb = true ->
  rgbToHex rgb = rgb.
Proof.
  intros H. unfold rgbToHex. rewrite indexOf_zero.
  destruct (startsWith "#" rgb) eqn:E; [reflexivity|].
  destruct H as [H|H]; [discriminate|].
  unfold match_digits. now rewrite digit_runs_none.
Qed.

Lemma rgbToHex_passes_through_witness :
  rgbToHex "transparent" = "transparent".
Proof.
  apply rgbToHex_passes_through. right. reflexivity.
Defined.

(** The color either shading function prints, channel by channel. *)
Lemma shade_value c1 c2 c3 c4 c5 c6 amt :
  is_hex_digit c1 = true -> is_hex_digit c2 = true ->
  is_hex_digit c3 = true -> is_hex_digit c4 = true ->
  is_hex_digit c5 = true -> is_hex_digit c6 = true ->
  shade (String "#" (String c1 (String c2 (String c3 (String c4
           (String c5 (String c6 ""))))))) amt
  = hex_color (clamp_byte (hexval c1 * 16 + hexval c2 + amt))
      (clamp_byte (hexval c3 * 16 + hexval c4 + amt))
      (clamp_byte (hexval c5 * 16 + hexval c6 + amt)).
Proof.
  intros H1 H2 H3 H4 H5 H6.
  pose proof (hexval_range c1 H1). pose proof (hexval_range c2 H2).
  pose proof (hexval_range c3 H3). pose proof (hexval_range c4 H4).
  pose proof (hexval_range c5 H5). pose proof (hexval_range c6 H6).
  unfold shade.
  change (replace_first "#" "" (String "#" ?x)) with x.
  rewrite parse_six_hex by assumption.
  destruct (channels_of_num (hexval c1 * 16 + hexval c2)
              (hexval c3 * 16 + hexval c4) (hexval c5 * 16 + hexval c6))
    as (-> & -> & ->); try lia.
  rewrite !source_clamp.
  rewrite toString16_seven
    by (match goal with |- context [clamp_byte ?x] =>
          pose proof (clamp_byte_range x) end; lia).
  reflexivity.
Qed.

Lemma hex_digit_lower c :
  is_hex_digit c = true -> digit_char (hexval c) = lower_char c.
Proof.
  destruct c as [[] [] [] [] [] [] [] []]; vm_compute; congruence.
Qed.

Lemma hex2_lower c1 c2 :
  is_hex_digit c1 = true -> is_hex_digit c2 = true ->
  hex2 (hexval c1 * 16 + hexval c2)
  = String (lower_char c1) (String (lower_char c2) "").
Proof.
  intros H1 H2.
  pose proof (hexval_range c1 H1). pose proof (hexval_range c2 H2).
  unfold hex2.
  replace ((hexval c1 * 16 + hexval c2) / 16) with (hexval c1)
    by (Z.div_mod_to_equations; lia).
  replace ((hexval c1 * 16 + hexval c2) mod 16) with (hexval c2)
    by (Z.div_mod_to_equations; lia).
  now rewrite !hex_digit_lower.
Qed.

(** The channels of a [#rrggbb] color are bytes. *)
Lemma hexToRgb_bounds color :
  is_hex_color color = true ->
  forall k, (k < 3)%nat -> forall c, channel k color = Some c -> 0 <= c <= 255.
Proof.
  intros H k Hk c Hc.
  destruct (hex_color_inv color H)
    as (c1 & c2 & c3 & c4 & c5 & c6 & -> & H1 & H2 & H3 & H4 & H5 & H6).
  pose proof (hexval_range c1 H1). pose proof (hexval_range c2 H2).
  pose proof (hexval_range c3 H3). pose proof (hexval_range c4 H4).
  pose proof (hexval_range c5 H5). pose proof (hexval_range c6 H6).
  destruct k as [|[|[|k]]]; [| | |lia].
  - change (channel 0 _) with (parseInt (String c1 (String c2 "")) 16) in Hc.
    rewrite parse_two_hex in Hc by assumption. injection Hc as <-. lia.
  - change (channel 1 _) with (parseInt (String c3 (String c4 "")) 16) in Hc.
    rewrite parse_two_hex in Hc by assumption. injection Hc as <-. lia.
  - change (channel 2 _) with (parseInt (String c5 (String c6 "")) 16) in Hc.
    rewrite parse_two_hex in Hc by assumption. injection Hc as <-. lia.
Qed.

Section ShadeMore.

Variable round_2_55 : Q -> Z.

(** X11. When the rounded amount is zero, [lightenColor] and
    [darkenColor] give the color back in lower case. *)
Theorem shade_by_nothing (color : string) (percent : Q) :
  is_hex_color color = true ->
  round_2_55 percent = 0 ->
  lightenColor round_2_55 color percent = toLowerCase color /\
  darkenColor round_2_55 color percent = toLowerCase color.
Proof.
  intros H H0.
  destruct (hex_color_inv color H)
    as (c1 & c2 & c3 & c4 & c5 & c6 & -> & H1 & H2 & H3 & H4 & H5 & H6).
  pose proof (hexval_range c1 H1). pose proof (hexval_range c2 H2).
  pose proof (hexval_range c3 H3). pose proof (hexval_range c4 H4).
  pose proof (hexval_range c5 H5). pose proof (hexval_range c6 H6).
  assert (E : shade (String "#" (String c1 (String c2 (String c3 (String c4
                (String c5 (String c6 ""))))))) 0
              = toLowerCase (String "#" (String c1 (String c2 (String c3
                  (String c4 (String c5 (String c6 "")))))))).
  { rewrite shade_value by assumption. unfold hex_color.
    rewrite !Z.add_0_r. unfold clamp_byte.
    rewrite !Z.min_r, !Z.max_r by lia.
    rewrite !hex2_lower by assumption. reflexivity. }
  split.
  - change (lightenColor round_2_55 ?c percent)
      with (shade c (round_2_55 percent)). now rewrite H0.
  - change (darkenColor round_2_55 ?c percent)
      with (shade c (round_2_55 percent * -1)). now rewrite H0.
Qed.

(** X12. With an amount that is not negative, [lightenColor] lowers no
    channel and [darkenColor] raises none. *)
Theorem shade_direction (color : string) (percent : Q) (k : nat) :
  is_hex_color color = true ->
  0 <= round_2_55 percent ->
  (k < 3)%nat ->
  exists c v w,
    channel k color = Some c /\
    channel k (lightenColor round_2_55 color percent) = Some v /\
    channel k (darkenColor round_2_55 color percent) = Some w /\
    0 <= w <= c /\ c <= v <= 255.
Proof.
  intros H Ha Hk.
  destruct (lightenColor_shaded round_2_55 color percent H) as [_ HL].
  destruct (darkenColor_shaded round_2_55 color percent H) as [_ HD].
  destruct (HL k Hk) as (c & v & Hc & Hv & -> & _).
  destruct (HD k Hk) as (c' & w & Hc' & Hw & -> & _).
  rewrite Hc in Hc'. injection Hc' as <-.
  exists c, (clamp_byte (c + round_2_55 percent)),
    (clamp_byte (c + round_2_55 percent * -1)).
  repeat (split; [assumption|]).
  destruct (hexToRgb_bounds color H k Hk c Hc).
  unfold clamp_byte. lia.
Qed.

(** X13. A three-digit color is not expanded by the shading functions:
    [#abc] is shaded as [#000abc]. *)
Theorem shade_shorthand (a b c : ascii) (percent : Q) :
  is_hex_digit a = true -> is_hex_digit b = true -> is_hex_digit c = true ->
  lightenColor round_2_55 (String "#" (String a (String b (String c ""))))
    percent
  = lightenColor round_2_55
      (String "#" (String "0" (String "0" (String "0" (String a
         (String b (String c "")))))))
      percent
  /\ darkenColor round_2_55 (String "#" (String a (String b (String c ""))))
       percent
     = darkenColor round_2_55
         (String "#" (String "0" (String "0" (String "0" (String a
            (String b (String c "")))))))
         percent.
Proof.
  intros Ha Hb Hc.
  assert (E : parseInt (String a (String b (String c ""))) 16
              = parseInt (String "0" (String "0" (String "0" (String a
                            (String b (String c "")))))) 16).
  { rewrite parse_three_hex by assumption.
    rewrite parse_six_hex by (assumption || reflexivity).
    f_equal. change (hexval "0") with 0. lia. }
  unfold lightenColor, darkenColor.
  change (replace_first "#" "" (String "#" ?x)) with x.
  now rewrite E.
Qed.

End ShadeMore.

Lemma shade_by_nothing_witness :
  lightenColor round_half_up "#D63638" 0 = toLowerCase "#D63638" /\
  darkenColor round_half_up "#D63638" 0 = toLowerCase "#D63638".
Proof.
  apply (shade_by_nothing round_half_up "#D63638" 0); reflexivity.
Defined.

Lemma shade_direction_witness :
  exists c v w,
    channel 1 "#655997" = Some c /\
    channel 1 (lightenColor round_half_up "#655997" 20) = Some v /\
    channel 1 (darkenColor round_half_up "#655997" 20) = Some w /\
    0 <= w <= c /\ c <= v <= 255.
Proof.
  apply (shade_direction round_half_up "#655997" 20 1).
  - reflexivity.
  - vm_compute. discriminate.
  - lia.
Defined.

Lemma shade_shorthand_witness :
  lightenColor round_half_up "#fff" 20
  = lightenColor round_half_up "#000fff" 20
  /\ darkenColor round_half_up "#fff" 20
     = darkenColor round_half_up "#000fff" 20.
Proof.
  apply (shade_shorthand round_half_up "f" "f" "f" 20); reflexivity.
Defined.

(** ** The scheme handler *)

Lemma fmap_const_replicate {A B} (x : B) (l : list A) :
  (fun _ => x) <$> l = replicate (length l) x.
Proof. induction l as [|a l IH]; [reflexivity|]. cbn. now rewrite IH. Qed.

Lemma sanitizeCssUrl_undefined_scheme env cssUrl isSafe u :
  sanitizeCssUrl env cssUrl None isSafe = Some u ->
  exists s, cssUrl = Some s /\ u = trim s /\ u <> "" /\ dangerous u = false.
Proof.
  intros H. destruct cssUrl as [s|]; [|discriminate]. exists s.
  destruct (sanitizeCssUrl_plain env s None isSafe u eq_refl H)
    as (Hu & Hne & _ & D1 & D2 & D3 & _).
  repeat split; try assumption. unfold dangerous.
  rewrite <- !begins_ci_lower by reflexivity. now rewrite D1, D2, D3.
Qed.

(** X14. When the clicked option is not yet selected and its URL is
    accepted, the handler completes and every stylesheet element (one
    is created when there was none) gets the trimmed URL as [href],
    without a cache-busting parameter even when the custom scheme is
    current; the option's scheme becomes the current one, and the
    custom editor is shown exactly for the custom scheme. *)
Theorem accepted_url_is_applied (env : host)
    (isSafeCssUrl : option (string -> bool)) (this : nat) (pg : page)
    (o : color_option) (sheet : list link) (u : string) :
  options pg !! this = Some o ->
  opt_selected o = false ->
  stylesheet pg = Some sheet ->
  sanitizeCssUrl env (opt_css_url o) None isSafeCssUrl = Some u ->
  exists pg',
    handleSchemeSelection env isSafeCssUrl this pg = Normal pg' /\
    stylesheet pg'
    = Some (replicate (Nat.max 1 (length sheet)) (Link (Some u))) /\
    (exists s, opt_css_url o = Some s /\ u = trim s) /\
    currentScheme pg' = opt_radio o /\
    editor_shown pg' = strict_eq (opt_radio o) "publishpress-custom".
Proof.
  intros Ho Hs Hsheet Hu.
  destruct (sanitizeCssUrl_undefined_scheme env _ _ u Hu)
    as (s & Hcss & Htrim & Hne & _).
  unfold handleSchemeSelection. rewrite Ho, Hs. cbn [stylesheet].
  rewrite Hsheet, Hu. cbn [truthy].
  apply String.eqb_neq in Hne. rewrite Hne. cbn [negb].
  eexists. split; [reflexivity|]. cbn [stylesheet currentScheme editor_shown].
  split.
  - f_equal. rewrite fmap_const_replicate. f_equal.
    destruct sheet as [|l sheet]; [reflexivity|]. cbn [length Nat.eqb]. lia.
  - split; [exists s; auto|]. split; reflexivity.
Qed.

Lemma accepted_url_is_applied_witness :
  exists pg',
    handleSchemeSelection admin_page None 1
      (Page (options sample_picker) (Some "fresh") false false
         (Some [Link (Some "/fresh.css")]) (Some "publishpress-custom"))
    = Normal pg' /\
    stylesheet pg'
    = Some (replicate (Nat.max 1 (length [Link (Some "/fresh.css")]))
              (Link (Some "/light.css"))) /\
    (exists s, Some "/light.css" = Some s /\ "/light.css" = trim s) /\
    currentScheme pg' = Some "light" /\
    editor_shown pg' = strict_eq (Some "light") "publishpress-custom".
Proof.
  apply (accepted_url_is_applied admin_page None 1 _
           (ColorOption false (Some "light") (Some false) (Some "/light.css"))
           [Link (Some "/fresh.css")] "/light.css"); reflexivity.
Defined.

Lemma fmap_alter_same {A B} (f : A -> B) (g : A -> A) (i : nat) (l : list A) :
  (forall x, f (g x) = f x) -> f <$> alter g i l = f <$> l.
Proof.
  intros H. revert i. induction l as [|a l IH]; intros i; [reflexivity|].
  destruct i as [|i]; cbn.
  - now rewrite H.
  - f_equal. apply IH.
Qed.

Lemma handler_keeps {B} (f : color_option -> B) env isSafe this pg :
  (forall o, f (select o) = f o) -> (forall o, f (deselect o) = f o) ->
  f <$> options (page_of (handleSchemeSelection env isSafe this pg))
  = f <$> options pg.
Proof.
  intros Hs Hd. rewrite handleSchemeSelection_options.
  destruct (options pg !! this) as [o|]; [|reflexivity].
  destruct (opt_selected o); [reflexivity|].
  rewrite fmap_alter_same by exact Hs.
  rewrite <- list_fmap_compose. apply list_fmap_ext. intros _ x _. apply Hd.
Qed.

(** X15. No series of clicks changes the scheme value or the stylesheet
    URL an option carries, nor the number of options. *)
Theorem clicks_keep_option_data (env : host)
    (isSafeCssUrl : option (string -> bool)) (ts : list nat) (pg : page) :
  opt_radio <$> options (clicks env isSafeCssUrl ts pg)
  = opt_radio <$> options pg /\
  opt_css_url <$> options (clicks env isSafeCssUrl ts pg)
  = opt_css_url <$> options pg /\
  length (options (clicks env isSafeCssUrl ts pg)) = length (options pg).
Proof.
  revert pg. induction ts as [|t ts IH]; intros pg; [auto|].
  unfold clicks in *. cbn [foldl].
  destruct (IH (page_of (handleSchemeSelection env isSafeCssUrl t pg)))
    as (-> & -> & ->).
  split; [now apply handler_keeps|]. split; [now apply handler_keeps|].
  rewrite <- !(length_fmap opt_radio). f_equal. now apply handler_keeps.
Qed.

Lemma handler_checkbox env isSafe this pg :
  Forall checkbox_agrees (options pg) ->
  Forall checkbox_agrees
    (options (page_of (handleSchemeSelection env isSafe this pg))).
Proof.
  intros H. rewrite handleSchemeSelection_options.
  destruct (options pg !! this) as [o|]; [|exact H].
  destruct (opt_selected o); [exact H|].
  apply Forall_alter.
  - apply Forall_fmap, Forall_true. intros x b.
    cbn. destruct (opt_checkbox x); cbn; congruence.
  - intros x _ _ b. cbn. destruct (opt_checkbox x); cbn; congruence.
Qed.

(** X16. When every checkbox agrees with the selection of its option,
    it still does after any series of clicks; a run that gets past the
    already-selected test makes them agree whatever they were. *)
Theorem checkboxes_follow_selection (env : host)
    (isSafeCssUrl : option (string -> bool)) (pg : page) :
  (Forall checkbox_agrees (options pg) ->
   forall ts,
     Forall checkbox_agrees (options (clicks env isSafeCssUrl ts pg))) /\
  (forall this o,
     options pg !! this = Some o -> opt_selected o = false ->
     Forall checkbox_agrees
       (options (page_of (handleSchemeSelection env isSafeCssUrl this pg)))).
Proof.
  split.
  - intros H ts. revert pg H. induction ts as [|t ts IH]; intros pg H;
      [exact H|].
    apply IH. now apply handler_checkbox.
  - intros this o Ho Hs. rewrite handleSchemeSelection_options, Ho, Hs.
    apply Forall_alter.
    + apply Forall_fmap, Forall_true. intros x b.
      cbn. destruct (opt_checkbox x); cbn; congruence.
    + intros x _ _ b. cbn. destruct (opt_checkbox x); cbn; congruence.
Qed.

(** X17. A second click on the same option changes nothing more. *)
Theorem second_click_is_idle (env : host)
    (isSafeCssUrl : option (string -> bool)) (this : nat) (pg : page) :
  clicks env isSafeCssUrl [this; this] pg = clicks env isSafeCssUrl [this] pg.
Proof.
  unfold clicks. cbn [foldl].
  set (pg1 := page_of (handleSchemeSelection env isSafeCssUrl this pg)).
  assert (H : options pg1 !! this = None \/
              exists o, options pg1 !! this = Some o /\ opt_selected o = true).
  { unfold pg1. rewrite handleSchemeSelection_options.
    destruct (options pg !! this) as [o|] eqn:E; [|now left].
    right. destruct (opt_selected o) eqn:Es; [eauto|].
    rewrite list_lookup_alter_eq, list_lookup_fmap, E. cbn. eauto. }
  unfold handleSchemeSelection at 1.
  destruct H as [-> | (o & -> & ->)]; reflexivity.
Qed.

Lemma handler_safe env isSafe this pg :
  safe_sheet pg ->
  safe_sheet (page_of (handleSchemeSelection env isSafe this pg)).
Proof.
  intros H. unfold handleSchemeSelection.
  destruct (options pg !! this) as [o|]; [|exact H].
  destruct (opt_selected o); [exact H|]. cbn [stylesheet].
  destruct (stylesheet pg) as [sheet|] eqn:E;
    [|intros sheet' Hs; cbn in Hs; congruence].
  intros sheet' Hs. cbn in Hs. injection Hs as <-.
  assert (H1 : Forall safe_link
                 (if (length sheet =? 0)%nat then [Link None] else sheet)).
  { destruct (length sheet =? 0)%nat; [|now apply H].
    constructor; [intros u; discriminate|constructor]. }
  destruct (sanitizeCssUrl env (opt_css_url o) None isSafe) as [u|] eqn:Hu;
    [|exact H1].
  destruct (truthy (Some u)); [|exact H1].
  apply Forall_fmap, Forall_true. intros _ v [= <-].
  now destruct (sanitizeCssUrl_undefined_scheme env _ _ u Hu)
    as (_ & _ & _ & _ & D).
Qed.

(** X18. If no stylesheet element starts out with an [href] that begins
    with [javascript:], [data:] or [vbscript:], none has one after any
    series of clicks, whatever URLs the options carry. *)
Theorem clicks_keep_sheet_safe (env : host)
    (isSafeCssUrl : option (string -> bool)) (ts : list nat) (pg : page) :
  safe_sheet pg -> safe_sheet (clicks env isSafeCssUrl ts pg).
Proof.
  revert pg. induction ts as [|t ts IH]; intros pg H; [exact H|].
  apply IH. now apply handler_safe.
Qed.

Lemma checkboxes_follow_selection_witness :
  Forall checkbox_agrees
    (options (clicks admin_page None [1; 2; 1]%nat sample_picker)).
Proof.
  apply (proj1 (checkboxes_follow_selection admin_page None sample_picker)).
  repeat constructor; intros b [= <-]; reflexivity.
Defined.

Lemma clicks_keep_sheet_safe_witness :
  safe_sheet (clicks admin_page None [2; 1; 2]%nat sample_picker).
Proof.
  apply clicks_keep_sheet_safe.
  intros sheet [= <-]. repeat constructor. intros u [= <-]. reflexivity.
Defined.

(** ** [updateCustomSchemeUrl] *)

Lemma digit_char_digit n : 0 <= n -> is_digit (digit_char (n mod 10)) = true.
Proof.
  intros _.
  assert (H : 0 <= n mod 10 < 10) by (apply Z.mod_pos_bound; lia).
  assert (E : n mod 10 = 0 \/ n mod 10 = 1 \/ n mod 10 = 2 \/ n mod 10 = 3 \/
              n mod 10 = 4 \/ n mod 10 = 5 \/ n mod 10 = 6 \/ n mod 10 = 7 \/
              n mod 10 = 8 \/ n mod 10 = 9) by lia.
  repeat (destruct E as [-> | E]; [reflexivity|]). now rewrite E.
Qed.

Lemma radix_digits_decimal fuel n acc :
  0 <= n -> all_chars is_digit acc = true ->
  all_chars is_digit (radix_digits fuel 10 n acc) = true.
Proof.
  revert n acc. induction fuel as [|f IH]; intros n acc Hn Ha; [exact Ha|].
  cbn [radix_digits].
  assert (Ha' : all_chars is_digit (String (digit_char (n mod 10)) acc) = true).
  { unfold all_chars. cbn [list_ascii_of_string forallb].
    rewrite digit_char_digit by exact Hn. exact Ha. }
  destruct (n <? 10); [exact Ha'|].
  apply IH; [apply Z.div_pos; lia | exact Ha'].
Qed.

Lemma radix_digits_nonempty fuel radix n acc :
  acc <> "" -> radix_digits fuel radix n acc <> "".
Proof.
  revert n acc. induction fuel as [|f IH]; intros n acc Ha; [exact Ha|].
  cbn [radix_digits]. destruct (n <? radix); [discriminate|].
  apply IH. discriminate.
Qed.

(** The decimal form of a number that is not negative: digits, at
    least one. *)
Lemma decimal_digits n :
  0 <= n ->
  all_chars is_digit (Number_to_string (Some n)) = true /\
  Number_to_string (Some n) <> "".
Proof.
  intros Hn. unfold Number_to_string, toString_radix.
  destruct (Z.ltb_spec n 0); [lia|]. split.
  - now apply radix_digits_decimal.
  - cbn [radix_digits]. destruct (n <? 10); [discriminate|].
    apply radix_digits_nonempty. discriminate.
Qed.

(** X23. When the module URL holds no [ver=] parameter, the URL
    [updateCustomSchemeUrl] builds holds exactly one, at its end, with
    the time in whole seconds as its digits: the one shape of input for
    which the cache busting of [sanitizeCssUrl] replaces the parameter. *)
Theorem custom_scheme_url_version (env : host) (cfg : config) :
  0 <= Date_now env ->
  count_ver (or_empty (moduleUrl cfg)) = 0%nat ->
  count_ver (custom_scheme_url env cfg) = 1%nat /\
  sole_numeric_ver (custom_scheme_url env cfg) /\
  replace_ver (custom_scheme_url env cfg)
  = or_empty (moduleUrl cfg) +:+ "admin-styles-css.php?ppc_custom_scheme=1".
Proof.
  intros Hn Hm.
  assert (Hq : 0 <= Date_now env / 1000) by (apply Z.div_pos; lia).
  destruct (decimal_digits (Date_now env / 1000) Hq) as [Hd Hne].
  set (pre := or_empty (moduleUrl cfg)
              +:+ "admin-styles-css.php?ppc_custom_scheme=1").
  assert (E : custom_scheme_url env cfg
              = pre +:+ String "&"
                  ("ver=" +:+ Number_to_string (Some (Date_now env / 1000)))).
  { unfold custom_scheme_url, pre. now rewrite !append_assoc. }
  assert (Hpre : count_ver pre = 0%nat).
  { unfold pre. rewrite count_ver_app by reflexivity. now rewrite Hm. }
  assert (Hc : count_ver (custom_scheme_url env cfg) = 1%nat).
  { rewrite E, count_ver_appended by reflexivity. now rewrite Hpre. }
  split; [exact Hc|]. split.
  - exists pre, "&"%char, (Number_to_string (Some (Date_now env / 1000))), "".
    rewrite append_empty_r. repeat split; auto.
  - rewrite E. rewrite replace_ver_app by (exact Hpre || reflexivity).
    rewrite <- (append_empty_r (Number_to_string (Some (Date_now env / 1000)))).
    rewrite replace_ver_here by (auto || reflexivity).
    apply append_empty_r.
Qed.

Lemma custom_scheme_url_version_witness :
  let cfg := Config (Some "https://example.com/wp-content/plugins/caps/")
               {["publishpress-custom" := "old.css"]} in
  count_ver (custom_scheme_url admin_page cfg) = 1%nat /\
  sole_numeric_ver (custom_scheme_url admin_page cfg) /\
  replace_ver (custom_scheme_url admin_page cfg)
  = or_empty (moduleUrl cfg) +:+ "admin-styles-css.php?ppc_custom_scheme=1".
Proof.
  intros cfg. apply custom_scheme_url_version.
  - vm_compute. discriminate.
  - reflexivity.
Defined.

Lemma selected_count_imap (f : nat -> color_option -> color_option) l :
  (forall i o, opt_selected (f i o) = opt_selected o) ->
  selected_count (imap f l) = selected_count l.
Proof.
  revert f. induction l as [|o l IH]; intros f Hf; [reflexivity|].
  cbn [imap selected_count]. rewrite Hf. f_equal.
  apply IH. intros i x. apply Hf.
Qed.

(** X24. [updateCustomSchemeUrl] writes one and the same URL to the
    configuration entry of the custom scheme when there is one, to the
    [.css_url] input of every custom option that has one and, when the
    custom scheme is current, to every stylesheet element; there it
    ends with a [TypeError] when no stylesheet object is stored.  It
    changes nothing else of a custom option, no other option, no other
    configuration entry, no selection, and leaves the stylesheet alone
    when another scheme is current. *)
Theorem updateCustomSchemeUrl_in_step (env : host) (custom : nat -> bool)
    (cfg : config) (pg : page) :
  let newUrl := custom_scheme_url env cfg in
  let cfg' := fst (updateCustomSchemeUrl env custom cfg pg) in
  let pg' := page_of (snd (updateCustomSchemeUrl env custom cfg pg)) in
  (is_Some (colorSchemes cfg !! "publishpress-custom") ->
   colorSchemes cfg' !! "publishpress-custom" = Some newUrl)
  /\ (colorSchemes cfg !! "publishpress-custom" = None -> cfg' = cfg)
  /\ (forall i o, custom i = true -> options pg !! i = Some o ->
        options pg' !! i
        = Some (ColorOption (opt_selected o) (opt_radio o) (opt_checkbox o)
                  (match opt_css_url o with
                   | Some _ => Some newUrl
                   | None => None
                   end)))
  /\ (currentScheme pg = Some "publishpress-custom" ->
      (forall sheet, stylesheet pg = Some sheet ->
         snd (updateCustomSchemeUrl env custom cfg pg) = Normal pg' /\
         stylesheet pg'
         = Some (replicate (length sheet) (Link (Some newUrl)))) /\
      (stylesheet pg = None ->
       snd (updateCustomSchemeUrl env custom cfg pg) = Throw "TypeError" pg' /\
       stylesheet pg' = None))
  /\ length (options pg') = length (options pg)
  /\ selected_count (options pg') = selected_count (options pg)
  /\ (forall i o, custom i = false -> options pg !! i = Some o ->
        options pg' !! i = Some o)
  /\ (forall k, k <> "publishpress-custom" ->
        colorSchemes cfg' !! k = colorSchemes cfg !! k)
  /\ dom (colorSchemes cfg') = dom (colorSchemes cfg)
  /\ (currentScheme pg <> Some "publishpress-custom" ->
      snd (updateCustomSchemeUrl env custom cfg pg) = Normal pg' /\
      stylesheet pg' = stylesheet pg)
  /\ currentScheme pg' = currentScheme pg.
Proof.
  intros newUrl cfg' pg'.
  assert (Hcfg : cfg' = match colorSchemes cfg !! "publishpress-custom" with
                        | Some _ =>
                            Config (moduleUrl cfg)
                              (<["publishpress-custom" := newUrl]>
                                 (colorSchemes cfg))
                        | None => cfg
                        end).
  { unfold cfg', updateCustomSchemeUrl. cbn [currentScheme stylesheet].
    destruct (strict_eq (currentScheme pg) "publishpress-custom");
      [destruct (stylesheet pg)|]; reflexivity. }
  assert (Hopt : options pg'
                 = imap (fun i o => if custom i then set_css_url newUrl o else o)
                     (options pg)).
  { unfold pg', updateCustomSchemeUrl. cbn [currentScheme stylesheet].
    destruct (strict_eq (currentScheme pg) "publishpress-custom");
      [destruct (stylesheet pg)|]; reflexivity. }
  repeat apply conj.
  - rewrite Hcfg. intros [v E]. rewrite E. cbn [colorSchemes].
    now rewrite lookup_insert_eq.
  - rewrite Hcfg. now intros ->.
  - intros i o Hc Ho. rewrite Hopt, list_lookup_imap, Ho. cbn.
    rewrite Hc. unfold set_css_url. now destruct (opt_css_url o).
  - intros H. split.
    + intros sheet Hs. unfold pg', updateCustomSchemeUrl.
      cbn [currentScheme stylesheet]. rewrite H, Hs.
      change (strict_eq (Some "publishpress-custom") "publishpress-custom")
        with true. cbv iota. cbn [snd page_of stylesheet].
      split; [reflexivity|]. now rewrite fmap_const_replicate.
    + intros Hs. unfold pg', updateCustomSchemeUrl.
      cbn [currentScheme stylesheet]. rewrite H, Hs.
      change (strict_eq (Some "publishpress-custom") "publishpress-custom")
        with true. cbv iota. cbn [snd page_of stylesheet].
      split; reflexivity.
  - rewrite Hopt. apply length_imap.
  - rewrite Hopt. apply selected_count_imap. intros i o.
    now destruct (custom i).
  - intros i o Hc Ho. rewrite Hopt, list_lookup_imap, Ho. cbn.
    now rewrite Hc.
  - intros k Hk. rewrite Hcfg.
    destruct (colorSchemes cfg !! "publishpress-custom"); [|reflexivity].
    cbn [colorSchemes]. now rewrite lookup_insert_ne.
  - rewrite Hcfg.
    destruct (colorSchemes cfg !! "publishpress-custom") eqn:E;
      [|reflexivity].
    cbn [colorSchemes]. rewrite dom_insert_L.
    apply subseteq_union_1_L, singleton_subseteq_l, elem_of_dom. eauto.
  - intros H. unfold pg', updateCustomSchemeUrl.
    cbn [currentScheme stylesheet].
    rewrite (strict_eq_false _ _ H). split; reflexivity.
  - unfold pg', updateCustomSchemeUrl. cbn [currentScheme stylesheet].
    destruct (strict_eq (currentScheme pg) "publishpress-custom");
      [destruct (stylesheet pg)|]; reflexivity.
Qed.

(** ** [handleEditCustomScheme] *)

Lemma updateCustomSchemeUrl_in_step_witness :
  let newUrl :=
    "https://example.com/caps/admin-styles-css.php"
      +:+ "?ppc_custom_scheme=1&ver=1700000000" in
  let cfg := Config (Some "https://example.com/caps/")
               {["publishpress-custom" := "old.css"]} in
  let pg := Page [ColorOption false (Some "fresh") (Some false)
                    (Some "/fresh.css");
                  ColorOption true (Some "publishpress-custom") (Some true)
                    (Some "old.css")]
              (Some "publishpress-custom") false true
              (Some [Link (Some "old.css")])
              (Some "publishpress-custom") in
  let r := updateCustomSchemeUrl admin_page (fun i => Nat.eqb i 1) cfg pg in
  colorSchemes (fst r) !! "publishpress-custom" = Some newUrl /\
  options (page_of (snd r)) !! 1%nat
  = Some (ColorOption true (Some "publishpress-custom") (Some true)
            (Some newUrl)) /\
  stylesheet (page_of (snd r)) = Some [Link (Some newUrl)].
Proof.
  intros newUrl cfg pg r.
  pose proof (updateCustomSchemeUrl_in_step admin_page (fun i => Nat.eqb i 1)
                cfg pg) as H.
  cbv zeta in H. destruct H as (H1 & _ & H3 & H4 & _).
  split; [|split].
  - apply H1. vm_compute. eauto.
  - apply (H3 1%nat (ColorOption true (Some "publishpress-custom") (Some true)
                       (Some "old.css"))); reflexivity.
  - apply (proj1 (H4 eq_refl) [Link (Some "old.css")]). reflexivity.
Defined.

(** X25. With one custom option, not yet selected, whose radio value is
    [publishpress-custom], and the stylesheet set up by [init], a click
    on the edit icon while another scheme is current completes with the
    custom scheme current, its option the only one selected and the
    editor shown; while the custom scheme is current it only shows the
    editor. *)
Theorem edit_icon_selects_custom (env : host)
    (isSafeCssUrl : option (string -> bool)) (i : nat) (pg : page)
    (o : color_option) (sheet : list link) :
  options pg !! i = Some o ->
  opt_radio o = Some "publishpress-custom" ->
  opt_selected o = false ->
  stylesheet pg = Some sheet ->
  (currentScheme pg <> Some "publishpress-custom" ->
   exists pg',
     handleEditCustomScheme env isSafeCssUrl [i] pg = Normal pg' /\
     currentScheme pg' = Some "publishpress-custom" /\
     editor_shown pg' = true /\
     selected_count (options pg') = 1%nat /\
     (forall j o', options pg' !! j = Some o' ->
                   opt_selected o' = bool_decide (j = i))) /\
  (currentScheme pg = Some "publishpress-custom" ->
   handleEditCustomScheme env isSafeCssUrl [i] pg = Normal (show_editor pg)).
Proof.
  intros Ho Hr Hs Hsheet. split.
  - intros Hcur. unfold handleEditCustomScheme.
    rewrite (strict_eq_false _ _ Hcur). cbn [negb trigger_clicks].
    unfold handleSchemeSelection. rewrite Ho, Hs. cbn [stylesheet].
    rewrite Hsheet. eexists. split; [reflexivity|].
    cbn [show_editor currentScheme editor_shown options].
    split; [exact Hr|]. split; [reflexivity|]. split.
    + apply selected_count_select. now apply lookup_lt_Some in Ho.
    + intros j o'. apply lookup_select.
  - intros Hcur. unfold handleEditCustomScheme. rewrite Hcur. reflexivity.
Qed.

Lemma edit_icon_selects_custom_witness :
  let pg := Page [ColorOption false (Some "publishpress-custom") (Some false)
                    (Some "/custom.css");
                  ColorOption true (Some "fresh") (Some true)
                    (Some "/fresh.css")]
              (Some "fresh") false false (Some [Link (Some "/fresh.css")])
              (Some "fresh") in
  exists pg',
    handleEditCustomScheme admin_page None [0%nat] pg = Normal pg' /\
    currentScheme pg' = Some "publishpress-custom" /\
    editor_shown pg' = true /\
    selected_count (options pg') = 1%nat /\
    (forall j o', options pg' !! j = Some o' ->
                  opt_selected o' = bool_decide (j = 0%nat)).
Proof.
  intros pg.
  destruct (edit_icon_selects_custom admin_page None 0 pg
              (ColorOption false (Some "publishpress-custom") (Some false)
                 (Some "/custom.css"))
              [Link (Some "/fresh.css")]) as [H _]; try reflexivity.
  apply H. discriminate.
Defined.

(** ** [reorderColorSchemes] *)

Lemma filter_split {A} (f : A -> bool) (l : list A) :
  (List.filter f l ++ List.filter (fun x => negb (f x)) l)%list ≡ₚ l.
Proof.
  induction l as [|a l IH]; [reflexivity|].
  cbn [List.filter]. destruct (f a); cbn [negb app].
  - now rewrite IH.
  - rewrite <- Permutation_middle. now rewrite IH.
Qed.

Lemma filter_none {A} (f : A -> bool) (l : list A) :
  List.filter f l = [] -> List.filter (fun x => negb (f x)) l = l.
Proof.
  induction l as [|a l IH]; [reflexivity|].
  cbn [List.filter]. destruct (f a); [discriminate|].
  intros H. cbn [negb]. now rewrite IH.
Qed.

Lemma reorderColorSchemes_eq {A} (custom : A -> bool) (l : list A) :
  reorderColorSchemes custom l
  = (List.filter custom l ++ List.filter (fun x => negb (custom x)) l)%list.
Proof.
  unfold reorderColorSchemes.
  destruct (List.filter custom l) as [|a r] eqn:E; [|reflexivity].
  cbn. symmetry. now apply filter_none.
Qed.

Lemma filter_filter_same {A} (f : A -> bool) (l : list A) :
  List.filter f (List.filter f l) = List.filter f l.
Proof.
  induction l as [|a l IH]; [reflexivity|].
  cbn [List.filter]. destruct (f a) eqn:E; [|exact IH].
  cbn [List.filter]. now rewrite E, IH.
Qed.

Lemma filter_filter_other {A} (f g : A -> bool) (l : list A) :
  (forall x, g x = true -> f x = false) ->
  List.filter f (List.filter g l) = [].
Proof.
  intros H. induction l as [|a l IH]; [reflexivity|].
  cbn [List.filter]. destruct (g a) eqn:E; [|exact IH].
  cbn [List.filter]. now rewrite (H a E).
Qed.

Lemma selected_count_app l1 l2 :
  selected_count (l1 ++ l2)%list = (selected_count l1 + selected_count l2)%nat.
Proof.
  induction l1 as [|o l1 IH]; [reflexivity|].
  cbn [app selected_count]. rewrite IH. lia.
Qed.

Lemma selected_count_filter (f : color_option -> bool) l :
  (selected_count (List.filter f l)
   + selected_count (List.filter (fun x => negb (f x)) l)
   = selected_count l)%nat.
Proof.
  induction l as [|o l IH]; [reflexivity|].
  cbn [List.filter selected_count].
  destruct (f o); cbn [negb selected_count]; lia.
Qed.

(** X26. [reorderColorSchemes] lists the custom options first and the
    others after them, each group in its old order; the options are the
    same ones, as many of them are selected as before, and running it a
    second time changes nothing. *)
Theorem reorderColorSchemes_rearranges (custom : color_option -> bool)
    (l : list color_option) :
  reorderColorSchemes custom l
  = (List.filter custom l ++ List.filter (fun x => negb (custom x)) l)%list /\
  reorderColorSchemes custom l ≡ₚ l /\
  selected_count (reorderColorSchemes custom l) = selected_count l /\
  reorderColorSchemes custom (reorderColorSchemes custom l)
  = reorderColorSchemes custom l.
Proof.
  split; [apply reorderColorSchemes_eq|].
  split; [rewrite reorderColorSchemes_eq; apply filter_split|].
  split.
  - rewrite reorderColorSchemes_eq, selected_count_app.
    apply selected_count_filter.
  - rewrite !reorderColorSchemes_eq, !List.filter_app.
    rewrite !filter_filter_same.
    rewrite (filter_filter_other custom (fun x => negb (custom x)))
      by (intros x Hx; now apply negb_true_iff in Hx).
    rewrite (filter_filter_other (fun x => negb (custom x)) custom)
      by (intros x Hx; now rewrite Hx).
    now rewrite app_nil_r.
Qed.

(** ** Role change and button text *)

Lemma encode_unit_escaped c : all_chars escaped_char (encode_unit c) = true.
Proof. destruct c as [[] [] [] [] [] [] [] []]; vm_compute; reflexivity. Qed.

Lemma encode_unit_nonempty c : encode_unit c <> "".
Proof. destruct c as [[] [] [] [] [] [] [] []]; vm_compute; discriminate. Qed.

Lemma encodeURIComponent_escaped s :
  all_chars escaped_char (encodeURIComponent s) = true.
Proof.
  induction s as [|c s IH]; [reflexivity|].
  cbn [encodeURIComponent]. rewrite all_chars_app, encode_unit_escaped, IH.
  reflexivity.
Qed.

Lemma encodeURIComponent_unreserved s :
  all_chars is_unreserved s = true -> encodeURIComponent s = s.
Proof.
  induction s as [|c s IH]; [reflexivity|].
  unfold all_chars. cbn [list_ascii_of_string forallb].
  intros [Hc Hs]%andb_true_iff.
  cbn [encodeURIComponent]. unfold encode_unit. rewrite Hc.
  cbn [String.append]. now rewrite IH.
Qed.

Lemma in_all_units c : In c all_units.
Proof.
  unfold all_units. rewrite <- (ascii_nat_embedding c).
  apply in_map, in_seq. pose proof (nat_ascii_bounded c). lia.
Qed.

Lemma encode_unit_overlap_check :
  forallb (fun a => forallb (fun b =>
     Ascii.eqb a b || negb (overlap (encode_unit a) (encode_unit b)))
     all_units) all_units = true.
Proof. vm_compute. reflexivity. Qed.

Lemma encode_unit_overlap a b :
  overlap (encode_unit a) (encode_unit b) = true -> a = b.
Proof.
  intros H. pose proof encode_unit_overlap_check as C.
  rewrite forallb_forall in C. specialize (C a (in_all_units a)).
  rewrite forallb_forall in C. specialize (C b (in_all_units b)).
  cbv beta in C. rewrite H in C. cbn in C.
  rewrite orb_false_r in C. now apply Ascii.eqb_eq.
Qed.

Lemma append_overlap a b r1 r2 :
  a +:+ r1 = b +:+ r2 -> overlap a b = true.
Proof.
  unfold overlap. revert b. induction a as [|x a IH]; intros b H.
  - reflexivity.
  - destruct b as [|y b].
    + cbn. reflexivity.
    + cbn [String.append] in H. injection H as -> H.
      rewrite !startsWith_cons, Ascii.eqb_refl. cbn. now apply IH.
Qed.

Lemma append_cancel_l a r1 r2 : a +:+ r1 = a +:+ r2 -> r1 = r2.
Proof.
  induction a as [|x a IH]; cbn [String.append]; [easy|].
  intros [= H]. now apply IH.
Qed.

Lemma append_nonempty a b : a <> "" -> a +:+ b <> "".
Proof. destruct a; [easy|]. cbn [String.append]. discriminate. Qed.

Lemma substitution_plain m b a r :
  all_chars (not_char "$") r = true -> substitution m b a r = r.
Proof.
  induction r as [|c r IH]; [reflexivity|].
  unfold all_chars. cbn [list_ascii_of_string forallb].
  intros [Hc Hr]%andb_true_iff. unfold not_char in Hc.
  apply negb_true_iff in Hc. cbn [substitution]. rewrite Hc.
  now rewrite IH.
Qed.

Lemma replace_from_hit r before pre post :
  all_chars (not_char "%") pre = true ->
  replace_from "%s" r before (pre +:+ "%s" +:+ post)
  = (before +:+ pre) +:+ substitution "%s" (before +:+ pre) post r +:+ post.
Proof.
  revert before. induction pre as [|c pre IH]; intros before H.
  - rewrite append_empty_r. reflexivity.
  - unfold all_chars in H. cbn [list_ascii_of_string forallb] in H.
    apply andb_true_iff in H as [Hc Hp]. unfold not_char in Hc.
    apply negb_true_iff in Hc.
    cbn [String.append replace_from].
    rewrite startsWith_cons, Ascii.eqb_sym, Hc. cbn [andb].
    rewrite IH by exact Hp.
    now rewrite !append_assoc.
Qed.

Lemma replace_from_miss r before s :
  all_chars (not_char "%") s = true ->
  replace_from "%s" r before s = before +:+ s.
Proof.
  revert before. induction s as [|c s IH]; intros before H.
  - cbn. now rewrite append_empty_r.
  - unfold all_chars in H. cbn [list_ascii_of_string forallb] in H.
    apply andb_true_iff in H as [Hc Hp]. unfold not_char in Hc.
    apply negb_true_iff in Hc.
    cbn [replace_from]. rewrite startsWith_cons, Ascii.eqb_sym, Hc.
    cbn [andb]. rewrite IH by exact Hp. now rewrite append_assoc.
Qed.

(** X27. With no role selected [handleRoleChange] does nothing.  With
    one it disables the select and navigates to [adminUrl], ["&role="]
    and the escaped role, which is not empty and holds unreserved
    characters and [%] only, so none of [&], [=], [#], [?], [/], [+] or
    a space; a role of unreserved characters is passed as it is. *)
Theorem role_change_navigates (adminUrl : string) (v : role_view) :
  handleRoleChange adminUrl None v = v /\
  handleRoleChange adminUrl (Some "") v = v /\
  forall role, role <> "" ->
    let v' := handleRoleChange adminUrl (Some role) v in
    select_disabled v' = true /\
    loading_shown v' = true /\
    location_href v'
      = Some (adminUrl +:+ "&role=" +:+ encodeURIComponent role) /\
    encodeURIComponent role <> "" /\
    all_chars escaped_char (encodeURIComponent role) = true /\
    all_chars (fun c => negb (existsb (Ascii.eqb c)
                 (list_ascii_of_string "&=#?/+ :;,@$[]<>")))
      (encodeURIComponent role) = true /\
    (all_chars is_unreserved role = true -> encodeURIComponent role = role).
Proof.
  split; [reflexivity|]. split; [reflexivity|].
  intros role Hr. cbv zeta. unfold handleRoleChange.
  destruct (String.eqb role "") eqn:E; [apply String.eqb_eq in E; easy|].
  cbn [select_disabled loading_shown location_href].
  repeat split.
  - destruct role as [|c r]; [easy|]. cbn [encodeURIComponent].
    apply append_nonempty, encode_unit_nonempty.
  - apply encodeURIComponent_escaped.
  - pose proof (encodeURIComponent_escaped role) as H.
    unfold all_chars in *. rewrite forallb_forall in *.
    intros c Hc. specialize (H c Hc). revert H. clear.
    destruct c as [[] [] [] [] [] [] [] []]; vm_compute; congruence.
  - apply encodeURIComponent_unreserved.
Qed.

Lemma role_change_navigates_witness :
  location_href (handleRoleChange "admin.php?page=pp" (Some "a&b=c")
                   (RoleView false true false true true None))
  = Some "admin.php?page=pp&role=a%26b%3Dc".
Proof.
  apply (proj2 (proj2 (role_change_navigates "admin.php?page=pp"
           (RoleView false true false true true None))) "a&b=c").
  discriminate.
Defined.

(** X28. [encodeURIComponent] loses nothing: two different roles have
    different escaped forms, so [handleRoleChange] never navigates to
    the same URL for two different roles. *)
Theorem role_change_tells_roles_apart (adminUrl : string) (v : role_view)
    (a b : string) :
  a <> b ->
  encodeURIComponent a <> encodeURIComponent b /\
  (a <> "" -> b <> "" ->
   location_href (handleRoleChange adminUrl (Some a) v)
   <> location_href (handleRoleChange adminUrl (Some b) v)).
Proof.
  assert (I : forall a b, encodeURIComponent a = encodeURIComponent b -> a = b).
  { clear. induction a as [|x a IH]; intros [|y b] H.
    - reflexivity.
    - cbn [encodeURIComponent] in H. symmetry in H.
      now apply append_nonempty in H; [|apply encode_unit_nonempty].
    - cbn [encodeURIComponent] in H.
      now apply append_nonempty in H; [|apply encode_unit_nonempty].
    - cbn [encodeURIComponent] in H.
      pose proof (encode_unit_overlap _ _ (append_overlap _ _ _ _ H)) as ->.
      apply append_cancel_l in H. f_equal. now apply IH. }
  intros Hab. split; [intros H; now apply Hab, I|].
  intros Ha Hb. unfold handleRoleChange.
  destruct (String.eqb a "") eqn:Ea; [apply String.eqb_eq in Ea; easy|].
  destruct (String.eqb b "") eqn:Eb; [apply String.eqb_eq in Eb; easy|].
  cbn [location_href]. intros [= H]. apply Hab.
  apply append_cancel_l in H. change ("&role=" +:+ encodeURIComponent a
    = "&role=" +:+ encodeURIComponent b) in H.
  apply append_cancel_l in H. now apply I.
Qed.

Lemma role_change_tells_roles_apart_witness :
  location_href (handleRoleChange "admin.php?page=pp" (Some "shop manager")
                   (RoleView false true false true true None))
  <> location_href (handleRoleChange "admin.php?page=pp" (Some "shop%20manager")
                   (RoleView false true false true true None)).
Proof.
  apply (role_change_tells_roles_apart "admin.php?page=pp"
           (RoleView false true false true true None)
           "shop manager" "shop%20manager");
    discriminate.
Defined.

(** X29. [updateButtonText] writes the label with its first [%s]
    replaced by the text of the selected option, when that text holds
    no [$]; a label without [%] is written as it is; with no option
    text or no label the button is left alone, and a form without the
    button stays without. *)
Theorem updateButtonText_fills_label (selectedText : string)
    (submit : option string) :
  (forall label, updateButtonText label "" submit = submit) /\
  updateButtonText None selectedText submit = submit /\
  updateButtonText (Some "") selectedText submit = submit /\
  (forall label, updateButtonText label selectedText None = None) /\
  (selectedText <> "" ->
   forall old,
     (forall pre post,
        all_chars (not_char "%") pre = true ->
        all_chars (not_char "$") selectedText = true ->
        updateButtonText (Some (pre +:+ "%s" +:+ post)) selectedText (Some old)
        = Some (pre +:+ selectedText +:+ post)) /\
     (forall label,
        label <> "" -> all_chars (not_char "%") label = true ->
        updateButtonText (Some label) selectedText (Some old) = Some label)).
Proof.
  split; [reflexivity|].
  split; [unfold updateButtonText; cbn; now rewrite andb_false_r|].
  split; [unfold updateButtonText; cbn; now rewrite andb_false_r|].
  split.
  { intros label. unfold updateButtonText.
    now destruct (negb (String.eqb selectedText "") && truthy label). }
  intros Ht old.
  assert (E : String.eqb selectedText "" = false).
  { destruct (String.eqb selectedText "") eqn:E; [|reflexivity].
    apply String.eqb_eq in E. easy. }
  split.
  - intros pre post Hp Hd. unfold updateButtonText. rewrite E.
    assert (T : truthy (Some (pre +:+ "%s" +:+ post)) = true).
    { destruct pre; reflexivity. }
    rewrite T. cbn [negb andb option_map]. f_equal.
    unfold replace_string, or_empty. cbn [default from_option id].
    rewrite replace_from_hit by exact Hp.
    rewrite substitution_plain by exact Hd. reflexivity.
  - intros label Hl Hp. unfold updateButtonText. rewrite E.
    assert (T : truthy (Some label) = true).
    { destruct label; [easy|reflexivity]. }
    rewrite T. cbn [negb andb option_map]. f_equal.
    unfold replace_string, or_empty. cbn [default from_option id].
    now rewrite replace_from_miss.
Qed.

Lemma updateButtonText_fills_label_witness :
  updateButtonText (Some "Save for %s") "Editor" (Some "Save")
  = Some "Save for Editor".
Proof.
  apply (proj1 (proj2 (proj2 (proj2 (proj2
           (updateButtonText_fills_label "Editor" (Some "Save")))))
           ltac:(discriminate) "Save") "Save for " "");
    reflexivity.
Defined.

End AdminStylesExtFacts.

(* ===================================================================== *)
(** * Further properties of twae-migration.js *)
(* ===================================================================== *)

Module MigrationExtFacts.

Import Migration MigrationExt MigrationFacts.

Lemma run_snoc st es e : run st (es ++ [e]) = step (run st es) e.
Proof. unfold run. now rewrite foldl_app. Qed.

(** ** The flag and the editor *)

Lemma elementor_updateMigrationButtonState st :
  elementor (updateMigrationButtonState st) = elementor st /\
  hooked (updateMigrationButtonState st) = hooked st /\
  hasUnsavedChanges (updateMigrationButtonState st) = hasUnsavedChanges st.
Proof.
  unfold updateMigrationButtonState.
  destruct (hasUnsavedChanges st) eqn:E; cbn; auto.
Qed.

(** A run click changes neither the button nor the notice. *)
Lemma click_run_button st :
  run_button (step st ClickRun) = run_button st /\
  notice_data (step st ClickRun) = notice_data st.
Proof.
  cbn [step]. destruct (run_button st) as [b|] eqn:Hb; [|auto].
  destruct (disabled b); [auto|].
  destruct (hasUnsavedChanges st); cbn; auto.
Qed.

Lemma editor_bound_load e b d : editor_bound (load e b d).
Proof.
  destruct e as [s|]; [|split; [reflexivity|discriminate]].
  unfold load, editor_bound, editor_defined. cbn [hooked elementor].
  destruct (elementor_updateMigrationButtonState
              (with_flag
                 (checkUnsaved (State (Some s) false false b d true "" [] []))
                 (State (Some s) false false b d true "" [] [])))
    as (-> & _ & _).
  split; reflexivity.
Qed.

Lemma editor_bound_step st e : editor_bound st -> editor_bound (step st e).
Proof.
  intros [H1 H2]. unfold editor_bound, editor_defined in *.
  destruct e as [| | | | s | [] m | |]; [cbn [step] | | cbn [step] ..].
  - cbn. now split.
  - destruct (click_run_fields st) as (-> & -> & ->). now split.
  - destruct (hooked st) eqn:Hh; [|cbv iota; rewrite ?Hh; now split].
    destruct (elementor_updateMigrationButtonState
                (with_flag (checkUnsaved st) st)) as (-> & -> & ->).
    cbn. rewrite Hh. now split.
  - destruct (hooked st) eqn:Hh; [|cbv iota; rewrite ?Hh; now split].
    destruct (elementor_updateMigrationButtonState (with_flag false st))
      as (-> & -> & ->).
    cbn. rewrite Hh. now split.
  - cbn. split; [|exact H2]. rewrite H1.
    destruct (elementor st); reflexivity.
  - cbn. now split.
  - cbn. now split.
  - cbn. now split.
  - cbn. now split.
Qed.

Lemma editor_bound_run st es : editor_bound st -> editor_bound (run st es).
Proof.
  revert st. induction es as [|e es IH]; intros st H; [exact H|].
  apply IH, editor_bound_step, H.
Qed.

(** A page without [elementor] stays without, and nothing touches its
    button or its flag before a run succeeds. *)
Lemma no_editor_step st e :
  elementor st = None -> hooked st = false ->
  elementor (step st e) = None /\ hooked (step st e) = false /\
  hasUnsavedChanges (step st e) = hasUnsavedChanges st /\
  (is_success e = false -> run_button (step st e) = run_button st).
Proof.
  intros He Hh.
  destruct e as [| | | | s | [] m | |]; [cbn; auto | | cbn [step] ..].
  - destruct (click_run_fields st) as (-> & -> & ->).
    destruct (click_run_button st) as (-> & _). auto.
  - rewrite Hh. auto.
  - rewrite Hh. auto.
  - cbn. rewrite He. auto.
  - cbn. repeat split; auto. discriminate.
  - cbn. auto.
  - cbn. auto.
  - cbn. auto.
Qed.

Lemma no_editor_run st es :
  elementor st = None -> hooked st = false ->
  elementor (run st es) = None /\ hooked (run st es) = false /\
  hasUnsavedChanges (run st es) = hasUnsavedChanges st /\
  (count_events is_success es = O -> run_button (run st es) = run_button st).
Proof.
  revert st. induction es as [|e es IH]; intros st He Hh; [auto|].
  change (run st (e :: es)) with (run (step st e) es).
  destruct (no_editor_step st e He Hh) as (He' & Hh' & Hf' & Hb').
  destruct (IH (step st e) He' Hh') as (-> & -> & -> & Hb).
  split; [reflexivity|]. split; [reflexivity|]. split; [exact Hf'|].
  cbn [count_events]. intros Hs.
  destruct (is_success e); [discriminate|].
  rewrite Hb by exact Hs. now apply Hb'.
Qed.

(** X19. The flag is up only on a page where [elementor] and its saver
    were defined at load, so the toast of a blocked run click is never
    asked of an undefined [elementor].  On any other page no event
    raises the flag, the script leaves the button as it is until a run
    succeeds, and every click on the button while it is enabled
    posts. *)
Theorem flag_needs_editor (e : option bool) (b : option button)
    (d : data_value) (es : list event) :
  let st := run (load e b d) es in
  (hasUnsavedChanges st = true -> is_Some e /\ is_Some (elementor st)) /\
  (e = None ->
   hasUnsavedChanges st = false /\
   (count_events is_success es = O -> run_button st = b) /\
   forall b', run_button st = Some b' -> disabled b' = false ->
     requests (step st ClickRun)
     = Request "twae_run_migration" None false :: requests st).
Proof.
  intros st.
  assert (Hdef : is_Some (elementor st) -> is_Some e).
  { destruct e as [s|]; [eauto|]. unfold st.
    destruct (no_editor_run (load None b d) es eq_refl eq_refl) as (-> & _).
    intros [? ?]; discriminate. }
  destruct (editor_bound_run (load e b d) es (editor_bound_load e b d))
    as [H1 H2]. fold st in H1, H2.
  assert (Hup : hasUnsavedChanges st = true -> is_Some (elementor st)).
  { intros Hf. apply H2 in Hf. rewrite H1 in Hf. unfold editor_defined in Hf.
    destruct (elementor st); [eauto|discriminate]. }
  split.
  - intros Hf. split; [apply Hdef, Hup, Hf | apply Hup, Hf].
  - intros ->.
    destruct (no_editor_run (load None b d) es eq_refl eq_refl)
      as (He & _ & Hf & Hb). fold st in He, Hf, Hb.
    split; [exact Hf|]. split; [exact Hb|].
    intros b' Hb' Hd. cbn [step]. rewrite Hb', Hd, Hf.
    unfold checkUnsaved. rewrite He. reflexivity.
Qed.

(** ** The button mirrors the flag *)

Lemma updateMigrationButtonState_mirrors st b :
  run_button st = Some b -> button_mirrors (updateMigrationButtonState st).
Proof.
  intros Hb. unfold button_mirrors, updateMigrationButtonState.
  destruct (hasUnsavedChanges st) eqn:Hf;
    cbn [with_button run_button hasUnsavedChanges]; rewrite Hb;
    eexists; (split; [reflexivity|]); rewrite Hf; unfold disabled; cbn [attrs].
  - apply bool_decide_eq_true_2. rewrite lookup_insert_eq. eauto.
  - apply bool_decide_eq_false_2. rewrite lookup_delete_eq.
    intros [? ?]; discriminate.
Qed.

(** The events that are neither an editor callback nor a successful
    run leave the callbacks, the button and the flag alone. *)
Lemma step_frame st e :
  is_success e = false -> e <> EditorChange -> e <> AfterSave ->
  hooked (step st e) = hooked st /\
  run_button (step st e) = run_button st /\
  hasUnsavedChanges (step st e) = hasUnsavedChanges st.
Proof.
  intros He H1 H2.
  destruct e as [| | | | s | [] m | |]; try congruence; try discriminate He;
    [cbn; auto | | cbn; auto ..].
  destruct (click_run_fields st) as (_ & -> & ->).
  destruct (click_run_button st) as (-> & _). auto.
Qed.

Lemma mirrors_step st e :
  is_success e = false -> hooked st = true -> button_mirrors st ->
  hooked (step st e) = true /\ button_mirrors (step st e).
Proof.
  intros He Hh (b & Hb & Hd).
  assert (C : e = EditorChange \/ e = AfterSave \/
              (e <> EditorChange /\ e <> AfterSave))
    by (destruct e; auto; right; right; split; discriminate).
  destruct C as [-> | [-> | [N1 N2]]].
  - cbn [step]. rewrite Hh.
    destruct (elementor_updateMigrationButtonState
                (with_flag (checkUnsaved st) st)) as (_ & -> & _).
    split; [exact Hh|].
    apply (updateMigrationButtonState_mirrors _ b). exact Hb.
  - cbn [step]. rewrite Hh.
    destruct (elementor_updateMigrationButtonState (with_flag false st))
      as (_ & -> & _).
    split; [exact Hh|].
    apply (updateMigrationButtonState_mirrors _ b). exact Hb.
  - destruct (step_frame st e He N1 N2) as (E1 & E2 & E3).
    unfold button_mirrors. rewrite E1, E2, E3. eauto.
Qed.

Lemma mirrors_run st es :
  count_events is_success es = O -> hooked st = true -> button_mirrors st ->
  hooked (run st es) = true /\ button_mirrors (run st es).
Proof.
  revert st. induction es as [|e es IH]; intros st Hes Hh Hm; [auto|].
  cbn [count_events] in Hes.
  destruct (is_success e) eqn:He; [discriminate|].
  destruct (mirrors_step st e He Hh Hm) as [Hh' Hm'].
  apply (IH (step st e)); assumption.
Qed.

Lemma flag_needs_editor_witness :
  is_Some (Some false) /\
  is_Some (elementor (run (load (Some false) (Some sample_button) DUndefined)
                        [EditorChange])).
Proof.
  apply (proj1 (flag_needs_editor (Some false) (Some sample_button)
                  DUndefined [EditorChange])).
  vm_compute. reflexivity.
Defined.

(** X20. In the editor, as long as no run has succeeded, the run button
    is disabled exactly when the flag is up, after every event. *)
Theorem button_mirrors_flag (isSaved : bool) (b : button) (d : data_value)
    (es : list event) :
  count_events is_success es = O ->
  let st := run (load (Some isSaved) (Some b) d) es in
  hooked st = true /\
  exists b', run_button st = Some b' /\ disabled b' = hasUnsavedChanges st.
Proof.
  intros Hes st. apply mirrors_run; [exact Hes|reflexivity|].
  unfold load.
  destruct (updateMigrationButtonState_mirrors
              (with_flag
                 (checkUnsaved
                    (State (Some isSaved) false false (Some b) d true "" [] []))
                 (State (Some isSaved) false false (Some b) d true "" [] []))
              b eq_refl) as (b' & Hb & Hd).
  exists b'. split; assumption.
Qed.

Lemma button_mirrors_flag_witness :
  let st := run (load (Some true) (Some sample_button) DUndefined)
              [EditorSaved false; EditorChange; ClickRun; AfterSave;
               ClickRun; RunResponse false "retry"] in
  hooked st = true /\
  exists b', run_button st = Some b' /\ disabled b' = hasUnsavedChanges st.
Proof.
  apply (button_mirrors_flag true sample_button DUndefined). reflexivity.
Defined.

(** ** What the clicks post *)

Lemma notice_data_step st e : notice_data (step st e) = notice_data st.
Proof.
  destruct e as [| | | | s | [] m | |];
    [reflexivity | | cbn [step] ..]; try reflexivity.
  - now destruct (click_run_button st) as (_ & ->).
  - destruct (hooked st); [|reflexivity].
    unfold updateMigrationButtonState.
    now destruct (hasUnsavedChanges (with_flag (checkUnsaved st) st)).
  - destruct (hooked st); reflexivity.
Qed.

Lemma dismiss_value_filled d :
  loose_eq_empty (dismiss_value d) = false /\
  loose_eq_undefined (dismiss_value d) = false.
Proof.
  unfold dismiss_value.
  destruct (loose_eq_empty d || loose_eq_undefined d) eqn:E; [now split|].
  now apply orb_false_iff in E.
Qed.

Lemma dismissals_step d st e :
  dismissals_carry d st -> dismissals_carry d (step st e).
Proof.
  intros [Hd Hr]. split; [now rewrite notice_data_step|].
  destruct e as [| | | | s | [] m | |];
    [cbn [step] | | cbn [step] ..]; try exact Hr.
  - constructor; [|exact Hr]. intros _. cbn. unfold dismiss_value.
    now rewrite Hd.
  - destruct (click_run_requests st) as [-> | [_ ->]]; [exact Hr|].
    constructor; [discriminate|exact Hr].
  - destruct (hooked st); [|exact Hr].
    unfold updateMigrationButtonState.
    now destruct (hasUnsavedChanges (with_flag (checkUnsaved st) st)).
  - destruct (hooked st); exact Hr.
Qed.

(** X21. Every [twae_hide_migration_notice] request carries the notice's
    [tineline-mig] data, or ['twe'] when that is empty or undefined; the
    value posted is never empty nor undefined. *)
Theorem dismiss_posts_value (e : option bool) (b : option button)
    (d : data_value) (es : list event) (r : request) :
  r ∈ requests (run (load e b d) es) ->
  action r = "twae_hide_migration_notice" ->
  value r = Some (dismiss_value d) /\
  loose_eq_empty (dismiss_value d) = false /\
  loose_eq_undefined (dismiss_value d) = false.
Proof.
  intros Hin Ha. split; [|apply dismiss_value_filled].
  assert (H : dismissals_carry d (run (load e b d) es)).
  { assert (H0 : dismissals_carry d (load e b d)).
    { split.
      - destruct e as [s|]; [|reflexivity]. unfold load. cbn [notice_data].
        unfold updateMigrationButtonState.
        now destruct (hasUnsavedChanges _).
      - destruct e as [s|]; [|constructor]. unfold load. cbn [requests].
        unfold updateMigrationButtonState.
        destruct (hasUnsavedChanges _); constructor. }
    revert H0. generalize (load e b d). clear.
    induction es as [|x es IH]; intros st H; [exact H|].
    apply IH, dismissals_step, H. }
  destruct H as [_ H]. rewrite Forall_forall in H. now apply H.
Qed.

Lemma dismiss_posts_value_witness :
  value (Request "twae_hide_migration_notice" (Some (DString "twe")) true)
  = Some (dismiss_value (DNumber 0)) /\
  loose_eq_empty (dismiss_value (DNumber 0)) = false /\
  loose_eq_undefined (dismiss_value (DNumber 0)) = false.
Proof.
  apply (dismiss_posts_value (Some false) (Some sample_button) (DNumber 0)
           [ClickRun; ClickDismiss]).
  - vm_compute. do 1 constructor.
  - reflexivity.
Defined.

(** ** Clicks, requests and toasts *)

Lemma flag_disables_update st : flag_disables (updateMigrationButtonState st).
Proof.
  intros b Hb Hf. destruct (run_button st) as [b0|] eqn:E.
  - destruct (updateMigrationButtonState_mirrors st b0 E) as (b' & Hb' & Hd).
    rewrite Hb in Hb'. injection Hb' as <-. now rewrite Hd.
  - unfold updateMigrationButtonState in Hb.
    destruct (hasUnsavedChanges st); cbn [with_button run_button] in Hb;
      rewrite E in Hb; discriminate.
Qed.

Lemma flag_disables_load e b d : flag_disables (load e b d).
Proof.
  destruct e as [s|]; [|intros b' _ Hf; discriminate].
  unfold load. intros b' Hb Hf. cbn [run_button hasUnsavedChanges] in Hb, Hf.
  exact (flag_disables_update _ b' Hb Hf).
Qed.

Lemma flag_disables_step st e : flag_disables st -> flag_disables (step st e).
Proof.
  intros H.
  destruct e as [| | | | s | [] m | |]; [exact H | | cbn [step] ..];
    try exact H.
  - intros b. destruct (click_run_fields st) as (_ & _ & ->).
    destruct (click_run_button st) as (-> & _). apply H.
  - destruct (hooked st); [apply flag_disables_update|exact H].
  - destruct (hooked st); [apply flag_disables_update|exact H].
  - intros b Hb _. cbn [with_button with_result run_button] in Hb.
    destruct (run_button st) as [b0|]; [|discriminate].
    injection Hb as <-. unfold disabled. cbn [attrs].
    apply bool_decide_eq_true_2. rewrite lookup_insert_eq. eauto.
Qed.

Lemma toasts_updateMigrationButtonState st :
  toasts (updateMigrationButtonState st) = toasts st.
Proof. unfold updateMigrationButtonState. now destruct (hasUnsavedChanges st). Qed.

(** With the button disabled whenever the flag is up, a run click that
    gets to the handler always finds the flag down. *)
Lemma toasts_step st e :
  flag_disables st -> toasts (step st e) = toasts st.
Proof.
  intros H.
  destruct e as [| | | | s | [] m | |]; cbn [step]; try reflexivity.
  - destruct (run_button st) as [b|] eqn:Hb; [|reflexivity].
    destruct (disabled b) eqn:Hd; [reflexivity|].
    destruct (hasUnsavedChanges st) eqn:Hf; [|reflexivity].
    rewrite (H b Hb Hf) in Hd. discriminate.
  - destruct (hooked st); [|reflexivity].
    now rewrite toasts_updateMigrationButtonState.
  - destruct (hooked st); [|reflexivity].
    now rewrite toasts_updateMigrationButtonState.
Qed.

Lemma counts_step st e :
  (count_requests "twae_run_migration" (requests (step st e))
   <= count_requests "twae_run_migration" (requests st)
     + (if is_run_click e then 1 else 0))%nat /\
  (count_requests "twae_hide_migration_notice" (requests (step st e))
   = count_requests "twae_hide_migration_notice" (requests st)
     + (if is_dismiss_click e then 1 else 0))%nat.
Proof.
  destruct e as [| | | | s | [] m | |];
    [cbn; lia | | cbn [step is_run_click is_dismiss_click] ..].
  - cbn [is_run_click is_dismiss_click].
    destruct (click_run_requests st) as [-> | [_ ->]]; cbn; lia.
  - destruct (hooked st); [|lia]. unfold updateMigrationButtonState.
    destruct (hasUnsavedChanges (with_flag (checkUnsaved st) st)); cbn; lia.
  - destruct (hooked st); cbn; lia.
  - cbn. lia.
  - cbn. lia.
  - cbn. lia.
  - cbn. lia.
  - cbn. lia.
Qed.

Lemma counts_run st es :
  flag_disables st ->
  toasts (run st es) = toasts st /\
  (count_requests "twae_run_migration" (requests (run st es))
   <= count_requests "twae_run_migration" (requests st)
     + count_events is_run_click es)%nat /\
  (count_requests "twae_hide_migration_notice" (requests (run st es))
   = count_requests "twae_hide_migration_notice" (requests st)
     + count_events is_dismiss_click es)%nat.
Proof.
  revert st. induction es as [|e es IH]; intros st H;
    [cbn; repeat split; lia|].
  change (run st (e :: es)) with (run (step st e) es).
  destruct (IH (step st e) (flag_disables_step st e H)) as (-> & L & ->).
  destruct (counts_step st e) as [L' ->]. cbn [count_events].
  split; [now apply toasts_step|]. lia.
Qed.

(** Outside the editor, on an enabled button that no run has yet
    turned off, every run click posts. *)
Lemma counts_no_editor es :
  forall st b0,
    elementor st = None -> hooked st = false ->
    hasUnsavedChanges st = false ->
    run_button st = Some b0 -> disabled b0 = false ->
    count_events is_success es = O ->
    count_requests "twae_run_migration" (requests (run st es))
    = (count_requests "twae_run_migration" (requests st)
       + count_events is_run_click es)%nat.
Proof.
  induction es as [|e es IH]; intros st b0 He Hh Hf Hb Hd Hs; [cbn; lia|].
  change (run st (e :: es)) with (run (step st e) es).
  cbn [count_events] in *.
  destruct (is_success e) eqn:Hse; [discriminate|].
  destruct (no_editor_step st e He Hh) as (He' & Hh' & Hf' & Hb').
  rewrite (IH (step st e) b0); try assumption;
    [|congruence|rewrite Hb' by exact Hse; exact Hb].
  assert (E : count_requests "twae_run_migration" (requests (step st e))
              = (count_requests "twae_run_migration" (requests st)
                 + (if is_run_click e then 1 else 0))%nat).
  { destruct e as [| | | | s | [] m | |]; try discriminate Hse;
      cbn [step is_run_click].
    - cbn. lia.
    - rewrite Hb, Hd, Hf. cbn. lia.
    - rewrite Hh. lia.
    - rewrite Hh. lia.
    - cbn. lia.
    - cbn. lia.
    - cbn. lia.
    - cbn. lia. }
  rewrite E. lia.
Qed.

(** X22. The script disables the button whenever it raises the flag,
    and a click on a disabled button does not reach the handler: after
    any series of events no toast has been shown, the run requests are
    at most as many as the clicks on the run button, and exactly as
    many outside the editor on an enabled button while no run has
    succeeded; the dismiss requests number the clicks on the dismiss
    control. *)
Theorem clicks_accounted_for (e : option bool) (b : option button)
    (d : data_value) (es : list event) :
  let st := run (load e b d) es in
  toasts st = [] /\
  (count_requests "twae_run_migration" (requests st)
   <= count_events is_run_click es)%nat /\
  count_requests "twae_hide_migration_notice" (requests st)
  = count_events is_dismiss_click es /\
  (forall b0, e = None -> b = Some b0 -> disabled b0 = false ->
     count_events is_success es = O ->
     count_requests "twae_run_migration" (requests st)
     = count_events is_run_click es).
Proof.
  intros st. unfold st.
  destruct (counts_run (load e b d) es (flag_disables_load e b d))
    as (-> & L & ->).
  assert (H : requests (load e b d) = [] /\ toasts (load e b d) = []).
  { destruct e as [s|]; [|auto]. unfold load. cbn [requests toasts].
    unfold updateMigrationButtonState. now destruct (hasUnsavedChanges _). }
  destruct H as [Hr Ht]. rewrite Hr in *. rewrite Ht.
  split; [reflexivity|]. split; [cbn in L; lia|]. split; [cbn; lia|].
  intros b0 -> -> Hd Hs.
  now rewrite (counts_no_editor es (load None (Some b0) d) b0).
Qed.

Lemma clicks_accounted_for_witness :
  count_requests "twae_run_migration"
    (requests (run (load None (Some sample_button) DUndefined)
                 [ClickRun; RunResponse false "retry"; ClickRun]))
  = 2%nat.
Proof.
  apply (proj2 (proj2 (proj2
           (clicks_accounted_for None (Some sample_button) DUndefined
              [ClickRun; RunResponse false "retry"; ClickRun])))
           sample_button); reflexivity.
Defined.

End MigrationExtFacts.
